(** * KTX2 container decoder

  A shallow embedding of the KTX2 reader ([KTX2/docs/read.js]), of the
  DFD correction of the extension's reader, of the upload helpers and the
  texture loader of [KTX2/media/main.js] and of the libktx wrapper of
  [transcoder.js], with the properties of the decoder stated and proved
  over it.

  Conventions
  - a byte buffer ([ArrayBuffer], [Uint8Array]) is a [list byte];
  - a JavaScript number that holds an integer is a [Z]; sizes and loop
    counters that index lists are [nat];
  - a thrown exception is the [Err] case of [result]; the constructor
    [Error msg] carries the message text of the source. *)

From Stdlib Require Import ZArith Lia Strings.Byte.
From stdpp Require Import base list strings.

(** ** JavaScript platform semantics used by the reader *)

Module JS.

Inductive error : Type :=
| RangeError                        (* bounds check of a typed array or DataView *)
| Error (msg : string)              (* [throw new Error(msg)] *)
| ErrorAt (msg : string) (n : Z)    (* a template message with one number *)
| Thrown.                           (* an exception raised inside external code *)

Inductive result (A : Type) : Type :=
| Ok (a : A)
| Err (e : error).
Arguments Ok {A} a.
Arguments Err {A} e.

Definition bind {A B} (r : result A) (k : A -> result B) : result B :=
  match r with
  | Ok a => k a
  | Err e => Err e
  end.

Definition is_ok {A} (r : result A) : bool :=
  match r with Ok _ => true | Err _ => false end.

(** [for (let i = start; i < start + n; i++) body] over a threaded state. *)
Fixpoint for_range {St : Type} (n start : nat)
    (body : nat -> St -> result St) (s : St) : result St :=
  match n with
  | O => Ok s
  | S n' => bind (body start s) (for_range n' (S start) body)
  end.

#[global] Instance byte_eq_decision : EqDecision byte := Byte.byte_eq_dec.

Definition byte_val (b : byte) : Z := Z.of_N (Byte.to_N b).

Definition zero_byte : byte := "000"%byte.

(** [new Uint8Array(n)]: [n] zero bytes. *)
Definition new_Uint8Array (n : nat) : list byte := replicate n zero_byte.

(** [src.subarray(b, e)]: both ends are clamped to the length. *)
Definition subarray (src : list byte) (b e : nat) : list byte :=
  take (e - b) (drop b src).

(** [dst.set(src, off)]: a [RangeError] when [src] does not fit. *)
Definition TypedArray_set (dst src : list byte) (off : nat) : result (list byte) :=
  if decide (off + length src <= length dst)%nat
  then Ok (list_inserts off src dst)
  else Err RangeError.

(** [new Uint8Array(buffer, off, len)]: a view of [len] bytes at [off];
    a [RangeError] when the range leaves the buffer. *)
Definition view (buffer : list byte) (off len : Z) : result (list byte) :=
  if decide (0 <= off /\ 0 <= len /\ off + len <= Z.of_nat (length buffer))%Z
  then Ok (take (Z.to_nat len) (drop (Z.to_nat off) buffer))
  else Err RangeError.

(** Little-endian unsigned value of a byte sequence. *)
Definition le_uint (bs : list byte) : Z :=
  foldr (fun b acc => byte_val b + 256 * acc)%Z 0%Z bs.

(** [dv.getUintN(off, true)] for [n] bytes: a [RangeError] outside the view. *)
Definition get_le (n : nat) (dv : list byte) (off : Z) : result Z :=
  if decide (0 <= off /\ off + Z.of_nat n <= Z.of_nat (length dv))%Z
  then Ok (le_uint (take n (drop (Z.to_nat off) dv)))
  else Err RangeError.

Definition getUint8 : list byte -> Z -> result Z := get_le 1.
Definition getUint16 : list byte -> Z -> result Z := get_le 2.
Definition getUint32 : list byte -> Z -> result Z := get_le 4.
Definition getBigUint64 : list byte -> Z -> result Z := get_le 8.

(** [Number(b)] for a non-negative BigInt: the nearest double, ties to
    even.  Every double from 2^53 on is an integer, so the result is a [Z]. *)
Definition Number (b : Z) : Z :=
  if (b <? 2 ^ 53)%Z then b
  else
    let sh := (Z.log2 b - 52)%Z in
    let q := (b / 2 ^ sh)%Z in
    let r := (b mod 2 ^ sh)%Z in
    let half := (2 ^ (sh - 1))%Z in
    let q' := if (r <? half)%Z then q
              else if (half <? r)%Z then (q + 1)%Z
              else if Z.even q then q else (q + 1)%Z in
    (q' * 2 ^ sh)%Z.

(** The 32-bit integer operators. *)
Definition ToUint32 (x : Z) : Z := (x mod 2 ^ 32)%Z.

Definition ToInt32 (x : Z) : Z :=
  let m := (x mod 2 ^ 32)%Z in
  if (m <? 2 ^ 31)%Z then m else (m - 2 ^ 32)%Z.

(** [x >> n]: sign-propagating, the count taken modulo 32. *)
Definition shr (x n : Z) : Z := Z.shiftr (ToInt32 x) (ToUint32 n mod 32).

(** [x << n] *)
Definition shl (x n : Z) : Z := ToInt32 (Z.shiftl (ToInt32 x) (ToUint32 n mod 32)).

(** [x & y] and [x | y] *)
Definition bitand (x y : Z) : Z := ToInt32 (Z.land (ToInt32 x) (ToInt32 y)).
Definition bitor (x y : Z) : Z := ToInt32 (Z.lor (ToInt32 x) (ToInt32 y)).

End JS.

Import JS.

Declare Scope result_scope.
Delimit Scope result_scope with result.
Notation "x <- r ;; k" := (JS.bind r (fun x => k))
(at level 100, r at next level, right associativity) : result_scope.

(** ** Upload helpers of main.js *)

Module Main.
Local Open Scope result_scope.

Record Padded : Type := { data : list byte; bytesPerRow : nat }.

(** [Math.ceil(rowStride / 256) * 256] on a non-negative integer. *)
Definition align256 (rowStride : nat) : nat := ((rowStride + 255) / 256 * 256)%nat.

(** [padRows(src, width, height, bytesPerPixel)] *)
Definition padRows (src : list byte) (width height bytesPerPixel : nat)
    : result Padded :=
  let rowStride := (width * bytesPerPixel)%nat in
  let aligned := align256 rowStride in
  if decide (aligned = rowStride)
  then Ok {| data := src; bytesPerRow := rowStride |}
  else
    dst <- for_range height 0
             (fun y dst =>
                let s0 := (y * rowStride)%nat in
                let d0 := (y * aligned)%nat in
                TypedArray_set dst (subarray src s0 (s0 + rowStride)) d0)
             (new_Uint8Array (aligned * height)) ;;
    Ok {| data := dst; bytesPerRow := aligned |}.

(** The byte that [padRows] leaves at column [k] of row [y]: the source
    byte when there is one, zero otherwise. *)
Definition cell (src : list byte) (rowStride y k : nat) : byte :=
  if decide (k < rowStride)%nat
  then default zero_byte (src !! (y * rowStride + k)%nat)
  else zero_byte.

(** [float32ToFloat16(val)], on the bit pattern [x] that [floatView[0] = val]
    leaves in [intView[0]]. *)
Definition float32ToFloat16 (x : Z) : Z :=
  let sign := bitand (shr x 31) 1 in
  let exp := (bitand (shr x 23) 255 - 112)%Z in
  let mant := bitand (shr x 13) 1023 in
  if (exp <=? 0)%Z then
    if (exp <? -10)%Z then shl sign 15
    else
      let mant := shr (bitor mant 1024) (1 - exp) in
      let exp := 0%Z in
      bitor (bitor (shl sign 15) (shl exp 10)) mant
  else if (31 <=? exp)%Z then
    let exp := 31%Z in
    let mant := 0%Z in
    bitor (bitor (shl sign 15) (shl exp 10)) mant
  else bitor (bitor (shl sign 15) (shl exp 10)) mant.

(** *** Values of the bit patterns

    A finite float32 is an integer multiple of 2^-149 and a finite half an
    integer multiple of 2^-24 = 2^125 * 2^-149; values are kept as integers
    in units of 2^-149. *)

Definition f32_sign (x : Z) : Z := ((x / 2 ^ 31) mod 2)%Z.
Definition f32_exp (x : Z) : Z := ((x / 2 ^ 23) mod 256)%Z.
Definition f32_man (x : Z) : Z := (x mod 2 ^ 23)%Z.

(** Magnitude of a float32 pattern, in units of 2^-149. *)
Definition f32_mag (x : Z) : Z :=
  if (f32_exp x =? 0)%Z then f32_man x
  else ((2 ^ 23 + f32_man x) * 2 ^ (f32_exp x - 1))%Z.

Definition f32_value (x : Z) : Z := ((1 - 2 * f32_sign x) * f32_mag x)%Z.

Definition f16_sign (h : Z) : Z := ((h / 2 ^ 15) mod 2)%Z.
Definition f16_exp (h : Z) : Z := ((h / 2 ^ 10) mod 32)%Z.
Definition f16_man (h : Z) : Z := (h mod 2 ^ 10)%Z.

(** Magnitude of a half pattern, in units of 2^-24.  On the pattern of
    infinity the formula gives 2^40, that is 65536, the first magnitude
    past the largest finite half. *)
Definition f16_mag (h : Z) : Z :=
  if (f16_exp h =? 0)%Z then f16_man h
  else ((2 ^ 10 + f16_man h) * 2 ^ (f16_exp h - 1))%Z.

(** Value of a half pattern, in units of 2^-149. *)
Definition f16_value (h : Z) : Z :=
  ((1 - 2 * f16_sign h) * f16_mag h * 2 ^ 125)%Z.

Definition f16_finite (h : Z) : Prop :=
  (0 <= h < 2 ^ 16)%Z /\ f16_exp h <> 31%Z.

(** [h] encodes a finite half nearest to the value of the float32 [x]. *)
Definition nearest_half (x h : Z) : Prop :=
  f16_finite h
  /\ forall h', f16_finite h' ->
       (Z.abs (f16_value h - f32_value x) <= Z.abs (f16_value h' - f32_value x))%Z.

Definition byte_of_Z (z : Z) : byte :=
  default zero_byte (Byte.of_N (Z.to_N (z mod 256))).

(** A float32 pattern with all exponent bits set and a non-zero mantissa. *)
Definition is_nan32 (b : Z) : bool :=
  ((b / 2 ^ 23) mod 256 =? 255)%Z && negb (b mod 2 ^ 23 =? 0)%Z.

(** [convertRGBA32FtoRGBA16F(src, width, height)] for a [src] that views
    [buffer] from [byteOffset] on.  An element read as NaN is written back
    to [floatView] as the pattern [nan_bits] of the engine; every other
    element keeps its bits.  Typed arrays are little-endian. *)
Definition convertRGBA32FtoRGBA16F (nan_bits : Z) (buffer : list byte)
    (byteOffset : Z) (width height : nat) : result (list byte) :=
  let pixelCount := (width * height)%nat in
  if decide (byteOffset mod 4 = 0)%Z then
    f32 <- JS.view buffer byteOffset (Z.of_nat (pixelCount * 4 * 4)) ;;
    Ok (flat_map
          (fun i =>
             let b := le_uint (take 4 (drop (4 * i) f32)) in
             let h := float32ToFloat16 (if is_nan32 b then nan_bits else b) in
             [byte_of_Z h; byte_of_Z (h / 256)])
          (seq 0 (pixelCount * 4)))
  else Err RangeError.

End Main.


(** ** The reader, read.js *)

Module Read.
Local Open Scope Z_scope.

Definition SUPERCOMPRESSION_NONE : Z := 0.
Definition SUPERCOMPRESSION_BASIS_LZ : Z := 1.
Definition SUPERCOMPRESSION_ZSTD : Z := 2.
Definition SUPERCOMPRESSION_ZLIB : Z := 3.

(** *** Data model *)

Record Header : Type := {
  vkFormat : Z;
  typeSize : Z;
  pixelWidth : Z;
  pixelHeight : Z;
  pixelDepth : Z;
  layerCount : Z;
  faceCount : Z;
  levelCount : Z;
  supercompressionScheme : Z
}.

Record Index : Type := {
  dfdByteOffset : Z;
  dfdByteLength : Z;
  kvdByteOffset : Z;
  kvdByteLength : Z;
  sgdByteOffset : Z;
  sgdByteLength : Z
}.

(** A level object.  The three decode-outcome properties are absent until
    the resolver assigns them: [isDecompressed] is [false] while the
    property is missing, the other two are [None]. *)
Record Level : Type := {
  byteOffset : Z;
  byteLength : Z;
  uncompressedByteLength : Z;
  width : Z;
  height : Z;
  isDecompressed : bool;
  decompressedData : option (list byte);
  transcodedFormat : option Z
}.

Record DFD : Type := {
  totalSize : Z;
  vendorId : Z;
  descriptorType : Z;
  versionNumber : Z;
  colorModel : Z;
  colorPrimaries : Z;
  transferFunction : Z;
  flags : Z;
  texelBlockDimension : list Z;
  bytesPlane : list Z;
  descriptorBlockSize : Z
}.

(** A JavaScript string: its UTF-16 code units. *)
Definition jsstring : Type := list Z.

(** The [kv] object: its own properties in creation order. *)
Definition KVD : Type := list (jsstring * jsstring).

Record ParsedTexture : Type := {
  header : Header;
  index : Index;
  levels : list Level;
  dfd : option DFD;
  kvd : option KVD
}.

(** *** External collaborators *)

(** A call into code that is not part of the reader. *)
Inductive call (A : Type) : Type :=
| Returns (a : A)
| Throws.
Arguments Returns {A} a.
Arguments Throws {A}.

(** An open transcoder file, a [KTX2File] or a legacy [BasisFile].  The
    layer, face and image arguments of the source are the constant 0, so
    the per-level operations depend on the level and the target format.
    [transcodeImage] gives the status and the bytes written to [dst]. *)
Record BasisFileObject : Type := {
  startTranscoding : call bool;
  getNumImages : option (call Z);          (* [None]: no such method *)
  getLevels : call Z;                      (* [getLevels()] / [getNumLevels(0)] *)
  getImageTranscodedSizeInBytes : nat -> Z -> call Z;
  transcodeImage : nat -> Z -> call (bool * list byte)
}.

Record BasisModuleT : Type := {
  KTX2File : option (list byte -> call BasisFileObject);
  BasisFile : list byte -> call BasisFileObject
}.

Record Env : Type := {
  TextDecoder_decode : list byte -> jsstring;
  loadFzstd : call (list byte -> call (list byte));   (* gives [fzstdDecompress] *)
  loadBasisModule : call BasisModuleT
}.

(** *** Observable effects *)

Inductive event : Type :=
| Warn_size (level : nat) (actual expected : Z)    (* decompressed size != expected *)
| New_KTX2File                                     (* a handle has been opened *)
| New_BasisFile
| Call_startTranscoding
| Call_getNumImages
| Call_getLevels
| Call_getImageTranscodedSizeInBytes (level : nat) (format : Z)
| Call_transcodeImage (level : nat) (format : Z)
| Log_UASTC (level : nat) (status : bool)          (* "Level i: UASTC -> RGBA32" *)
| Log_ETC1S (level : nat) (format : Z) (status : bool)
| Call_close
| Call_delete.

(** A computation: it extends the trace of events and returns or throws. *)
Definition M (A : Type) : Type := list event -> result A * list event.

Definition ret {A} (a : A) : M A := fun tr => (Ok a, tr).

Definition throw {A} (e : error) : M A := fun tr => (Err e, tr).

Definition bindM {A B} (m : M A) (k : A -> M B) : M B :=
  fun tr =>
    match m tr with
    | (Ok a, tr') => k a tr'
    | (Err e, tr') => (Err e, tr')
    end.

Definition emit (ev : event) : M unit := fun tr => (Ok tt, tr ++ [ev]).

Definition lift {A} (r : result A) : M A := fun tr => (r, tr).

(** [try { m } catch (e) { h e }] *)
Definition catch {A} (m : M A) (h : error -> M A) : M A :=
  fun tr =>
    match m tr with
    | (Ok a, tr') => (Ok a, tr')
    | (Err e, tr') => h e tr'
    end.

(** A method call on the transcoder: recorded, then its outcome. *)
Definition ext {A} (ev : event) (c : call A) : M A :=
  fun tr =>
    match c with
    | Returns a => (Ok a, tr ++ [ev])
    | Throws => (Err Thrown, tr ++ [ev])
    end.

(** A constructor call: the handle exists only when it returns. *)
Definition construct {A} (ev : event) (c : call A) : M A :=
  fun tr =>
    match c with
    | Returns a => (Ok a, tr ++ [ev])
    | Throws => (Err Thrown, tr)
    end.

(** *** Descriptor parsers *)

Local Open Scope result_scope.

(** [parseDFD(dv, baseOffset, length)] *)
Definition parseDFD (buffer : list byte) (baseOffset length : Z) : result DFD :=
  view <- JS.view buffer baseOffset length ;;
  totalSize <- getUint32 view 0 ;;
  vendorId <- getUint16 view 4 ;;
  descriptorType <- getUint16 view 6 ;;
  versionNumber <- getUint16 view 8 ;;
  descriptorBlockSize <- getUint16 view 10 ;;
  colorModel <- getUint8 view 12 ;;
  colorPrimaries <- getUint8 view 13 ;;
  transferFunction <- getUint8 view 14 ;;
  flags <- getUint8 view 15 ;;
  t0 <- getUint8 view 16 ;;
  t1 <- getUint8 view 17 ;;
  t2 <- getUint8 view 18 ;;
  t3 <- getUint8 view 19 ;;
  bytesPlane <- for_range 8 0
                  (fun i acc => b <- getUint8 view (20 + Z.of_nat i) ;; Ok (acc ++ [b]))
                  [] ;;
  Ok {| totalSize := totalSize; vendorId := vendorId;
        descriptorType := descriptorType; versionNumber := versionNumber;
        colorModel := colorModel; colorPrimaries := colorPrimaries;
        transferFunction := transferFunction; flags := flags;
        texelBlockDimension := [t0; t1; t2; t3]; bytesPlane := bytesPlane;
        descriptorBlockSize := descriptorBlockSize |}.

(** [str.indexOf('\0')] *)
Fixpoint indexOf0 (str : jsstring) : option nat :=
  match str with
  | [] => None
  | c :: rest => if decide (c = 0) then Some O else S <$> indexOf0 rest
  end.

(** [kv[key] = value] *)
Fixpoint kv_set (key value : jsstring) (kv : KVD) : KVD :=
  match kv with
  | [] => [(key, value)]
  | (k, v) :: rest =>
      if decide (k = key) then (k, value) :: rest
      else (k, v) :: kv_set key value rest
  end.

(** The [while (offset < baseOffset + length)] loop of [parseKVD]; every
    turn moves [offset] forward by at least 4, [fuel] bounds the turns. *)
Fixpoint parseKVD_loop (decode : list byte -> jsstring) (buffer : list byte)
    (stop : Z) (fuel : nat) (offset : Z) (kv : KVD) : result KVD :=
  match fuel with
  | O => Ok kv
  | S fuel' =>
      if offset <? stop then
        kvByteLength <- getUint32 buffer offset ;;
        let offset := offset + 4 in
        if kvByteLength =? 0 then Ok kv
        else
          bytes <- JS.view buffer offset kvByteLength ;;
          let str := decode bytes in
          let kv := match indexOf0 str with
                    | Some nullPos =>
                        kv_set (take nullPos str) (drop (S nullPos) str) kv
                    | None => kv
                    end in
          let offset := offset + kvByteLength in
          let offset := offset + (4 - kvByteLength mod 4) mod 4 in
          parseKVD_loop decode buffer stop fuel' offset kv
      else Ok kv
  end.

(** [parseKVD(dv, baseOffset, length)] *)
Definition parseKVD (decode : list byte -> jsstring) (buffer : list byte)
    (baseOffset length : Z) : result KVD :=
  parseKVD_loop decode buffer (baseOffset + length) (Z.to_nat length) baseOffset [].

(** *** Container parser: the first half of [parseKTX2] *)

Definition KTX2_IDENTIFIER : list byte :=
  [xab; x4b; x54; x58; x20; x32; x30; xbb; x0d; x0a; x1a; x0a]%byte.

Definition checkIdentifier (identifier : list byte) : result unit :=
  for_range 12 0
    (fun i _ =>
       if decide (identifier !! i = KTX2_IDENTIFIER !! i) then Ok tt
       else Err (Error "Invalid KTX2 identifier"))
    tt.

(** One turn of the level index loop; the state is [(offset, levels)]. *)
Definition readLevel (dv : list byte) (hdr : Header) (i : nat)
    (st : Z * list Level) : result (Z * list Level) :=
  let '(offset, levels) := st in
  bo <- getBigUint64 dv offset ;;
  bl <- getBigUint64 dv (offset + 8) ;;
  ul <- getBigUint64 dv (offset + 16) ;;
  Ok (offset + 24,
      levels ++ [ {| byteOffset := Number bo;
                     byteLength := Number bl;
                     uncompressedByteLength := Number ul;
                     width := Z.max 1 (shr (pixelWidth hdr) (Z.of_nat i));
                     height := Z.max 1 (shr (pixelHeight hdr) (Z.of_nat i));
                     isDecompressed := false;
                     decompressedData := None;
                     transcodedFormat := None |} ]).

(** [Math.max(1, header.levelCount || 1)] *)
Definition iterLevelCount (hdr : Header) : Z :=
  Z.max 1 (if levelCount hdr =? 0 then 1 else levelCount hdr).

(** Identifier, header, index, level index, DFD and KVD. *)
Definition parseContainer (env : Env) (arrayBuffer : list byte)
    : result ParsedTexture :=
  let dv := arrayBuffer in
  identifier <- JS.view arrayBuffer 0 12 ;;
  _ <- checkIdentifier identifier ;;
  if decide (Z.of_nat (length arrayBuffer) < 12 + 68)
  then Err (Error "KTX2 too small to contain header.")
  else
    vkFormat <- getUint32 dv 12 ;;
    typeSize <- getUint32 dv 16 ;;
    pixelWidth <- getUint32 dv 20 ;;
    pixelHeight <- getUint32 dv 24 ;;
    pixelDepth <- getUint32 dv 28 ;;
    layerCount <- getUint32 dv 32 ;;
    faceCount <- getUint32 dv 36 ;;
    levelCount <- getUint32 dv 40 ;;
    supercompressionScheme <- getUint32 dv 44 ;;
    let header := {| vkFormat := vkFormat; typeSize := typeSize;
                     pixelWidth := pixelWidth; pixelHeight := pixelHeight;
                     pixelDepth := pixelDepth; layerCount := layerCount;
                     faceCount := faceCount; levelCount := levelCount;
                     supercompressionScheme := supercompressionScheme |} in
    dfdByteOffset <- getUint32 dv 48 ;;
    dfdByteLength <- getUint32 dv 52 ;;
    kvdByteOffset <- getUint32 dv 56 ;;
    kvdByteLength <- getUint32 dv 60 ;;
    sgdByteOffset <- getBigUint64 dv 64 ;;
    sgdByteLength <- getBigUint64 dv 72 ;;
    let index := {| dfdByteOffset := dfdByteOffset; dfdByteLength := dfdByteLength;
                    kvdByteOffset := kvdByteOffset; kvdByteLength := kvdByteLength;
                    sgdByteOffset := Number sgdByteOffset;
                    sgdByteLength := Number sgdByteLength |} in
    st <- for_range (Z.to_nat (iterLevelCount header)) 0 (readLevel dv header) (80, []) ;;
    dfd <- (if 0 <? dfdByteLength
            then d <- parseDFD dv dfdByteOffset dfdByteLength ;; Ok (Some d)
            else Ok None) ;;
    kvd <- (if 0 <? kvdByteLength
            then k <- parseKVD (TextDecoder_decode env) dv kvdByteOffset kvdByteLength ;;
                 Ok (Some k)
            else Ok None) ;;
    Ok {| header := header; index := index; levels := st.2; dfd := dfd; kvd := kvd |}.

(** [getLevelData(arrayBuffer, level)]; an attached typed array is truthy
    whatever its length. *)
Definition getLevelData (arrayBuffer : list byte) (level : Level)
    : result (list byte) :=
  match isDecompressed level, decompressedData level with
  | true, Some d => Ok d
  | _, _ => JS.view arrayBuffer (byteOffset level) (byteLength level)
  end.

(** *** Supercompression resolver: the second half of [parseKTX2] *)

Notation "x <~ m ;; k" := (bindM m (fun x => k))
  (at level 100, m at next level, right associativity, only parsing).

(** [await] of a loader: a rejected promise throws. *)
Definition await {A} (c : call A) : M A :=
  match c with
  | Returns a => ret a
  | Throws => throw Thrown
  end.

(** [level.decompressedData = d; level.isDecompressed = true] *)
Definition storeDecompressed (d : list byte) (level : Level) : Level :=
  {| byteOffset := byteOffset level;
     byteLength := byteLength level;
     uncompressedByteLength := uncompressedByteLength level;
     width := width level;
     height := height level;
     isDecompressed := true;
     decompressedData := Some d;
     transcodedFormat := transcodedFormat level |}.

(** [isDecompressed = true; decompressedData = dst; transcodedFormat = format] *)
Definition storeTranscoded (dst : list byte) (format : Z) (level : Level) : Level :=
  {| byteOffset := byteOffset level;
     byteLength := byteLength level;
     uncompressedByteLength := uncompressedByteLength level;
     width := width level;
     height := height level;
     isDecompressed := true;
     decompressedData := Some dst;
     transcodedFormat := Some format |}.

(** The Zstandard loop, [for (let i = 0; i < levels.length; i++)], at
    index [i] with [n] levels to go. *)
Fixpoint zstdLoop (fzstdDecompress : list byte -> call (list byte))
    (arrayBuffer : list byte) (n i : nat) (levels : list Level)
    : M (list Level) :=
  match n with
  | O => ret levels
  | S n' =>
      match levels !! i with
      | None => ret levels
      | Some level =>
          compressedData <~
            lift (JS.view arrayBuffer (byteOffset level) (byteLength level)) ;;
          match fzstdDecompress compressedData with
          | Throws => throw (ErrorAt "Failed to decompress level" (Z.of_nat i))
          | Returns decompressedData =>
              let levels := <[i := storeDecompressed decompressedData level]> levels in
              _ <~ (if decide (Z.of_nat (length decompressedData)
                               = uncompressedByteLength level)
                    then ret tt
                    else emit (Warn_size i (Z.of_nat (length decompressedData))
                                 (uncompressedByteLength level))) ;;
              zstdLoop fzstdDecompress arrayBuffer n' (S i) levels
          end
      end
  end.

(** The open transcoder file together with the outcome of
    [BasisModule.KTX2File && basisFile instanceof BasisModule.KTX2File]. *)
Record Handle : Type := { isKTX2File : bool; file : BasisFileObject }.

(** [new Uint8Array(size)] for a size given by the transcoder. *)
Definition alloc (size : Z) : result (list byte) :=
  if decide (0 <= size) then Ok (new_Uint8Array (Z.to_nat size))
  else Err RangeError.

Definition closeAndDelete : M unit :=
  _ <~ emit Call_close ;; emit Call_delete.

(** Size query, allocation and [transcodeImage] of one level; [None] is the
    [break] on a zero size. *)
Definition transcodeLevel (h : Handle) (i : nat) (format : Z)
    : M (option (bool * list byte)) :=
  size <~ ext (Call_getImageTranscodedSizeInBytes i format)
            (getImageTranscodedSizeInBytes (file h) i format) ;;
  if size =? 0 then ret None
  else
    dst <~ lift (alloc size) ;;
    r <~ ext (Call_transcodeImage i format) (transcodeImage (file h) i format) ;;
    ret (Some (r.1, list_inserts 0 r.2 dst)).

(** The level loop of the raw Basis branch: no [try] around the body. *)
Fixpoint rawLoop (h : Handle) (n i : nat) (levels : list Level)
    : M (list Level) :=
  match n with
  | O => ret levels
  | S n' =>
      r <~ transcodeLevel h i 13 ;;
      match r with
      | None => ret levels
      | Some (status, dst) =>
          if status && bool_decide (0 < length dst)%nat
          then rawLoop h n' (S i) (alter (storeTranscoded dst 13) i levels)
          else ret levels
      end
  end.

(** The raw Basis branch from [startTranscoding] on, with the open handle
    [h]. *)
Definition rawSession (h : Handle) (levels : list Level) : M (list Level) :=
  started <~ ext Call_startTranscoding (startTranscoding (file h)) ;;
  if negb started
  then _ <~ closeAndDelete ;; throw (Error "Transcoder failed to initialize")
  else
    transcoderLevelCount <~ ext Call_getLevels (getLevels (file h)) ;;
    let safeLevelCount := Z.min (Z.of_nat (length levels)) transcoderLevelCount in
    levels <~ rawLoop h (Z.to_nat safeLevelCount) 0 levels ;;
    _ <~ closeAndDelete ;;
    ret levels.

(** The branch [vkFormat === 0 && supercompressionScheme === NONE]. *)
Definition resolveRawBasis (env : Env) (arrayBuffer : list byte)
    (levels : list Level) : M (list Level) :=
  BasisModule <~ await (loadBasisModule env) ;;
  h <~ match KTX2File BasisModule with
       | Some new_KTX2File =>
           f <~ construct New_KTX2File (new_KTX2File arrayBuffer) ;;
           ret {| isKTX2File := true; file := f |}
       | None =>
           f <~ construct New_BasisFile (BasisFile BasisModule arrayBuffer) ;;
           ret {| isKTX2File := false; file := f |}
       end ;;
  rawSession h levels.

(** [const isUASTC = (dfd && dfd.colorModel === 166)] *)
Definition isUASTC (dfd : option DFD) : bool :=
  match dfd with
  | Some d => colorModel d =? 166
  | None => false
  end.

(** [getBasisTargetFormatForGPU(device)]: always RGBA32. *)
Definition getBasisTargetFormatForGPU : Z := 13.

(** The body of the [try] of the BasisLZ level loop; the result carries
    [status], [dst] and [actualFormat], [None] is the [break] on a zero
    size. *)
Definition transcodeLevelLZ (h : Handle) (format : Z) (i : nat)
    : M (option (bool * list byte * Z)) :=
  if isKTX2File h then
    let RGBA32 := 13 in
    r <~ transcodeLevel h i RGBA32 ;;
    match r with
    | None => ret None
    | Some (status, dst) =>
        _ <~ emit (Log_UASTC i status) ;; ret (Some (status, dst, RGBA32))
    end
  else
    r <~ transcodeLevel h i format ;;
    match r with
    | None => ret None
    | Some (status, dst) =>
        _ <~ emit (Log_ETC1S i format status) ;; ret (Some (status, dst, format))
    end.

(** The level loop of the BasisLZ branch: an exception in the body is
    caught and ends the loop. *)
Fixpoint lzLoop (h : Handle) (format : Z) (n i : nat) (levels : list Level)
    : M (list Level) :=
  match n with
  | O => ret levels
  | S n' =>
      r <~ catch (transcodeLevelLZ h format i) (fun _ => ret None) ;;
      match r with
      | None => ret levels
      | Some (status, dst, actualFormat) =>
          if status && bool_decide (0 < length dst)%nat
          then lzLoop h format n' (S i)
                 (alter (storeTranscoded dst actualFormat) i levels)
          else ret levels
      end
  end.

(** The BasisLZ branch from [startTranscoding] on, with the open handle
    [h]. *)
Definition lzSession (h : Handle) (levels : list Level) : M (list Level) :=
  started <~ ext Call_startTranscoding (startTranscoding (file h)) ;;
  if negb started
  then _ <~ closeAndDelete ;;
       throw (Error "Transcoder failed to initialize. (Your basis_transcoder.wasm might lack KTX2 support)")
  else
    imageCount <~ (if isKTX2File h then ret 1
                   else match getNumImages (file h) with
                        | Some c => ext Call_getNumImages c
                        | None => ret 1
                        end) ;;
    if imageCount =? 0
    then _ <~ closeAndDelete ;; throw (Error "File has no images")
    else
      let format := getBasisTargetFormatForGPU in
      transcoderLevelCount <~
        catch (ext Call_getLevels (getLevels (file h))) (fun _ => ret 1) ;;
      let safeLevelCount := Z.min (Z.of_nat (length levels)) transcoderLevelCount in
      levels <~ lzLoop h format (Z.to_nat safeLevelCount) 0 levels ;;
      _ <~ closeAndDelete ;;
      ret levels.

(** The branch [supercompressionScheme === BASIS_LZ]. *)
Definition resolveBasisLZ (env : Env) (arrayBuffer : list byte)
    (dfd : option DFD) (levels : list Level) : M (list Level) :=
  let isUASTC := isUASTC dfd in
  let targetFormat := 13 in
  BasisModule <~ await (loadBasisModule env) ;;
  basisFile <~ match KTX2File BasisModule with
               | Some new_KTX2File =>
                   catch (f <~ construct New_KTX2File (new_KTX2File arrayBuffer) ;;
                          ret (Some f))
                         (fun _ => ret None)
               | None => ret None
               end ;;
  h <~ match basisFile with
       | Some f => ret {| isKTX2File := true; file := f |}
       | None =>
           f <~ construct New_BasisFile (BasisFile BasisModule arrayBuffer) ;;
           ret {| isKTX2File := false; file := f |}
       end ;;
  lzSession h levels.

(** The chain [if (scheme === ZSTD) ... else if ... else if ...] that
    follows the container parser in [parseKTX2]. *)
Definition resolveSupercompression (env : Env) (arrayBuffer : list byte)
    (c : ParsedTexture) : M (list Level) :=
  let scheme := supercompressionScheme (header c) in
  if scheme =? SUPERCOMPRESSION_ZSTD then
    fzstdDecompress <~ await (loadFzstd env) ;;
    zstdLoop fzstdDecompress arrayBuffer (length (levels c)) 0 (levels c)
  else if (vkFormat (header c) =? 0) && (scheme =? SUPERCOMPRESSION_NONE) then
    resolveRawBasis env arrayBuffer (levels c)
  else if scheme =? SUPERCOMPRESSION_BASIS_LZ then
    resolveBasisLZ env arrayBuffer (dfd c) (levels c)
  else if scheme =? SUPERCOMPRESSION_ZLIB then
    throw (Error "Zlib supercompression not yet supported. Use Zstd or uncompressed KTX2.")
  else if negb (scheme =? SUPERCOMPRESSION_NONE) then
    throw (ErrorAt "Unknown supercompression scheme" scheme)
  else ret (levels c).

(** [parseKTX2(arrayBuffer, device)]; [device] is only handed to
    [getBasisTargetFormatForGPU], which ignores it. *)
Definition parseKTX2 (env : Env) (arrayBuffer : list byte) : M ParsedTexture :=
  c <~ lift (parseContainer env arrayBuffer) ;;
  levels' <~ resolveSupercompression env arrayBuffer c ;;
  ret {| header := header c; index := index c; levels := levels';
         dfd := dfd c; kvd := kvd c |}.

(** [parseKTX2] started on the empty trace. *)
Definition run (env : Env) (arrayBuffer : list byte)
    : result ParsedTexture * list event :=
  parseKTX2 env arrayBuffer [].

(** The part of a level that the container parser fixes. *)
Definition geometry (l : Level) : Z * Z * Z * Z * Z :=
  (byteOffset l, byteLength l, uncompressedByteLength l, width l, height l).

(** *** The life of the transcoder handle along a trace *)

Inductive handle_state : Type := NoHandle | Open | Closed | Deleted.

Definition handle_step (st : handle_state) (ev : event) : handle_state :=
  match ev with
  | New_KTX2File | New_BasisFile => Open
  | Call_close => match st with Open => Closed | _ => st end
  | Call_delete => match st with Closed => Deleted | _ => st end
  | _ => st
  end.

Definition handle_after (tr : list event) : handle_state :=
  fold_left handle_step tr NoHandle.

(** No handle is left open: none was opened, or the last one was closed
    and deleted. *)
Definition released (tr : list event) : bool :=
  match handle_after tr with
  | NoHandle | Deleted => true
  | Open | Closed => false
  end.

(** A container is on a Basis path: raw Basis data, or BasisLZ. *)
Definition basis_path (c : ParsedTexture) : Prop :=
  (vkFormat (header c) = 0 /\ supercompressionScheme (header c) = SUPERCOMPRESSION_NONE)
  \/ supercompressionScheme (header c) = SUPERCOMPRESSION_BASIS_LZ.

(** *** Which handle a module opens *)

(** The raw Basis branch opens a [KTX2File] when the class exists and a
    [BasisFile] otherwise; [ktx2] is the class of the handle [f]. *)
Definition opens_raw (m : BasisModuleT) (arrayBuffer : list byte)
    (ktx2 : bool) (f : BasisFileObject) : Prop :=
  match KTX2File m with
  | Some new_KTX2File => ktx2 = true /\ new_KTX2File arrayBuffer = Returns f
  | None => ktx2 = false /\ BasisFile m arrayBuffer = Returns f
  end.

(** The BasisLZ branch also falls back to a [BasisFile] when the
    [KTX2File] constructor throws. *)
Definition opens_lz (m : BasisModuleT) (arrayBuffer : list byte)
    (ktx2 : bool) (f : BasisFileObject) : Prop :=
  match KTX2File m with
  | Some new_KTX2File =>
      match new_KTX2File arrayBuffer with
      | Returns f' => ktx2 = true /\ f' = f
      | Throws => ktx2 = false /\ BasisFile m arrayBuffer = Returns f
      end
  | None => ktx2 = false /\ BasisFile m arrayBuffer = Returns f
  end.

Definition New (ktx2 : bool) : event :=
  if ktx2 then New_KTX2File else New_BasisFile.

(** *** Events of the level loops *)

(** What a level loop over a handle of class [ktx2] may log: queries and
    transcodes for target format 13, the UASTC line only on a [KTX2File],
    the ETC1S line only on a [BasisFile]; it neither opens nor releases a
    handle. *)
Definition loop_event (ktx2 : bool) (ev : event) : Prop :=
  match ev with
  | Call_getImageTranscodedSizeInBytes _ format => format = 13
  | Call_transcodeImage _ format => format = 13
  | Log_UASTC _ _ => ktx2 = true
  | Log_ETC1S _ format _ => ktx2 = false /\ format = 13
  | _ => False
  end.

(** What a session may log after its handle was opened: the events of
    the level loop and the calls around it. *)
Definition session_event (ktx2 : bool) (ev : event) : Prop :=
  loop_event ktx2 ev
  \/ ev = Call_startTranscoding \/ ev = Call_getNumImages
  \/ ev = Call_getLevels \/ ev = Call_close \/ ev = Call_delete.

(** The levels whose size was asked for, in the order of the trace. *)
Definition attempted (tr : list event) : list nat :=
  flat_map (fun ev => match ev with
                      | Call_getImageTranscodedSizeInBytes i _ => [i]
                      | _ => []
                      end) tr.

(** A level that the resolver decoded, and one that it left alone. *)
Definition decoded (l : Level) : Prop :=
  isDecompressed l = true
  /\ (exists dst, decompressedData l = Some dst /\ (0 < length dst)%nat)
  /\ transcodedFormat l = Some 13.

(** [ls'] is [ls] with the [k] levels from index [i] on decoded to target
    format 13 and every other level as it was. *)
Definition prefix_decoded (i k : nat) (ls ls' : list Level) : Prop :=
  length ls' = length ls
  /\ (forall j, (j < i \/ i + k <= j)%nat -> ls' !! j = ls !! j)
  /\ (forall j, (i <= j < i + k)%nat ->
        exists dst, (0 < length dst)%nat
                    /\ ls' !! j = storeTranscoded dst 13 <$> ls !! j).

Definition untouched (l : Level) : Prop :=
  isDecompressed l = false /\ decompressedData l = None
  /\ transcodedFormat l = None.

End Read.

(** ** The format table and the DFD correction of the extension's read.js *)

Module MediaRead.
Local Open Scope Z_scope.

(** A format descriptor; a property that the table entry does not have is
    [None]. *)
Record FormatInfo : Type := {
  format : string;
  blockWidth : option Z;
  blockHeight : option Z;
  bytesPerBlock : option Z;
  bytesPerPixel : option Z;
  sourceChannels : option Z;
  sourceBytesPerPixel : option Z
}.

Definition block (f : string) (bw bh bpb : Z) : FormatInfo :=
  {| format := f; blockWidth := Some bw; blockHeight := Some bh;
     bytesPerBlock := Some bpb; bytesPerPixel := None;
     sourceChannels := None; sourceBytesPerPixel := None |}.

Definition pixel (f : string) (bpp : Z) (sc sbpp : option Z) : FormatInfo :=
  {| format := f; blockWidth := None; blockHeight := None;
     bytesPerBlock := None; bytesPerPixel := Some bpp;
     sourceChannels := sc; sourceBytesPerPixel := sbpp |}.

(** [vkFormatToWebGPU(vkFormat)] *)
Definition vkFormatToWebGPU (vkFormat : Z) : option FormatInfo :=
  match vkFormat with
  | 131 => Some (block "bc1-rgba-unorm" 4 4 8)
  | 132 => Some (block "bc1-rgba-unorm-srgb" 4 4 8)
  | 135 => Some (block "bc2-rgba-unorm" 4 4 16)
  | 136 => Some (block "bc2-rgba-unorm-srgb" 4 4 16)
  | 137 => Some (block "bc3-rgba-unorm" 4 4 16)
  | 138 => Some (block "bc3-rgba-unorm-srgb" 4 4 16)
  | 139 => Some (block "bc4-r-unorm" 4 4 8)
  | 140 => Some (block "bc4-r-snorm" 4 4 8)
  | 141 => Some (block "bc5-rg-unorm" 4 4 16)
  | 142 => Some (block "bc5-rg-snorm" 4 4 16)
  | 143 => Some (block "bc6h-rgb-ufloat" 4 4 16)
  | 144 => Some (block "bc6h-rgb-float" 4 4 16)
  | 145 => Some (block "bc7-rgba-unorm" 4 4 16)
  | 146 => Some (block "bc7-rgba-unorm-srgb" 4 4 16)
  | 148 => Some (block "etc2-rgb8unorm" 4 4 8)
  | 149 => Some (block "etc2-rgb8unorm-srgb" 4 4 8)
  | 152 => Some (block "etc2-rgb8unorm" 4 4 8)
  | 153 => Some (block "etc2-rgb8a1unorm" 4 4 8)
  | 154 => Some (block "etc2-rgba8unorm" 4 4 16)
  | 157 => Some (block "astc-4x4-unorm" 4 4 16)
  | 159 => Some (block "astc-5x4-unorm" 5 4 16)
  | 161 => Some (block "astc-5x5-unorm" 5 5 16)
  | 163 => Some (block "astc-6x5-unorm" 6 5 16)
  | 165 => Some (block "astc-6x6-unorm" 6 6 16)
  | 158 => Some (block "astc-4x4-unorm-srgb" 4 4 16)
  | 160 => Some (block "astc-4x4-unorm-srgb" 4 4 16)
  | 162 => Some (block "astc-5x5-unorm-srgb" 5 5 16)
  | 164 => Some (block "astc-6x5-unorm-srgb" 6 5 16)
  | 166 => Some (block "astc-6x6-unorm-srgb" 6 6 16)
  | 23 => Some (pixel "rgba8unorm" 4 (Some 3) None)
  | 24 => Some (pixel "rgba8unorm-srgb" 4 (Some 3) None)
  | 29 => Some (pixel "rgba8unorm" 4 (Some 3) None)
  | 37 => Some (pixel "rgba8unorm" 4 None None)
  | 43 => Some (pixel "rgba8unorm-srgb" 4 None None)
  | 97 => Some (pixel "rgba16float" 8 None None)
  | 109 => Some (pixel "rgba16float" 8 None (Some 16))
  | 100 => Some (pixel "rg11b10ufloat" 4 None None)
  | 122 => Some (pixel "rg11b10ufloat" 4 None None)
  | 99 => Some (pixel "rgb9e5ufloat" 4 None None)
  | 123 => Some (pixel "rgb9e5ufloat" 4 None None)
  | _ => None
  end.

(** Truthiness of an optional number: present and not 0. *)
Definition truthy (v : option Z) : bool :=
  match v with
  | Some z => negb (z =? 0)
  | None => false
  end.

(** [formatInfo.bytesPerBlock = b] *)
Definition set_bytesPerBlock (b : Z) (fi : FormatInfo) : FormatInfo :=
  {| format := format fi; blockWidth := blockWidth fi;
     blockHeight := blockHeight fi; bytesPerBlock := Some b;
     bytesPerPixel := bytesPerPixel fi; sourceChannels := sourceChannels fi;
     sourceBytesPerPixel := sourceBytesPerPixel fi |}.

(** [formatInfo.format = f] *)
Definition set_format (f : string) (fi : FormatInfo) : FormatInfo :=
  {| format := f; blockWidth := blockWidth fi;
     blockHeight := blockHeight fi; bytesPerBlock := bytesPerBlock fi;
     bytesPerPixel := bytesPerPixel fi; sourceChannels := sourceChannels fi;
     sourceBytesPerPixel := sourceBytesPerPixel fi |}.

(** [applyDFDCorrections(formatInfo, dfd, vkFormat)] *)
Definition applyDFDCorrections (formatInfo : option FormatInfo)
    (dfd : option Read.DFD) (vkFormat : Z) : option FormatInfo :=
  match formatInfo, dfd with
  | Some fi, Some d =>
      if truthy (blockWidth fi) && truthy (Read.bytesPlane d !! 0%nat) then
        let dfdBytesPerBlock := default 0 (Read.bytesPlane d !! 0%nat) in
        if negb (bool_decide (Some dfdBytesPerBlock = bytesPerBlock fi)) then
          let fi := set_bytesPerBlock dfdBytesPerBlock fi in
          if (148 <=? vkFormat) && (vkFormat <=? 154) then
            if dfdBytesPerBlock =? 8 then
              if Read.colorModel d =? 160 then Some (set_format "etc2-rgb8unorm" fi)
              else if Read.colorModel d =? 162 then Some (set_format "etc2-rgb8a1unorm" fi)
              else Some (set_format "etc2-rgb8unorm" fi)
            else if dfdBytesPerBlock =? 16 then Some (set_format "etc2-rgba8unorm" fi)
            else Some fi
          else Some fi
        else Some fi
      else Some fi
  | _, _ => formatInfo
  end.

End MediaRead.

(** ** Sample inputs *)

Module Sample.
Import Read.
Local Open Scope Z_scope.

(** [n] little-endian bytes of [z]. *)
Fixpoint le_bytes (n : nat) (z : Z) : list byte :=
  match n with
  | O => []
  | S n' => Main.byte_of_Z z :: le_bytes n' (z / 256)
  end.

Definition u32 : Z -> list byte := le_bytes 4.
Definition u64 : Z -> list byte := le_bytes 8.

(** An environment in which no external module can be loaded. *)
Definition no_env : Env :=
  {| TextDecoder_decode := fun _ => [];
     loadFzstd := Throws;
     loadBasisModule := Throws |}.

(** Twelve zero bytes: long enough for the identifier, not the identifier. *)
Definition bad_magic : list byte := replicate 12 zero_byte.

(** A container without DFD and KVD: identifier, header, index and level
    index, followed by [payload]. *)
Definition container (vkFormat pixelWidth pixelHeight levelCount scheme : Z)
    (levelIndex : list (Z * Z * Z)) (payload : list byte) : list byte :=
  KTX2_IDENTIFIER
  ++ u32 vkFormat ++ u32 1 ++ u32 pixelWidth ++ u32 pixelHeight ++ u32 0
  ++ u32 0 ++ u32 1 ++ u32 levelCount ++ u32 scheme
  ++ u32 0 ++ u32 0 ++ u32 0 ++ u32 0 ++ u64 0 ++ u64 0
  ++ flat_map (fun e => u64 e.1.1 ++ u64 e.1.2 ++ u64 e.2) levelIndex
  ++ payload.

(** An uncompressed RGBA8 texture of 4x4 pixels with three mip levels. *)
Definition rgba8_4x4 : list byte :=
  container 37 4 4 3 0 [(152, 64, 64); (216, 16, 16); (232, 4, 4)]
    (replicate 84 zero_byte).

Definition plain_level (off len w h : Z) : Level :=
  {| byteOffset := off; byteLength := len; uncompressedByteLength := len;
     width := w; height := h; isDecompressed := false;
     decompressedData := None; transcodedFormat := None |}.

Definition rgba8_4x4_parsed : ParsedTexture :=
  {| header := {| vkFormat := 37; typeSize := 1; pixelWidth := 4;
                  pixelHeight := 4; pixelDepth := 0; layerCount := 0;
                  faceCount := 1; levelCount := 3;
                  supercompressionScheme := 0 |};
     index := {| dfdByteOffset := 0; dfdByteLength := 0; kvdByteOffset := 0;
                 kvdByteLength := 0; sgdByteOffset := 0; sgdByteLength := 0 |};
     levels := [plain_level 152 64 4 4; plain_level 216 16 2 2;
                plain_level 232 4 1 1];
     dfd := None;
     kvd := None |}.

(** A DFD that announces [b] bytes in its first plane. *)
Definition dfd_with (model b : Z) : DFD :=
  {| totalSize := 28; vendorId := 0; descriptorType := 0; versionNumber := 2;
     colorModel := model; colorPrimaries := 1; transferFunction := 1;
     flags := 0; texelBlockDimension := [3; 3; 0; 0];
     bytesPlane := [b; 0; 0; 0; 0; 0; 0; 0]; descriptorBlockSize := 24 |}.

(** A level whose decode outcome is set, and the file it belongs to. *)
Definition decoded_level : Level :=
  {| byteOffset := 2; byteLength := 3; uncompressedByteLength := 3;
     width := 1; height := 1; isDecompressed := true;
     decompressedData := Some [x01; x02; x03; x04]%byte;
     transcodedFormat := Some 13 |}.

Definition ten_bytes : list byte :=
  [x0a; x0b; x0c; x0d; x0e; x0f; x10; x11; x12; x13]%byte.

(** A Zstandard container with one level that declares 1024 bytes, and a
    decompressor that yields 1000 bytes. *)
Definition zstd_one_level : list byte :=
  container 37 16 16 1 2 [(104, 4, 1024)] [x28; xb5; x2f; xfd]%byte.

Definition short_output : list byte := replicate 1000 zero_byte.

Definition zstd_env : Env :=
  {| TextDecoder_decode := fun _ => [];
     loadFzstd := Returns (fun _ => Returns short_output);
     loadBasisModule := Throws |}.

Definition zstd_one_level_container : ParsedTexture :=
  {| header := {| vkFormat := 37; typeSize := 1; pixelWidth := 16;
                  pixelHeight := 16; pixelDepth := 0; layerCount := 0;
                  faceCount := 1; levelCount := 1;
                  supercompressionScheme := 2 |};
     index := {| dfdByteOffset := 0; dfdByteLength := 0; kvdByteOffset := 0;
                 kvdByteLength := 0; sgdByteOffset := 0; sgdByteLength := 0 |};
     levels := [ {| byteOffset := 104; byteLength := 4;
                    uncompressedByteLength := 1024; width := 16; height := 16;
                    isDecompressed := false; decompressedData := None;
                    transcodedFormat := None |} ];
     dfd := None;
     kvd := None |}.

(** A transcoder file with [n] levels: [size i] answers the size query of
    level [i] and [image i] the call of [transcodeImage]. *)
Definition basis_file (n : Z) (size : nat -> call Z)
    (image : nat -> call (bool * list byte)) : BasisFileObject :=
  {| startTranscoding := Returns true;
     getNumImages := Some (Returns 1);
     getLevels := Returns n;
     getImageTranscodedSizeInBytes := fun i _ => size i;
     transcodeImage := fun i _ => image i |}.

Definition pixels (n : nat) : list byte := replicate n xff%byte.

(** Four levels; levels 0 and 1 transcode, level 2 reports failure. *)
Definition file_fails_at_2 : BasisFileObject :=
  basis_file 4 (fun i => Returns 4)
    (fun i => Returns (bool_decide (i < 2)%nat, pixels 4)).

(** Four levels; level 0 transcodes, [transcodeImage] throws on level 1. *)
Definition file_throws_at_1 : BasisFileObject :=
  basis_file 4 (fun i => Returns 4)
    (fun i => if decide (i = 1%nat) then Throws else Returns (true, pixels 4)).

(** A module with the [KTX2File] class, and a legacy module without it. *)
Definition ktx2_module (f : BasisFileObject) : BasisModuleT :=
  {| KTX2File := Some (fun _ => Returns f); BasisFile := fun _ => Returns f |}.

Definition legacy_module (f : BasisFileObject) : BasisModuleT :=
  {| KTX2File := None; BasisFile := fun _ => Returns f |}.

Definition basis_env (m : BasisModuleT) : Env :=
  {| TextDecoder_decode := fun _ => [];
     loadFzstd := Throws;
     loadBasisModule := Returns m |}.

(** Raw Basis data (format code 0, no supercompression), four levels. *)
Definition raw_basis_4 : list byte :=
  container 0 8 8 4 0 [(176, 4, 4); (180, 4, 4); (184, 4, 4); (188, 4, 4)]
    (replicate 16 zero_byte).

(** A 28-byte DFD block with colour model [model]. *)
Definition dfd_block (model : Z) : list byte :=
  u32 28 ++ le_bytes 2 0 ++ le_bytes 2 0 ++ le_bytes 2 2 ++ le_bytes 2 24
  ++ le_bytes 1 model ++ le_bytes 1 1 ++ le_bytes 1 1 ++ le_bytes 1 0
  ++ le_bytes 4 0 ++ le_bytes 8 16.

(** A BasisLZ container with one level and a DFD of colour model [model]. *)
Definition basis_lz (model : Z) : list byte :=
  KTX2_IDENTIFIER
  ++ u32 0 ++ u32 1 ++ u32 8 ++ u32 8 ++ u32 0
  ++ u32 0 ++ u32 1 ++ u32 1 ++ u32 1
  ++ u32 104 ++ u32 28 ++ u32 0 ++ u32 0 ++ u64 0 ++ u64 0
  ++ u64 132 ++ u64 4 ++ u64 0
  ++ dfd_block model
  ++ replicate 4 zero_byte.

(** A BasisLZ container with four levels and no DFD. *)
Definition basis_lz_4 : list byte :=
  container 0 8 8 4 1 [(176, 4, 4); (180, 4, 4); (184, 4, 4); (188, 4, 4)]
    (replicate 16 zero_byte).

Definition one_level_file : BasisFileObject :=
  basis_file 1 (fun i => Returns 4) (fun i => Returns (true, pixels 4)).

Definition legacy_env : Env := basis_env (legacy_module one_level_file).

(** The container of [basis_lz 166], as the container parser returns it. *)
Definition basis_lz_166_container : ParsedTexture :=
  Eval vm_compute in
    match parseContainer legacy_env (basis_lz 166) with
    | Ok c => c
    | Err _ => rgba8_4x4_parsed
    end.

Definition throwing_env : Env := basis_env (ktx2_module file_throws_at_1).

End Sample.

(** ** Layout of a key/value block *)

Module Layout.
Import Read.
Local Open Scope Z_scope.

(** The assignment that one key/value entry of [parseKVD] causes: the
    decoded text is split at its first NUL; without a NUL the entry is
    skipped. *)
Definition kv_entry (decode : list byte -> jsstring) (kv : KVD)
    (bytes : list byte) : KVD :=
  let str := decode bytes in
  match indexOf0 str with
  | Some nullPos => kv_set (take nullPos str) (drop (S nullPos) str) kv
  | None => kv
  end.

(** One entry of a key/value block as [parseKVD] walks it: the byte length
    as a 32-bit word, the [keyAndValue] bytes, and padding to the next
    multiple of 4. *)
Definition kvd_entry (keyAndValue : list byte) : list byte :=
  Sample.u32 (Z.of_nat (length keyAndValue))
  ++ keyAndValue
  ++ replicate (Z.to_nat ((4 - Z.of_nat (length keyAndValue) mod 4) mod 4)) zero_byte.

Definition kvd_block (entries : list (list byte)) : list byte :=
  flat_map kvd_entry entries.

(** The entries the loop steps over: not empty (a length of zero ends the
    loop) and with a length that fits the 32-bit length word. *)
Definition wf_entry (e : list byte) : Prop :=
  (0 < length e)%nat /\ Z.of_nat (length e) < 2 ^ 32.

End Layout.

(** ** Further sample inputs *)

Module Fixture.
Import Read.
Local Open Scope Z_scope.

(** The containers of [Sample.raw_basis_4] and [Sample.basis_lz_4], as the
    container parser returns them. *)
Definition raw_basis_4_container : ParsedTexture :=
  Eval vm_compute in
    match parseContainer Sample.no_env Sample.raw_basis_4 with
    | Ok c => c
    | Err _ => Sample.rgba8_4x4_parsed
    end.

Definition basis_lz_4_container : ParsedTexture :=
  Eval vm_compute in
    match parseContainer Sample.no_env Sample.basis_lz_4 with
    | Ok c => c
    | Err _ => Sample.rgba8_4x4_parsed
    end.

(** A transcoder file whose [startTranscoding] reports failure. *)
Definition file_not_started : BasisFileObject :=
  {| startTranscoding := Returns false;
     getNumImages := None;
     getLevels := Returns 4;
     getImageTranscodedSizeInBytes := fun _ _ => Returns 4;
     transcodeImage := fun _ _ => Returns (true, Sample.pixels 4) |}.

(** A legacy file that holds no image. *)
Definition file_without_images : BasisFileObject :=
  {| startTranscoding := Returns true;
     getNumImages := Some (Returns 0);
     getLevels := Returns 4;
     getImageTranscodedSizeInBytes := fun _ _ => Returns 4;
     transcodeImage := fun _ _ => Returns (true, Sample.pixels 4) |}.

(** A decompressor that rejects every input. *)
Definition zstd_failing_env : Env :=
  {| TextDecoder_decode := fun _ => [];
     loadFzstd := Returns (fun _ => Throws);
     loadBasisModule := Throws |}.

(** The outcome of [Sample.raw_basis_4] with a transcoder that decodes
    levels 0 and 1 and reports a failure on level 2. *)
Definition fails_at_2_env : Env :=
  Sample.basis_env (Sample.ktx2_module Sample.file_fails_at_2).

Definition fails_at_2_run : ParsedTexture * list event :=
  Eval vm_compute in
    match run fails_at_2_env Sample.raw_basis_4 with
    | (Ok pt, tr) => (pt, tr)
    | (Err _, tr) => (Sample.rgba8_4x4_parsed, tr)
    end.

End Fixture.

(** ** Levels the transcoder may be asked for *)

Module Attempts.
Import Read.
Local Open Scope Z_scope.

(** Index [i] exists in [ls] and lies below the level count [count] that
    the transcoder reported, when it reported one. *)
Definition within (ls : list Level) (count : call Z) (i : nat) : Prop :=
  (i < length ls)%nat /\ forall n, count = Returns n -> Z.of_nat i < n.

End Attempts.

(** ** The texture upload of main.js *)

Module Upload.
Import Main.
Local Open Scope Z_scope.
Local Open Scope result_scope.

Record PaddedBlocks : Type :=
  { data : list byte; bytesPerRow : nat; rowsPerImage : nat }.

(** [Math.ceil(a / b)] on non-negative integers, for a positive [b]: the
    block dimensions that the callers pass are those of the format table. *)
Definition ceil_div (a b : nat) : nat := ((a + b - 1) / b)%nat.

(** [padBlockRowsBC(src, width, height, bytesPerBlock, blockWidth, blockHeight)] *)
Definition padBlockRowsBC (src : list byte)
    (width height bytesPerBlock blockWidth blockHeight : nat)
    : result PaddedBlocks :=
  let wBlocks := Nat.max 1 (ceil_div width blockWidth) in
  let hBlocks := Nat.max 1 (ceil_div height blockHeight) in
  let rowBytes := (wBlocks * bytesPerBlock)%nat in
  let aligned := align256 rowBytes in
  if decide (aligned = rowBytes)
  then Ok {| data := src; bytesPerRow := rowBytes; rowsPerImage := hBlocks |}
  else
    dst <- for_range hBlocks 0
             (fun y dst =>
                let s0 := (y * rowBytes)%nat in
                let d0 := (y * aligned)%nat in
                TypedArray_set dst (subarray src s0 (s0 + rowBytes)) d0)
             (new_Uint8Array (aligned * hBlocks)) ;;
    Ok {| data := dst; bytesPerRow := aligned; rowsPerImage := hBlocks |}.

(** [raw[i]] stored into a [Uint8Array]: a missing element is stored as 0. *)
Definition byte_at (raw : list byte) (i : nat) : byte :=
  default zero_byte (raw !! i).

(** The expansion of three-channel pixels in [loadKTX2_ToTexture]:
    [rgba[p*4 + c] = raw[p*3 + c]] for the three colours, and alpha 255. *)
Definition expandRGB (raw : list byte) (pixelCount : nat) : list byte :=
  foldl (fun rgba p =>
           <[p * 4 + 3 := xff%byte]>
             (<[p * 4 + 2 := byte_at raw (p * 3 + 2)]>
                (<[p * 4 + 1 := byte_at raw (p * 3 + 1)]>
                   (<[p * 4 + 0 := byte_at raw (p * 3 + 0)]> rgba))))%nat
        (new_Uint8Array (pixelCount * 4)) (seq 0 pixelCount).


(** *** The KTX2 loader, [loadKTX2_ToTexture] *)

(** The loader is modelled by the calls it makes on the GPU device,
    [device.createTexture] and [device.queue.writeTexture], in their
    order and with their arguments. The log lines, the release of the
    previous texture, the view and the bind group, and the update of the
    panel after the loop are left out; the device records the calls and
    does not validate them. *)

(** [adapter.features.has(...)] for the three compression features. *)
Record Features : Type := { bc : bool; etc2 : bool; astc : bool }.

(** The calls on the GPU device that create the texture and fill it. *)
Inductive command : Type :=
| createTexture (width height : Z) (format : string) (mipLevelCount : nat)
| writeTexture (mipLevel : nat) (data : list byte) (bytesPerRow : nat)
    (rowsPerImage : option nat) (width height : Z).

(** The variables that the format selection sets. *)
Record Selection : Type := {
  wgpuFormat : string;
  blockWidth : Z;
  blockHeight : Z;
  bytesPerBlock : Z;
  isPixel : bool;
  isBlock : bool;
  formatInfo : option MediaRead.FormatInfo
}.

Definition block_selection (f : string) (bpb : Z) : Selection :=
  {| wgpuFormat := f; blockWidth := 4; blockHeight := 4; bytesPerBlock := bpb;
     isPixel := false; isBlock := true; formatInfo := None |}.

(** Steps 1 to 3 of the loader and the two feature guards.
    [vkFormatToWebGPU] is the function that the reader installed on
    [window]. *)
Definition selectFormat (features : Features)
    (vkFormatToWebGPU : Z -> option MediaRead.FormatInfo)
    (header : Read.Header) (levels : list Read.Level) : result Selection :=
  let isTranscoded :=
    match levels !! 0%nat with
    | Some l => Read.isDecompressed l
    | None => false
    end in
  sel <- (if isTranscoded then
            match levels !! 0%nat ≫= Read.transcodedFormat with
            | Some 6%Z => Ok (block_selection "bc7-rgba-unorm" 16)
            | Some 1%Z => Ok (block_selection "bc3-rgba-unorm" 16)
            | Some 0%Z => Ok (block_selection "bc1-rgba-unorm" 8)
            | _ =>
                Ok {| wgpuFormat := "rgba8unorm"; blockWidth := 1; blockHeight := 1;
                      bytesPerBlock := 0; isPixel := true; isBlock := false;
                      formatInfo :=
                        Some {| MediaRead.format := "rgba8unorm";
                                MediaRead.blockWidth := None;
                                MediaRead.blockHeight := None;
                                MediaRead.bytesPerBlock := None;
                                MediaRead.bytesPerPixel := Some 4%Z;
                                MediaRead.sourceChannels := Some 4%Z;
                                MediaRead.sourceBytesPerPixel := Some 4%Z |} |}
            end
          else if ((147 <=? Read.vkFormat header)%Z && (Read.vkFormat header <=? 153)%Z)
                  && etc2 features then
            let isRGBA := (Read.vkFormat header =? 152)%Z
                          || (Read.vkFormat header =? 153)%Z in
            Ok (block_selection
                  (if isRGBA then "etc2-rgba8unorm" else "etc2-rgb8unorm")
                  (if isRGBA then 16 else 8))
          else
            match vkFormatToWebGPU (Read.vkFormat header) with
            | None => Err (ErrorAt "Unsupported vkFormat" (Read.vkFormat header))
            | Some fi =>
                let or_else (v : option Z) (d : Z) :=
                  if MediaRead.truthy v then default d v else d in
                Ok {| wgpuFormat := MediaRead.format fi;
                      blockWidth := or_else (MediaRead.blockWidth fi) 1;
                      blockHeight := or_else (MediaRead.blockHeight fi) 1;
                      bytesPerBlock := or_else (MediaRead.bytesPerBlock fi) 0;
                      isPixel := MediaRead.truthy (MediaRead.bytesPerPixel fi);
                      isBlock := MediaRead.truthy (MediaRead.blockWidth fi);
                      formatInfo := Some fi |}
            end) ;;
  if String.prefix "etc2" (wgpuFormat sel) && negb (etc2 features)
  then Err (Error "ETC2 textures are not supported on this GPU/browser.")
  else if String.prefix "astc" (wgpuFormat sel) && negb (astc features)
  then Err (Error "ASTC textures are not supported on this GPU/browser.")
  else Ok sel.

(** A [Uint8Array]: the buffer it views, its offset there and its bytes. *)
Record Uint8ArrayT : Type :=
  { buffer : list byte; byteOffset : Z; bytes : list byte }.

(** An array with a buffer of its own. *)
Definition standalone (d : list byte) : Uint8ArrayT :=
  {| buffer := d; byteOffset := 0; bytes := d |}.

(** [lvl.isDecompressed ? lvl.decompressedData : window.getLevelData(buf, lvl)].
    A level that is flagged without a payload gives [undefined], and the
    first use of it an exception; the reader never leaves such a level.
    For a level that is not flagged, [getLevelData] returns the view of
    the file at the level's offset. *)
Definition levelBytes (buf : list byte) (lvl : Read.Level) : result Uint8ArrayT :=
  if Read.isDecompressed lvl then
    match Read.decompressedData lvl with
    | Some d => Ok (standalone d)
    | None => Err Thrown
    end
  else
    b <- Read.getLevelData buf lvl ;;
    Ok {| buffer := buf; byteOffset := Read.byteOffset lvl; bytes := b |}.

(** One turn of the mip upload loop: the command that it issues, if any.
    The dimensions of a level are positive integers. *)
Definition uploadLevel (nan_bits : Z) (sel : Selection) (buf : list byte)
    (i : nat) (lvl : Read.Level) : result (list command) :=
  let w := Z.to_nat (Read.width lvl) in
  let h := Z.to_nat (Read.height lvl) in
  raw <- levelBytes buf lvl ;;
  if isPixel sel then
    let has (fld : MediaRead.FormatInfo -> option Z) (v : Z) :=
      match formatInfo sel with
      | Some fi => bool_decide (fld fi = Some v)
      | None => false
      end in
    let raw := if has MediaRead.sourceChannels 3%Z
               then standalone (expandRGB (bytes raw) (w * h))
               else raw in
    raw <- (if has MediaRead.sourceBytesPerPixel 16%Z && has MediaRead.bytesPerPixel 8%Z
            then d <- convertRGBA32FtoRGBA16F nan_bits (buffer raw) (byteOffset raw) w h ;;
                 Ok (standalone d)
            else Ok raw) ;;
    let bpp := match formatInfo sel with
               | Some fi => default 0%Z (MediaRead.bytesPerPixel fi)
               | None => 4%Z
               end in
    p <- padRows (bytes raw) w h (Z.to_nat bpp) ;;
    Ok [writeTexture i (Main.data p) (Main.bytesPerRow p) None
          (Read.width lvl) (Read.height lvl)]
  else if isBlock sel then
    let bw := Z.to_nat (blockWidth sel) in
    let bh := Z.to_nat (blockHeight sel) in
    p <- padBlockRowsBC (bytes raw) w h (Z.to_nat (bytesPerBlock sel)) bw bh ;;
    Ok [writeTexture i (data p) (bytesPerRow p) (Some (rowsPerImage p))
          (Z.of_nat (ceil_div w bw * bw)) (Z.of_nat (ceil_div h bh * bh))]
  else Ok [].

(** The mip upload loop from level [i] on: the commands issued, and the
    exception that ended the loop, if any. *)
Fixpoint uploadLevels (nan_bits : Z) (sel : Selection) (buf : list byte)
    (i : nat) (levels : list Read.Level) : result unit * list command :=
  match levels with
  | [] => (Ok tt, [])
  | lvl :: rest =>
      match uploadLevel nan_bits sel buf i lvl with
      | Err e => (Err e, [])
      | Ok cmds =>
          let '(r, more) := uploadLevels nan_bits sel buf (S i) rest in
          (r, cmds ++ more)
      end
  end.

(** [loadKTX2_ToTexture(file)] from the parsed container to the end of
    the mip upload loop, as the sequence of commands on the device. *)
Definition upload (features : Features) (nan_bits : Z)
    (vkFormatToWebGPU : Z -> option MediaRead.FormatInfo)
    (buf : list byte) (pt : Read.ParsedTexture) : result unit * list command :=
  let header := Read.header pt in
  let levels := Read.levels pt in
  if negb ((Read.pixelDepth header =? 0)%Z && (Read.faceCount header =? 1)%Z)
  then (Err (Error "Only 2D, 1-face KTX2 supported in this demo."), [])
  else
    match selectFormat features vkFormatToWebGPU header levels with
    | Err e => (Err e, [])
    | Ok sel =>
        let create := createTexture (Read.pixelWidth header) (Read.pixelHeight header)
                        (wgpuFormat sel) (length levels) in
        let '(r, writes) := uploadLevels nan_bits sel buf 0 levels in
        (r, create :: writes)
    end.

(** [loadKTX2_ToTexture(file)] on the bytes of the file; [parseKTX2] is
    the parser that the reader installed on [window]. *)
Definition loadKTX2_ToTexture (parseKTX2 : list byte -> result Read.ParsedTexture)
    (features : Features) (nan_bits : Z)
    (vkFormatToWebGPU : Z -> option MediaRead.FormatInfo)
    (buf : list byte) : result unit * list command :=
  if negb (bc features)
  then (Err (Error "BC compressed textures not supported on this device."), [])
  else
    match parseKTX2 buf with
    | Err e => (Err e, [])
    | Ok pt => upload features nan_bits vkFormatToWebGPU buf pt
    end.

(** A selection that makes every level issue one command. *)
Definition uploads (sel : Selection) : Prop :=
  isPixel sel = true \/ isBlock sel = true.

(** A write of mip level [i] with rows of a multiple of 256 bytes. *)
Definition aligned_write (i : nat) (c : command) : Prop :=
  match c with
  | writeTexture mipLevel _ bytesPerRow _ _ _ =>
      mipLevel = i /\ (bytesPerRow mod 256 = 0)%nat
  | _ => False
  end.

Definition is_write (c : command) : Prop :=
  match c with
  | writeTexture _ _ _ _ _ _ => True
  | _ => False
  end.

(** A device with the three compression features. *)
Definition all_features : Features := {| bc := true; etc2 := true; astc := true |}.

(** The bit pattern that the platform stores for a NaN. *)
Definition quiet_nan : Z := 2143289344.

(** The parser of read.js in the environment [env]. *)
Definition parser_of (env : Read.Env) (buf : list byte) : result Read.ParsedTexture :=
  (Read.run env buf).1.

(** A Zstandard container with one level, declared as BC7 (format 145). *)
Definition zstd_bc7 : list byte :=
  Sample.container 145 16 16 1 2 [(104, 4, 256)%Z] [x28; xb5; x2f; xfd]%byte.

Definition zstd_bc7_container : Read.ParsedTexture :=
  Eval vm_compute in
    match Read.parseContainer Sample.zstd_env zstd_bc7 with
    | Ok c => c
    | Err _ => Sample.rgba8_4x4_parsed
    end.

End Upload.

(** ** The libktx transcoder module, transcoder.js *)

Module Transcoder.
Import Read.
Local Open Scope Z_scope.

(** An entry of [m.TranscodeTarget]: an enum object with an optional
    [value], or a plain number. *)
Inductive enumval : Type :=
| EnumObject (value : option Z)
| EnumNumber (n : Z).

Record TranscodeTargetT : Type := {
  BC7_RGBA : option enumval;          (* [None]: undefined *)
  BC7_M5_RGBA : option enumval
}.

(** A [ktxTexture] of libktx.  [needsTranscoding] tells whether the
    property is a function; the function itself is never called. *)
Record ktxTextureT : Type := {
  needsTranscoding : bool;
  vkFormat : Z;
  transcodeBasis : enumval -> call bool;
  numLevels : Z;                               (* 0 when missing *)
  getImage : option (nat -> call (list byte)); (* [getImage(i, 0, 0)] *)
  baseWidth : Z;
  baseHeight : Z;
  delete : option (call unit)
}.

Record LibKTX : Type := {
  ktxTexture : list byte -> call ktxTextureT;
  TranscodeTarget : option TranscodeTargetT
}.

Record Mip : Type := { data : list byte; width : Z; height : Z }.

Inductive event : Type :=
| New_ktxTexture
| Call_transcodeBasis (targetFormat : enumval)
| Call_getImage (level : nat)
| Log_error                          (* "KTX2 Processing Error:" *)
| Call_delete.

(** A computation over the trace of this module. *)
Definition T (A : Type) : Type := list event -> result A * list event.

Definition ret {A} (a : A) : T A := fun tr => (Ok a, tr).
Definition throw {A} (e : error) : T A := fun tr => (Err e, tr).
Definition bindT {A B} (m : T A) (k : A -> T B) : T B :=
  fun tr =>
    match m tr with
    | (Ok a, tr') => k a tr'
    | (Err e, tr') => (Err e, tr')
    end.
Definition ext {A} (ev : event) (c : call A) : T A :=
  fun tr =>
    match c with
    | Returns a => (Ok a, tr ++ [ev])
    | Throws => (Err Thrown, tr ++ [ev])
    end.

Notation "x <~~ m ;; k" := (bindT m (fun x => k))
  (at level 100, m at next level, right associativity, only parsing).

(** [m.TranscodeTarget?.BC7_RGBA?.value ?? m.TranscodeTarget?.BC7_RGBA ?? 0x93],
    then the override by [BC7_M5_RGBA] when that entry is defined:
    [BC7_M5_RGBA.value || BC7_M5_RGBA]. *)
Definition targetFormat (m : LibKTX) : enumval :=
  let first :=
    match TranscodeTarget m with
    | Some t =>
        match BC7_RGBA t with
        | Some (EnumObject (Some v)) => EnumNumber v
        | Some e => e
        | None => EnumNumber 147
        end
    | None => EnumNumber 147
    end in
  match TranscodeTarget m with
  | Some t =>
      match BC7_M5_RGBA t with
      | Some (EnumObject (Some v)) =>
          if v =? 0 then EnumObject (Some v) else EnumNumber v
      | Some e => e
      | None => first
      end
  | None => first
  end.

(** The loop that collects the mip levels, at index [i] with [n] to go. *)
Fixpoint collect (texture : ktxTextureT) (n i : nat) (mips : list Mip)
    : T (list Mip) :=
  match n with
  | O => ret mips
  | S n' =>
      match getImage texture with
      | None =>
          throw (Error "texture.getImage() is missing, but required for this libktx version.")
      | Some getImage =>
          mipData <~~ ext (Call_getImage i) (getImage i) ;;
          collect texture n' (S i)
            (mips ++ [ {| data := mipData;
                          width := Z.max 1 (shr (baseWidth texture) (Z.of_nat i));
                          height := Z.max 1 (shr (baseHeight texture) (Z.of_nat i)) |} ])
      end
  end.

(** The body of the outer [try], once the texture exists. *)
Definition process (m : LibKTX) (texture : ktxTextureT) : T (list Mip) :=
  let shouldTranscode :=
    if needsTranscoding texture then true else vkFormat texture =? 0 in
  _ <~~ (if shouldTranscode then
          ok <~~ ext (Call_transcodeBasis (targetFormat m))
                  (transcodeBasis texture (targetFormat m)) ;;
          if ok then ret tt else throw (Error "libktx transcoding failed")
        else ret tt) ;;
  let numLevels := if numLevels texture =? 0 then 1 else numLevels texture in
  collect texture (Z.to_nat numLevels) 0 [].

(** [try { body } catch (e) { console.error(...); throw e; }] *)
Definition logged {A} (body : T A) : T A :=
  fun tr =>
    match body tr with
    | (Ok a, tr') => (Ok a, tr')
    | (Err e, tr') => (Err e, tr' ++ [Log_error])
    end.

(** [finally { if (texture && texture.delete) texture.delete(); }] *)
Definition finally_delete {A} (texture : ktxTextureT) (body : T A) : T A :=
  fun tr =>
    let '(r, tr') := body tr in
    match delete texture with
    | Some (Returns _) => (r, tr' ++ [Call_delete])
    | Some Throws => (Err Thrown, tr' ++ [Call_delete])
    | None => (r, tr')
    end.

(** [transcodeFullKTX2(fileBuffer)], with the outcome of [initLibKTX()]. *)
Definition transcodeFullKTX2 (initLibKTX : call LibKTX) (fileBuffer : list byte)
    : T (list Mip) :=
  match initLibKTX with
  | Throws => throw Thrown
  | Returns m =>
      match ktxTexture m fileBuffer with
      | Throws => logged (throw (Error "Failed to create ktxTexture"))
      | Returns texture =>
          fun tr =>
            finally_delete texture (logged (process m texture))
              (tr ++ [New_ktxTexture])
      end
  end.

(** [NATIVE_BC_FORMATS] *)
Definition NATIVE_BC_FORMATS (vkFormat : Z) : option string :=
  match vkFormat with
  | 131 => Some "bc1-rgba-unorm" | 132 => Some "bc1-rgba-unorm-srgb"
  | 135 => Some "bc2-rgba-unorm" | 136 => Some "bc2-rgba-unorm-srgb"
  | 137 => Some "bc3-rgba-unorm" | 138 => Some "bc3-rgba-unorm-srgb"
  | 139 => Some "bc4-r-unorm" | 140 => Some "bc4-r-snorm"
  | 141 => Some "bc5-rg-unorm" | 142 => Some "bc5-rg-snorm"
  | 143 => Some "bc6h-rgb-ufloat" | 144 => Some "bc6h-rgb-float"
  | 145 => Some "bc7-rgba-unorm" | 146 => Some "bc7-rgba-unorm-srgb"
  | _ => None
  end%string.

(** [vkFormatToWebGPU(vkFormat)] of this module. *)
Definition vkFormatToWebGPU (vkFormat : Z) : option MediaRead.FormatInfo :=
  match NATIVE_BC_FORMATS vkFormat with
  | Some format => Some (MediaRead.block format 4 4 16)
  | None => None
  end.

(** [checkFormatRequirements(vkFormat)]: the format tag of a native block
    format ([needsProcessing] is the constant [false]), or [null]. *)
Definition checkFormatRequirements (vkFormat : Z) : option (string * Z) :=
  match NATIVE_BC_FORMATS vkFormat with
  | Some format => Some (format, vkFormat)
  | None => None
  end.

(** The calls of [getImage]. *)
Definition image_event (ev : event) : Prop :=
  match ev with
  | Call_getImage _ => True
  | _ => False
  end.

(** [mip] is level [i] of [texture]. *)
Definition mip_of (texture : ktxTextureT) (i : nat) (mip : Mip) : Prop :=
  width mip = Z.max 1 (shr (baseWidth texture) (Z.of_nat i))
  /\ height mip = Z.max 1 (shr (baseHeight texture) (Z.of_nat i))
  /\ exists getImage,
       Transcoder.getImage texture = Some getImage
       /\ getImage i = Returns (data mip).

(** A texture of 4x4 pixels with three levels and format code 0, and a
    module that constructs it from any file. *)
Definition sample_texture : ktxTextureT :=
  {| needsTranscoding := false;
     vkFormat := 0;
     transcodeBasis := fun _ => Returns true;
     numLevels := 3;
     getImage := Some (fun i => Returns (replicate (16 / 4 ^ i) xff%byte));
     baseWidth := 4;
     baseHeight := 4;
     delete := Some (Returns tt) |}.

Definition sample_lib : LibKTX :=
  {| ktxTexture := fun _ => Returns sample_texture; TranscodeTarget := None |}.

Definition sample_mips : list Mip :=
  Eval vm_compute in
    match (transcodeFullKTX2 (Returns sample_lib) [] []).1 with
    | Ok mips => mips
    | Err _ => []
    end.

End Transcoder.

(** * Properties *)

(** ** Row padding *)

Import Main.

Lemma align256_ge n : (n <= align256 n)%nat.
Proof.
  unfold align256.
  pose proof (Nat.div_mod_eq (n + 255) 256) as E.
  pose proof (Nat.mod_upper_bound (n + 255) 256). lia.
Qed.

Lemma align256_lt n : (align256 n < n + 256)%nat.
Proof.
  unfold align256.
  pose proof (Nat.div_mod_eq (n + 255) 256) as E. lia.
Qed.

Lemma align256_multiple n : (align256 n mod 256 = 0)%nat.
Proof. unfold align256. apply Nat.Div0.mod_mul. Qed.

Lemma align256_fix n : align256 n = n <-> (n mod 256 = 0)%nat.
Proof.
  split; intros H.
  - rewrite <- H. apply align256_multiple.
  - unfold align256.
    pose proof (Nat.div_mod_eq n 256) as E. rewrite H, Nat.add_0_r in E.
    rewrite E at 1.
    replace (256 * (n / 256) + 255)%nat with (255 + (n / 256) * 256)%nat by lia.
    rewrite Nat.div_add by lia. simpl (255 / 256)%nat. lia.
Qed.


Lemma subarray_lookup src b n k :
  (k < n)%nat -> subarray src b (b + n) !! k = src !! (b + k)%nat.
Proof.
  intros Hk. unfold subarray.
  replace (b + n - b)%nat with n by lia.
  rewrite lookup_take_lt by done. apply lookup_drop.
Qed.

Lemma subarray_length src b n : (length (subarray src b (b + n)) <= n)%nat.
Proof. unfold subarray. rewrite length_take. lia. Qed.

Lemma subarray_length_full src b n :
  (b + n <= length src)%nat -> length (subarray src b (b + n)) = n.
Proof. intros H. unfold subarray. rewrite length_take, length_drop. lia. Qed.

(** The copy loop of [padRows], started at row [y0] with [n] rows to go. *)
Lemma padRows_loop src rowStride aligned height n y0 dst :
  (rowStride <= aligned)%nat ->
  (y0 + n = height)%nat ->
  length dst = (aligned * height)%nat ->
  (forall y k, y < y0 -> k < aligned ->
     dst !! (y * aligned + k) = Some (cell src rowStride y k))%nat ->
  (forall j, y0 * aligned <= j < length dst -> dst !! j = Some zero_byte)%nat ->
  exists dst',
    for_range n y0
      (fun y dst =>
         TypedArray_set dst (subarray src (y * rowStride) (y * rowStride + rowStride))
           (y * aligned)) dst = Ok dst'
    /\ length dst' = (aligned * height)%nat
    /\ (forall y k, y < height -> k < aligned ->
          dst' !! (y * aligned + k) = Some (cell src rowStride y k))%nat.
Proof.
  intros Hal. revert y0 dst.
  induction n as [|n IH]; intros y0 dst Hy Hlen Hdone Htodo.
  - exists dst. simpl. assert (height = y0) as -> by lia. auto.
  - simpl. unfold TypedArray_set at 1.
    pose proof (subarray_length src (y0 * rowStride) rowStride) as Hrow.
    set (row := subarray src (y0 * rowStride) (y0 * rowStride + rowStride)) in *.
    destruct (decide _) as [Hfit|Hfit]; [|exfalso; apply Hfit; rewrite Hlen; nia].
    simpl. apply IH.
    + lia.
    + by rewrite length_inserts.
    + intros y k Hy' Hk.
      destruct (decide (y < y0)%nat) as [Hlt|Hge].
      * rewrite list_lookup_inserts_lt by nia. by apply Hdone.
      * assert (y = y0) as -> by lia.
        destruct (decide (k < length row)%nat) as [Hin|Hout].
        -- rewrite list_lookup_inserts by (rewrite ?Hlen; nia).
           replace (y0 * aligned + k - y0 * aligned)%nat with k by lia.
           unfold row. rewrite subarray_lookup by lia.
           unfold cell. rewrite decide_True by lia.
           destruct (src !! (y0 * rowStride + k)%nat) eqn:E; [done|].
           apply lookup_ge_None in E.
           assert (k < length row)%nat as Hk' by done.
           unfold row, subarray in Hk'. rewrite length_take, length_drop in Hk'. lia.
        -- rewrite list_lookup_inserts_ge by lia.
           rewrite Htodo by (rewrite Hlen; nia).
           unfold cell. destruct (decide (k < rowStride)%nat) as [Hs|Hs]; [|done].
           rewrite (proj2 (lookup_ge_None src (y0 * rowStride + k)%nat)); [done|].
           unfold row, subarray in Hout. rewrite length_take, length_drop in Hout. lia.
    + intros j Hj. rewrite length_inserts in Hj.
      rewrite list_lookup_inserts_ge by nia. apply Htodo. nia.
Qed.

Lemma padRows_correct src width height bytesPerPixel :
  let rowStride := (width * bytesPerPixel)%nat in
  let aligned := align256 rowStride in
  exists p,
    padRows src width height bytesPerPixel = Ok p
    /\ bytesPerRow p = aligned
    /\ (rowStride mod 256 = 0 -> data p = src)%nat
    /\ (rowStride mod 256 <> 0 ->
        length (data p) = aligned * height
        /\ forall y k, y < height -> k < aligned ->
             data p !! (y * aligned + k) = Some (cell src rowStride y k))%nat.
Proof.
  intros rowStride aligned. unfold padRows. fold rowStride. fold aligned.
  destruct (decide (aligned = rowStride)) as [E|E].
  - eexists. split; [reflexivity|]. simpl. split; [done|]. split; [done|].
    intros H. exfalso. apply H. by apply align256_fix.
  - destruct (padRows_loop src rowStride aligned height height 0
                (new_Uint8Array (aligned * height))) as (dst & Hrun & Hlen & Hrows).
    + apply align256_ge.
    + lia.
    + unfold new_Uint8Array. by rewrite length_replicate.
    + intros; lia.
    + intros j Hj. unfold new_Uint8Array in *. rewrite length_replicate in Hj.
      apply lookup_replicate_2. lia.
    + rewrite Hrun. simpl. eexists. split; [reflexivity|]. simpl.
      split; [done|]. split; [|done].
      intros H. exfalso. apply E. by apply align256_fix.
Qed.

Lemma take_drop_ext {A} (l1 l2 : list A) a b n :
  (b + n <= length l2)%nat ->
  (forall k, k < n -> l1 !! (a + k) = l2 !! (b + k))%nat ->
  take n (drop a l1) = take n (drop b l2).
Proof.
  intros Hlen H. apply list_eq. intros i.
  destruct (decide (i < n)%nat) as [Hi|Hi].
  - rewrite !lookup_take_lt, !lookup_drop by done. by apply H.
  - rewrite !lookup_take_ge by lia. done.
Qed.

(** C9. [padRows] rounds the row stride [width * bytesPerPixel] up to the
    next multiple of 256 and always returns; a stride that is already a
    multiple of 256 gives the input buffer back unchanged; otherwise the
    result has [aligned * height] bytes, row [y] of the source starts at
    offset [y * aligned], and the padding is zero.  For width 3, height 2
    and 4 bytes per pixel the result has 512 bytes with the two source rows
    of 12 bytes at offsets 0 and 256. *)
Theorem padRows_spec :
  (forall src width height bytesPerPixel,
     let rowStride := (width * bytesPerPixel)%nat in
     let aligned := align256 rowStride in
     exists p,
       padRows src width height bytesPerPixel = Ok p
       /\ bytesPerRow p = aligned
       /\ (aligned mod 256 = 0 /\ rowStride <= aligned < rowStride + 256)%nat
       /\ (rowStride mod 256 = 0 -> data p = src /\ bytesPerRow p = rowStride)%nat
       /\ (rowStride mod 256 <> 0 ->
           length (data p) = aligned * height
           /\ (forall y k, y < height -> k < rowStride ->
                 y * rowStride + k < length src ->
                 data p !! (y * aligned + k) = src !! (y * rowStride + k))
           /\ (forall y k, y < height -> rowStride <= k < aligned ->
                 data p !! (y * aligned + k) = Some zero_byte))%nat)
  /\ (forall src, length src = 24%nat ->
      exists p,
        padRows src 3 2 4 = Ok p
        /\ bytesPerRow p = 256%nat
        /\ length (data p) = 512%nat
        /\ take 12 (data p) = take 12 src
        /\ take 12 (drop 256 (data p)) = take 12 (drop 12 src)).
Proof.
  split.
  - intros src width height bpp rowStride aligned.
    destruct (padRows_correct src width height bpp)
      as (p & Hrun & Hbpr & Hid & Hpad).
    fold rowStride in Hbpr, Hid, Hpad. fold aligned in Hbpr, Hpad.
    exists p. split; [done|]. split; [done|].
    split.
    { pose proof (align256_ge rowStride). pose proof (align256_lt rowStride).
      pose proof (align256_multiple rowStride). unfold aligned. lia. }
    split.
    { intros H. split; [by apply Hid|]. rewrite Hbpr. by apply align256_fix. }
    intros H. destruct (Hpad H) as [Hlen Hrows]. split; [done|]. split.
    + intros y k Hy Hk Hsrc. rewrite Hrows by (pose proof (align256_ge rowStride); unfold aligned; lia).
      unfold cell. rewrite decide_True by done.
      destruct (src !! (y * rowStride + k)%nat) eqn:E; [done|].
      apply lookup_ge_None in E. lia.
    + intros y k Hy Hk. rewrite Hrows by lia.
      unfold cell. by rewrite decide_False by lia.
  - intros src Hsrc.
    destruct (padRows_correct src 3 2 4) as (p & Hrun & Hbpr & _ & Hpad).
    change (align256 (3 * 4)) with 256%nat in *.
    destruct Hpad as [Hlen Hrows]; [by vm_compute|].
    exists p. split; [done|]. split; [done|]. split; [done|]. split.
    + rewrite <- (drop_0 (data p)), <- (drop_0 src) at 1.
      apply take_drop_ext; [lia|]. intros k Hk.
      specialize (Hrows 0%nat k). simpl in Hrows. simpl.
      rewrite Hrows by lia. unfold cell. rewrite decide_True by lia.
      simpl. destruct (src !! k) eqn:E; [done|]. apply lookup_ge_None in E. lia.
    + apply take_drop_ext; [lia|]. intros k Hk.
      specialize (Hrows 1%nat k).
      change (1 * 256 + k)%nat with (256 + k)%nat in Hrows.
      rewrite Hrows by lia. unfold cell. rewrite decide_True by lia.
      change (1 * (3 * 4) + k)%nat with (12 + k)%nat.
      destruct (src !! (12 + k)%nat) eqn:E; [done|]. apply lookup_ge_None in E. lia.
Qed.

(** ** Container parser *)

Import Read.

Lemma view_ok buffer off len :
  (0 <= off)%Z -> (0 <= len)%Z -> (off + len <= Z.of_nat (length buffer))%Z ->
  JS.view buffer off len = Ok (take (Z.to_nat len) (drop (Z.to_nat off) buffer)).
Proof. intros. unfold JS.view. by rewrite decide_True. Qed.

Lemma view_range_error buffer off len :
  (Z.of_nat (length buffer) < off + len)%Z -> JS.view buffer off len = Err RangeError.
Proof. intros. unfold JS.view. rewrite decide_False; [done|lia]. Qed.

Lemma checkIdentifier_spec identifier :
  length identifier = 12%nat ->
  checkIdentifier identifier =
    if decide (identifier = KTX2_IDENTIFIER) then Ok tt
    else Err (Error "Invalid KTX2 identifier").
Proof.
  intros Hlen.
  do 12 (destruct identifier as [|? identifier]; [discriminate Hlen|]).
  destruct identifier; [|discriminate Hlen].
  unfold checkIdentifier, KTX2_IDENTIFIER. simpl.
  repeat match goal with
         | |- context [decide (Some ?x = Some ?y)] =>
             destruct (decide (Some x = Some y)) as [Hb|Hb];
             [ injection Hb as ->; simpl
             | simpl; case_decide; [congruence | reflexivity] ]
         end.
  reflexivity.
Qed.

Lemma run_container_error env arrayBuffer e :
  parseContainer env arrayBuffer = Err e -> run env arrayBuffer = (Err e, []).
Proof. intros H. unfold run, parseKTX2, bindM, lift. by rewrite H. Qed.

Lemma parseContainer_short env arrayBuffer :
  (length arrayBuffer < 80)%nat ->
  parseContainer env arrayBuffer =
    if decide (length arrayBuffer < 12)%nat then Err RangeError
    else if decide (take 12 arrayBuffer = KTX2_IDENTIFIER)
         then Err (Error "KTX2 too small to contain header.")
         else Err (Error "Invalid KTX2 identifier").
Proof.
  intros Hshort. unfold parseContainer.
  destruct (decide (length arrayBuffer < 12)%nat) as [H12|H12].
  - rewrite view_range_error by lia. done.
  - rewrite view_ok by lia.
    change (Z.to_nat 12) with 12%nat. change (Z.to_nat 0) with 0%nat.
    rewrite drop_0. simpl.
    rewrite checkIdentifier_spec by (rewrite length_take; lia).
    destruct (decide (take 12 arrayBuffer = KTX2_IDENTIFIER)); simpl; [|done].
    rewrite decide_True by lia. done.
Qed.

(** A buffer that cannot hold the identifier: the view of the first 12
    bytes raises the bounds error before any check of the reader. *)
Lemma parseKTX2_below_identifier env arrayBuffer :
  (length arrayBuffer < 12)%nat -> run env arrayBuffer = (Err RangeError, []).
Proof.
  intros H. apply run_container_error.
  rewrite parseContainer_short by lia. by rewrite decide_True.
Qed.

(** C3, as stated, fails on both of its particular cases: a 12-byte buffer
    that is not the identifier is shorter than 80 bytes and is rejected for
    its identifier, not for its length; and the first 11 bytes of the
    identifier are rejected by the bounds check of the identifier view. *)
Lemma short_buffer_invalid_identifier :
  (length Sample.bad_magic < 80)%nat
  /\ run Sample.no_env Sample.bad_magic = (Err (Error "Invalid KTX2 identifier"), [])
  /\ (length (take 11 KTX2_IDENTIFIER) < 12)%nat
  /\ run Sample.no_env (take 11 KTX2_IDENTIFIER) = (Err RangeError, [])
  /\ ~ (forall env arrayBuffer,
          (length arrayBuffer < 80)%nat ->
          (run env arrayBuffer).1 = Err (Error "KTX2 too small to contain header.")).
Proof.
  assert (run Sample.no_env Sample.bad_magic
          = (Err (Error "Invalid KTX2 identifier"), [])) as Hrun by reflexivity.
  split; [simpl; lia|]. split; [done|].
  split; [simpl; lia|]. split; [reflexivity|].
  intros H. specialize (H Sample.no_env Sample.bad_magic).
  rewrite Hrun in H. simpl in H. discriminate H; lia.
Qed.

(** C3, amended.  A buffer shorter than 80 bytes never parses.  The
    identifier is checked before the length: with at least 12 bytes, the
    failure is 'KTX2 too small to contain header.' when the first 12 bytes
    are the identifier, and 'Invalid KTX2 identifier' when they are not. *)
Theorem parseKTX2_short_buffer env arrayBuffer :
  (length arrayBuffer < 80)%nat ->
  is_ok (run env arrayBuffer).1 = false
  /\ ((12 <= length arrayBuffer)%nat ->
      take 12 arrayBuffer = KTX2_IDENTIFIER ->
      run env arrayBuffer = (Err (Error "KTX2 too small to contain header."), []))
  /\ ((12 <= length arrayBuffer)%nat ->
      take 12 arrayBuffer <> KTX2_IDENTIFIER ->
      run env arrayBuffer = (Err (Error "Invalid KTX2 identifier"), [])).
Proof.
  intros Hshort. pose proof (parseContainer_short env arrayBuffer Hshort) as Hc.
  split; [|split].
  - destruct (decide (length arrayBuffer < 12)%nat);
      [|destruct (decide (take 12 arrayBuffer = KTX2_IDENTIFIER))];
      by rewrite (run_container_error _ _ _ Hc).
  - intros H12 Hid. apply run_container_error. rewrite Hc.
    rewrite decide_False by lia. by rewrite decide_True.
  - intros H12 Hid. apply run_container_error. rewrite Hc.
    rewrite decide_False by lia. by rewrite decide_False.
Qed.

Lemma parseKTX2_short_buffer_witness :
  (length KTX2_IDENTIFIER < 80)%nat
  /\ run Sample.no_env KTX2_IDENTIFIER
     = (Err (Error "KTX2 too small to contain header."), []).
Proof.
  split; [simpl; lia|].
  apply (parseKTX2_short_buffer Sample.no_env KTX2_IDENTIFIER);
    [simpl; lia | simpl; lia | reflexivity].
Defined.

Example rgba8_4x4_parses :
  run Sample.no_env Sample.rgba8_4x4 = (Ok Sample.rgba8_4x4_parsed, []).
Proof. vm_compute. reflexivity. Qed.

(** *** Inversion of the two halves of [parseKTX2] *)

Ltac inv_bind H :=
  match type of H with
  | JS.bind ?r _ = Ok _ =>
      let E := fresh "E" in
      destruct r eqn:E; simpl in H; [|discriminate H]
  end.

Lemma parseKTX2_inv env arrayBuffer pt tr :
  run env arrayBuffer = (Ok pt, tr) ->
  exists c,
    parseContainer env arrayBuffer = Ok c
    /\ resolveSupercompression env arrayBuffer c [] = (Ok (levels pt), tr)
    /\ header pt = header c /\ index pt = index c
    /\ dfd pt = dfd c /\ kvd pt = kvd c.
Proof.
  unfold run, parseKTX2, bindM, lift, ret. intros H.
  destruct (parseContainer env arrayBuffer) as [c|e] eqn:Hc; [|discriminate H].
  destruct (resolveSupercompression env arrayBuffer c []) as [[ls|e] tr'] eqn:Hr;
    [|discriminate H].
  injection H as <- <-. exists c. simpl. repeat split; done.
Qed.

Lemma parseKTX2_compose env arrayBuffer c ls tr :
  parseContainer env arrayBuffer = Ok c ->
  resolveSupercompression env arrayBuffer c [] = (Ok ls, tr) ->
  run env arrayBuffer
  = (Ok {| header := header c; index := index c; levels := ls;
           dfd := dfd c; kvd := kvd c |}, tr).
Proof.
  intros Hc Hr. unfold run, parseKTX2, bindM, lift, ret. by rewrite Hc, Hr.
Qed.

Lemma parseContainer_levels env arrayBuffer c :
  parseContainer env arrayBuffer = Ok c ->
  exists off,
    for_range (Z.to_nat (iterLevelCount (header c))) 0
      (readLevel arrayBuffer (header c)) (80%Z, []) = Ok (off, levels c).
Proof.
  unfold parseContainer. intros H.
  do 2 inv_bind H.
  destruct (decide _) in H; [discriminate H|].
  do 16 inv_bind H.
  match goal with E : for_range _ _ _ _ = Ok ?st |- _ => destruct st as [off ls] end.
  do 2 inv_bind H.
  injection H as <-. simpl. by exists off.
Qed.

Lemma iterLevelCount_max hdr : iterLevelCount hdr = Z.max 1 (levelCount hdr).
Proof. unfold iterLevelCount. destruct (Z.eqb_spec (levelCount hdr) 0); lia. Qed.

(** The level index loop appends one level per turn, with the dimensions
    of its index and no decode outcome. *)
Lemma readLevel_loop dv hdr n start off ls off' ls' :
  for_range n start (readLevel dv hdr) (off, ls) = Ok (off', ls') ->
  length ls' = (length ls + n)%nat
  /\ (forall j, j < length ls -> ls' !! j = ls !! j)%nat
  /\ forall k lvl, ls' !! (length ls + k)%nat = Some lvl ->
       width lvl = Z.max 1 (shr (pixelWidth hdr) (Z.of_nat (start + k)))
       /\ height lvl = Z.max 1 (shr (pixelHeight hdr) (Z.of_nat (start + k)))
       /\ isDecompressed lvl = false
       /\ decompressedData lvl = None
       /\ transcodedFormat lvl = None.
Proof.
  revert start off ls. induction n as [|n IH]; intros start off ls H.
  - simpl in H. injection H as <- <-. split; [lia|]. split; [done|].
    intros k lvl Hk. apply lookup_lt_Some in Hk. lia.
  - cbn [for_range] in H.
    destruct (readLevel dv hdr start (off, ls)) as [[off1 ls1]|] eqn:E;
      cbn [JS.bind] in H; [|discriminate H].
    unfold readLevel in E. do 3 inv_bind E. injection E as <- <-.
    apply IH in H. destruct H as (Hlen & Hold & Hnew).
    rewrite length_app in Hlen, Hold, Hnew. simpl in Hlen, Hold, Hnew.
    split; [lia|]. split.
    + intros j Hj. rewrite Hold by lia. by rewrite lookup_app_l.
    + intros k lvl Hk. destruct k as [|k].
      * rewrite Nat.add_0_r in *. rewrite Hold in Hk by lia.
        rewrite lookup_app_r, Nat.sub_diag in Hk by lia.
        injection Hk as <-. simpl. auto.
      * replace (start + S k)%nat with (S start + k)%nat by lia.
        apply Hnew. rewrite <- Hk. f_equal. lia.
Qed.

(** *** The resolver keeps the geometry of every level *)

Lemma geometry_alter dst format i (ls : list Level) :
  geometry <$> alter (storeTranscoded dst format) i ls = geometry <$> ls.
Proof.
  rewrite (list_fmap_alter geometry (storeTranscoded dst format) id)
    by (apply Forall_forall; done).
  by apply list_alter_id.
Qed.

Lemma geometry_insert d i (ls : list Level) level :
  ls !! i = Some level ->
  geometry <$> <[i := storeDecompressed d level]> ls = geometry <$> ls.
Proof.
  intros H. rewrite list_fmap_insert. apply list_insert_id.
  by rewrite list_lookup_fmap, H.
Qed.

(** Unfold one bind of [M] in hypothesis [H], naming the intermediate
    result; the error branch is closed when [H] says the whole succeeds. *)
Ltac inv_bindM H :=
  match type of H with
  | bindM ?m _ ?tr = (Ok _, _) =>
      let E := fresh "E" in
      let a := fresh "a" in
      let e := fresh "e" in
      let tr1 := fresh "tr" in
      unfold bindM at 1 in H;
      destruct (m tr) as [[a|e] tr1] eqn:E; [|discriminate H]
  end.

Lemma zstdLoop_geometry f arrayBuffer n i ls tr ls' tr' :
  zstdLoop f arrayBuffer n i ls tr = (Ok ls', tr') ->
  geometry <$> ls' = geometry <$> ls.
Proof.
  revert i ls tr. induction n as [|n IH]; intros i ls tr H.
  - injection H as <- <-. done.
  - cbn [zstdLoop] in H.
    destruct (ls !! i) as [level|] eqn:Hi; [|injection H as <- <-; done].
    inv_bindM H.
    destruct (f a) as [d|]; [|discriminate H].
    inv_bindM H.
    apply IH in H. rewrite H. by apply geometry_insert.
Qed.

Lemma rawLoop_geometry h n i ls tr ls' tr' :
  rawLoop h n i ls tr = (Ok ls', tr') ->
  geometry <$> ls' = geometry <$> ls.
Proof.
  revert i ls tr. induction n as [|n IH]; intros i ls tr H.
  - injection H as <- <-. done.
  - cbn [rawLoop] in H. inv_bindM H.
    destruct a as [[status dst]|]; [|injection H as <- <-; done].
    destruct (status && _); [|injection H as <- <-; done].
    apply IH in H. rewrite H. apply geometry_alter.
Qed.

Lemma lzLoop_geometry h format n i ls tr ls' tr' :
  lzLoop h format n i ls tr = (Ok ls', tr') ->
  geometry <$> ls' = geometry <$> ls.
Proof.
  revert i ls tr. induction n as [|n IH]; intros i ls tr H.
  - injection H as <- <-. done.
  - cbn [lzLoop] in H. inv_bindM H.
    destruct a as [[[status dst] actualFormat]|]; [|injection H as <- <-; done].
    destruct (status && _); [|injection H as <- <-; done].
    apply IH in H. rewrite H. apply geometry_alter.
Qed.

Lemma resolveRawBasis_geometry env arrayBuffer ls tr ls' tr' :
  resolveRawBasis env arrayBuffer ls tr = (Ok ls', tr') ->
  geometry <$> ls' = geometry <$> ls.
Proof.
  unfold resolveRawBasis. intros H.
  do 2 inv_bindM H. unfold rawSession in H. inv_bindM H.
  destruct (negb _).
  { inv_bindM H. discriminate H. }
  do 3 inv_bindM H. injection H as <- <-.
  eapply rawLoop_geometry; eassumption.
Qed.

Lemma resolveBasisLZ_geometry env arrayBuffer d ls tr ls' tr' :
  resolveBasisLZ env arrayBuffer d ls tr = (Ok ls', tr') ->
  geometry <$> ls' = geometry <$> ls.
Proof.
  unfold resolveBasisLZ. intros H.
  do 3 inv_bindM H. unfold lzSession in H. inv_bindM H.
  destruct (negb _).
  { inv_bindM H. discriminate H. }
  inv_bindM H.
  destruct (_ =? 0)%Z.
  { inv_bindM H. discriminate H. }
  do 3 inv_bindM H. injection H as <- <-.
  eapply lzLoop_geometry; eassumption.
Qed.

Lemma resolveSupercompression_geometry env arrayBuffer c tr ls' tr' :
  resolveSupercompression env arrayBuffer c tr = (Ok ls', tr') ->
  geometry <$> ls' = geometry <$> levels c.
Proof.
  unfold resolveSupercompression. intros H.
  repeat match type of H with
         | (if ?b then _ else _) _ = _ => destruct b
         end.
  - inv_bindM H. eapply zstdLoop_geometry; eassumption.
  - eapply resolveRawBasis_geometry; eassumption.
  - eapply resolveBasisLZ_geometry; eassumption.
  - discriminate H.
  - discriminate H.
  - injection H as <- <-. done.
Qed.

Lemma geometry_lookup (ls ls' : list Level) i lvl' :
  geometry <$> ls' = geometry <$> ls ->
  ls' !! i = Some lvl' ->
  exists lvl, ls !! i = Some lvl /\ geometry lvl = geometry lvl'.
Proof.
  intros Hg Hi.
  assert ((geometry <$> ls) !! i = Some (geometry lvl')) as H
    by (by rewrite <- Hg, list_lookup_fmap, Hi).
  rewrite list_lookup_fmap in H.
  destruct (ls !! i) as [lvl|]; [|discriminate H].
  simpl in H. exists lvl. split; [reflexivity|congruence].
Qed.

(** The signed 32-bit shift is the arithmetic shift on a dimension below
    2^31 and a level index below 32. *)
Lemma shr_small x i :
  (0 <= x < 2 ^ 31)%Z -> (0 <= i < 32)%Z -> shr x i = Z.shiftr x i.
Proof.
  intros Hx Hi. unfold shr, ToInt32, ToUint32.
  rewrite (Z.mod_small x) by lia.
  destruct (Z.ltb_spec x (2 ^ 31)); [|lia].
  rewrite (Z.mod_small i (2 ^ 32)) by lia. by rewrite Z.mod_small by lia.
Qed.

(** C2. Whenever [parseKTX2] returns, the level sequence has
    [max(1, header.levelCount)] entries, and level [i] carries
    [width = max(1, pixelWidth >> i)] and [height = max(1, pixelHeight >> i)],
    with [>>] the 32-bit shift of the source. *)
Theorem parseKTX2_level_dimensions env arrayBuffer pt tr :
  run env arrayBuffer = (Ok pt, tr) ->
  length (levels pt) = Z.to_nat (Z.max 1 (levelCount (header pt)))
  /\ forall (i : nat) lvl,
       levels pt !! i = Some lvl ->
       width lvl = Z.max 1 (shr (pixelWidth (header pt)) (Z.of_nat i))
       /\ height lvl = Z.max 1 (shr (pixelHeight (header pt)) (Z.of_nat i)).
Proof.
  intros H. apply parseKTX2_inv in H.
  destruct H as (c & Hc & Hr & Hh & _). rewrite Hh.
  apply parseContainer_levels in Hc. destruct Hc as (off & Hloop).
  apply readLevel_loop in Hloop. destruct Hloop as (Hlen & _ & Hdim).
  apply resolveSupercompression_geometry in Hr.
  split.
  - rewrite <- iterLevelCount_max. simpl in Hlen. rewrite <- Hlen.
    rewrite <- (length_fmap geometry (levels pt)), Hr. by rewrite length_fmap.
  - intros i lvl Hi.
    destruct (geometry_lookup _ _ _ _ Hr Hi) as (lvl0 & Hi0 & Hg).
    destruct (Hdim i lvl0 Hi0) as (Hw & Hht & _).
    unfold geometry in Hg. injection Hg as _ _ _ Hw' Hh'.
    rewrite <- Hw', <- Hh'. simpl in Hw, Hht. done.
Qed.

Lemma parseKTX2_level_dimensions_witness :
  run Sample.no_env Sample.rgba8_4x4 = (Ok Sample.rgba8_4x4_parsed, [])
  /\ length (levels Sample.rgba8_4x4_parsed)
     = Z.to_nat (Z.max 1 (levelCount (header Sample.rgba8_4x4_parsed)))
  /\ forall (i : nat) lvl,
       levels Sample.rgba8_4x4_parsed !! i = Some lvl ->
       width lvl
       = Z.max 1 (shr (pixelWidth (header Sample.rgba8_4x4_parsed)) (Z.of_nat i))
       /\ height lvl
          = Z.max 1 (shr (pixelHeight (header Sample.rgba8_4x4_parsed)) (Z.of_nat i)).
Proof.
  split; [vm_compute; reflexivity|].
  apply (parseKTX2_level_dimensions Sample.no_env Sample.rgba8_4x4
           Sample.rgba8_4x4_parsed []).
  vm_compute. reflexivity.
Defined.

(** ** Level accessor *)

Lemma view_length buffer off len raw :
  JS.view buffer off len = Ok raw ->
  raw = take (Z.to_nat len) (drop (Z.to_nat off) buffer)
  /\ Z.of_nat (length raw) = len.
Proof.
  unfold JS.view. destruct (decide _) as [(Ho & Hl & Hr)|]; [|discriminate].
  intros H. injection H as <-. split; [done|].
  rewrite length_take, length_drop. lia.
Qed.

(** C10. [getLevelData] returns the attached payload when [isDecompressed]
    is set and a payload is attached.  In every other case it returns the
    view of [byteLength] bytes at [byteOffset] of the original buffer: when
    that range lies inside the buffer these are exactly the raw bytes of the
    range (outside, the view constructor throws). *)
Theorem getLevelData_spec arrayBuffer level :
  (forall d,
     isDecompressed level = true -> decompressedData level = Some d ->
     getLevelData arrayBuffer level = Ok d)
  /\ (~ (isDecompressed level = true /\ is_Some (decompressedData level)) ->
      getLevelData arrayBuffer level
      = JS.view arrayBuffer (byteOffset level) (byteLength level)
      /\ ((0 <= byteOffset level)%Z -> (0 <= byteLength level)%Z ->
          (byteOffset level + byteLength level <= Z.of_nat (length arrayBuffer))%Z ->
          exists raw,
            getLevelData arrayBuffer level = Ok raw
            /\ raw = take (Z.to_nat (byteLength level))
                       (drop (Z.to_nat (byteOffset level)) arrayBuffer)
            /\ Z.of_nat (length raw) = byteLength level)).
Proof.
  split.
  - intros d Hflag Hd. unfold getLevelData. by rewrite Hflag, Hd.
  - intros Hno.
    assert (getLevelData arrayBuffer level
            = JS.view arrayBuffer (byteOffset level) (byteLength level)) as Hraw.
    { unfold getLevelData.
      destruct (isDecompressed level); [|done].
      destruct (decompressedData level); [|done].
      exfalso. apply Hno. split; [done|by eexists]. }
    split; [done|]. intros Ho Hl Hr.
    rewrite Hraw. rewrite view_ok by done.
    eexists. split; [reflexivity|]. split; [reflexivity|].
    rewrite length_take, length_drop. lia.
Qed.

Example getLevelData_decoded :
  getLevelData Sample.ten_bytes Sample.decoded_level = Ok [x01; x02; x03; x04]%byte.
Proof. reflexivity. Qed.

Example getLevelData_raw :
  getLevelData Sample.ten_bytes (Sample.plain_level 2 3 1 1) = Ok [x0c; x0d; x0e]%byte.
Proof. reflexivity. Qed.

Example getLevelData_out_of_range :
  getLevelData Sample.ten_bytes (Sample.plain_level 8 3 1 1) = Err RangeError.
Proof. reflexivity. Qed.

(** ** DFD correction of the format descriptor *)

Import MediaRead.

Lemma table_blockWidth vkFormat fi :
  vkFormatToWebGPU vkFormat = Some fi ->
  blockWidth fi <> None -> truthy (blockWidth fi) = true.
Proof.
  unfold vkFormatToWebGPU. intros H Hb.
  repeat case_match; try discriminate H; injection H as <-; done.
Qed.

Lemma applyDFDCorrections_disagree fi d vkFormat b :
  truthy (blockWidth fi) = true ->
  Read.bytesPlane d !! 0%nat = Some b -> b <> 0%Z ->
  bytesPerBlock fi <> Some b ->
  applyDFDCorrections (Some fi) (Some d) vkFormat
  = Some (if (148 <=? vkFormat)%Z && (vkFormat <=? 154)%Z then
            if (b =? 8)%Z then
              set_format (if (Read.colorModel d =? 162)%Z
                          then "etc2-rgb8a1unorm" else "etc2-rgb8unorm")
                (set_bytesPerBlock b fi)
            else if (b =? 16)%Z then
              set_format "etc2-rgba8unorm" (set_bytesPerBlock b fi)
            else set_bytesPerBlock b fi
          else set_bytesPerBlock b fi).
Proof.
  intros Hbw Hb0 Hnz Hne. unfold applyDFDCorrections.
  rewrite Hbw, Hb0. simpl.
  destruct (Z.eqb_spec b 0) as [|_]; [done|]. simpl.
  rewrite bool_decide_false by congruence. simpl.
  destruct ((148 <=? vkFormat)%Z && (vkFormat <=? 154)%Z); [|done].
  destruct (b =? 8)%Z.
  - destruct (Z.eqb_spec (Read.colorModel d) 160) as [E|_].
    + rewrite E. reflexivity.
    + by destruct (Read.colorModel d =? 162)%Z.
  - by destruct (b =? 16)%Z.
Qed.

(** C6. For a format code whose table descriptor is block-compressed and a
    DFD whose first-plane byte count [b] is non-zero and differs from the
    table's bytes per block, [applyDFDCorrections] stores [b] as the bytes
    per block and keeps the block dimensions.  For the codes 148 to 154 the
    format tag follows the corrected size: with [b = 8] it is
    'etc2-rgb8a1unorm' for colour model 162 and 'etc2-rgb8unorm' otherwise,
    with [b = 16] it is 'etc2-rgba8unorm'. *)
Theorem applyDFDCorrections_block vkFormat fi d b :
  vkFormatToWebGPU vkFormat = Some fi ->
  blockWidth fi <> None ->
  Read.bytesPlane d !! 0%nat = Some b -> b <> 0%Z ->
  bytesPerBlock fi <> Some b ->
  exists fi',
    applyDFDCorrections (Some fi) (Some d) vkFormat = Some fi'
    /\ bytesPerBlock fi' = Some b
    /\ blockWidth fi' = blockWidth fi /\ blockHeight fi' = blockHeight fi
    /\ ((148 <= vkFormat <= 154)%Z ->
        (b = 8%Z ->
         format fi' = if (Read.colorModel d =? 162)%Z
                      then "etc2-rgb8a1unorm" else "etc2-rgb8unorm")
        /\ (b = 16%Z -> format fi' = "etc2-rgba8unorm"))
    /\ (~ (148 <= vkFormat <= 154)%Z -> format fi' = format fi).
Proof.
  intros Htab Hblock Hb0 Hnz Hne.
  pose proof (table_blockWidth _ _ Htab Hblock) as Hbw.
  rewrite (applyDFDCorrections_disagree fi d vkFormat b) by done.
  eexists. split; [reflexivity|].
  destruct (Z.leb_spec 148 vkFormat), (Z.leb_spec vkFormat 154); simpl.
  - destruct (Z.eqb_spec b 8) as [->|H8]; simpl.
    + repeat split; try done; intros; lia.
    + destruct (Z.eqb_spec b 16) as [->|H16]; simpl;
        repeat split; try done; intros; lia.
  - repeat split; try done; intros; lia.
  - repeat split; try done; intros; lia.
  - repeat split; try done; intros; lia.
Qed.

Lemma applyDFDCorrections_block_witness :
  vkFormatToWebGPU 154 = Some (block "etc2-rgba8unorm" 4 4 16)
  /\ exists fi',
       applyDFDCorrections (Some (block "etc2-rgba8unorm" 4 4 16))
         (Some (Sample.dfd_with 162 8)) 154 = Some fi'
       /\ bytesPerBlock fi' = Some 8%Z
       /\ format fi' = "etc2-rgb8a1unorm".
Proof.
  split; [reflexivity|].
  destruct (applyDFDCorrections_block 154 (block "etc2-rgba8unorm" 4 4 16)
              (Sample.dfd_with 162 8) 8)
    as (fi' & Hrun & Hb & _ & _ & Hfmt & _);
    [reflexivity | discriminate | reflexivity | discriminate | discriminate |].
  exists fi'. split; [exact Hrun|]. split; [exact Hb|].
  apply Hfmt; [lia | reflexivity].
Defined.

(** ** Zstandard levels *)

Import Read.

(** The Zstandard loop from index [i] on, when every remaining level has
    its byte range inside the buffer and the decompressor returns on it:
    the loop returns, each of these levels receives the output as it is,
    and the warnings are exactly those of the levels whose output length
    differs from the declared one. *)
Lemma zstdLoop_run f arrayBuffer n i ls tr :
  (i + n = length ls)%nat ->
  (forall j lvl, (i <= j)%nat -> ls !! j = Some lvl ->
     exists cd d, JS.view arrayBuffer (byteOffset lvl) (byteLength lvl) = Ok cd
                  /\ f cd = Returns d) ->
  exists ls' evs,
    zstdLoop f arrayBuffer n i ls tr = (Ok ls', tr ++ evs)
    /\ length ls' = length ls
    /\ (forall j, (j < i)%nat -> ls' !! j = ls !! j)
    /\ (forall j lvl cd d, (i <= j)%nat -> ls !! j = Some lvl ->
          JS.view arrayBuffer (byteOffset lvl) (byteLength lvl) = Ok cd ->
          f cd = Returns d ->
          ls' !! j = Some (storeDecompressed d lvl))
    /\ (forall ev, ev ∈ evs ->
          exists j lvl cd d,
            (i <= j)%nat /\ ls !! j = Some lvl
            /\ JS.view arrayBuffer (byteOffset lvl) (byteLength lvl) = Ok cd
            /\ f cd = Returns d
            /\ Z.of_nat (length d) <> uncompressedByteLength lvl
            /\ ev = Warn_size j (Z.of_nat (length d)) (uncompressedByteLength lvl))
    /\ (forall j lvl cd d, (i <= j)%nat -> ls !! j = Some lvl ->
          JS.view arrayBuffer (byteOffset lvl) (byteLength lvl) = Ok cd ->
          f cd = Returns d ->
          Z.of_nat (length d) <> uncompressedByteLength lvl ->
          Warn_size j (Z.of_nat (length d)) (uncompressedByteLength lvl) ∈ evs).
Proof.
  revert i ls tr. induction n as [|n IH]; intros i ls tr Hlen Hall.
  - exists ls, []. cbn [zstdLoop]. unfold ret. rewrite app_nil_r.
    split; [done|]. split; [done|]. split; [done|]. split.
    { intros j lvl cd d Hj Hl. apply lookup_lt_Some in Hl. lia. }
    split.
    { intros ev Hev. by apply elem_of_nil in Hev. }
    intros j lvl cd d Hj Hl. apply lookup_lt_Some in Hl. lia.
  - cbn [zstdLoop].
    destruct (ls !! i) as [level|] eqn:Hi;
      [|apply lookup_ge_None in Hi; lia].
    destruct (Hall i level) as (cd & d & Hview & Hf); [lia|done|].
    unfold bindM at 1. unfold lift at 1. rewrite Hview, Hf.
    set (ls1 := <[i := storeDecompressed d level]> ls).
    assert (forall j, j <> i -> ls1 !! j = ls !! j) as Hother
      by (intros j Hj; unfold ls1; by rewrite list_lookup_insert_ne).
    assert (ls1 !! i = Some (storeDecompressed d level)) as Hself
      by (unfold ls1; apply list_lookup_insert_eq; apply (lookup_lt_Some ls i level Hi)).
    set (w := Warn_size i (Z.of_nat (length d)) (uncompressedByteLength level)).
    set (pre := if decide (Z.of_nat (length d) = uncompressedByteLength level)
                then [] else [w]).
    destruct (IH (S i) ls1 (tr ++ pre))
      as (ls' & evs & Hrun & Hlen' & Hlow & Hset & Hevs & Hwarn).
    { unfold ls1. rewrite length_insert. lia. }
    { intros j lvl Hj Hl. rewrite Hother in Hl by lia. apply (Hall j lvl); [lia|done]. }
    exists ls', (pre ++ evs).
    split.
    { unfold bindM at 1. unfold pre in Hrun. 
      destruct (decide (Z.of_nat (length d) = uncompressedByteLength level));
        unfold ret, emit; [rewrite app_nil_r in Hrun|];
        rewrite Hrun; by rewrite <- ?app_assoc. }
    split; [unfold ls1 in Hlen'; by rewrite length_insert in Hlen'|].
    split.
    { intros j Hj. rewrite Hlow by lia. apply Hother. lia. }
    split.
    { intros j lvl cd' d' Hj Hl Hv Hd.
      destruct (decide (j = i)) as [->|Hne].
      - rewrite Hlow by lia. rewrite Hself.
        rewrite Hi in Hl. injection Hl as <-. congruence.
      - apply (Hset j lvl cd' d'); [lia| by rewrite Hother |done|done]. }
    split.
    { intros ev Hev. apply elem_of_app in Hev. destruct Hev as [Hev|Hev].
      - unfold pre in Hev.
        destruct (decide (Z.of_nat (length d) = uncompressedByteLength level))
          as [|Hmis]; [by apply elem_of_nil in Hev|].
        apply list_elem_of_singleton in Hev. subst ev.
        exists i, level, cd, d. auto 10.
      - destruct (Hevs ev Hev) as (j & lvl & cd' & d' & Hj & Hl & Hrest).
        exists j, lvl, cd', d'. split; [lia|]. split; [|done].
        rewrite <- Hother; [done|lia]. }
    intros j lvl cd' d' Hj Hl Hv Hd Hmis.
    apply elem_of_app.
    destruct (decide (j = i)) as [->|Hne].
    + left. rewrite Hi in Hl. injection Hl as <-.
      assert (d' = d) as -> by congruence.
      unfold pre. rewrite decide_False by done. by apply list_elem_of_singleton.
    + right. apply (Hwarn j lvl cd' d'); [lia| by rewrite Hother |done..].
Qed.

(** C4. Under the Zstandard scheme, when every level's byte range lies in
    the buffer and the decompressor returns on it, [parseKTX2] returns
    whatever the lengths of the outputs are.  Each level keeps the output
    of the decompressor as its payload, with its actual length, and has
    [isDecompressed] set; a size warning for the level is logged exactly
    when the output length differs from the declared length. *)
Theorem zstd_size_mismatch_tolerated env arrayBuffer c fzstdDecompress :
  parseContainer env arrayBuffer = Ok c ->
  supercompressionScheme (header c) = SUPERCOMPRESSION_ZSTD ->
  loadFzstd env = Returns fzstdDecompress ->
  (forall i lvl, levels c !! i = Some lvl ->
     exists cd d, JS.view arrayBuffer (byteOffset lvl) (byteLength lvl) = Ok cd
                  /\ fzstdDecompress cd = Returns d) ->
  exists pt tr,
    run env arrayBuffer = (Ok pt, tr)
    /\ length (levels pt) = length (levels c)
    /\ forall i lvl cd d,
         levels c !! i = Some lvl ->
         JS.view arrayBuffer (byteOffset lvl) (byteLength lvl) = Ok cd ->
         fzstdDecompress cd = Returns d ->
         exists lvl',
           levels pt !! i = Some lvl'
           /\ decompressedData lvl' = Some d
           /\ isDecompressed lvl' = true
           /\ geometry lvl' = geometry lvl
           /\ (Z.of_nat (length d) <> uncompressedByteLength lvl <->
               Warn_size i (Z.of_nat (length d)) (uncompressedByteLength lvl) ∈ tr).
Proof.
  intros Hc Hscheme Hload Hall.
  destruct (zstdLoop_run fzstdDecompress arrayBuffer (length (levels c)) 0
              (levels c) [])
    as (ls' & evs & Hrun & Hlen & _ & Hset & Hevs & Hwarn).
  { lia. }
  { intros j lvl _ Hl. by apply (Hall j lvl). }
  simpl in Hrun.
  assert (resolveSupercompression env arrayBuffer c [] = (Ok ls', evs)) as Hres.
  { unfold resolveSupercompression. rewrite Hscheme. simpl.
    unfold bindM, await. rewrite Hload. simpl. exact Hrun. }
  eexists _, evs. split; [by apply parseKTX2_compose|]. simpl.
  split; [done|].
  intros i lvl cd d Hl Hv Hd.
  exists (storeDecompressed d lvl).
  split; [apply (Hset i lvl cd d); [lia|done..]|].
  split; [done|]. split; [done|]. split; [done|].
  split.
  - intros Hmis. apply (Hwarn i lvl cd d); [lia|done..].
  - intros Hin. destruct (Hevs _ Hin) as (j & lvl2 & cd2 & d2 & _ & Hl2 & Hv2 & Hd2 & Hmis & Heq).
    injection Heq as Hj Hlen2 Hunc. subst j.
    rewrite Hl in Hl2. injection Hl2 as <-.
    rewrite Hv in Hv2. injection Hv2 as <-.
    rewrite Hd in Hd2. injection Hd2 as <-. done.
Qed.

Lemma zstd_size_mismatch_tolerated_witness :
  parseContainer Sample.zstd_env Sample.zstd_one_level
  = Ok Sample.zstd_one_level_container
  /\ exists pt tr,
       run Sample.zstd_env Sample.zstd_one_level = (Ok pt, tr)
       /\ length (levels pt) = 1%nat
       /\ exists lvl',
            levels pt !! 0%nat = Some lvl'
            /\ decompressedData lvl' = Some Sample.short_output
            /\ isDecompressed lvl' = true
            /\ Warn_size 0 1000 1024 ∈ tr.
Proof.
  assert (parseContainer Sample.zstd_env Sample.zstd_one_level
          = Ok Sample.zstd_one_level_container) as Hc by (vm_compute; reflexivity).
  split; [exact Hc|].
  destruct (zstd_size_mismatch_tolerated Sample.zstd_env Sample.zstd_one_level
              Sample.zstd_one_level_container (fun _ => Returns Sample.short_output))
    as (pt & tr & Hrun & Hlen & Hlevels).
  - exact Hc.
  - reflexivity.
  - reflexivity.
  - intros [|i] lvl Hl; [|destruct i; discriminate Hl].
    injection Hl as <-. eexists _, _. split; reflexivity.
  - exists pt, tr. split; [exact Hrun|]. split; [exact Hlen|].
    destruct (Hlevels 0%nat _ [x28; xb5; x2f; xfd]%byte Sample.short_output
                eq_refl eq_refl eq_refl)
      as (lvl' & Hl & Hd & Hflag & _ & Hw).
    exists lvl'. split; [exact Hl|]. split; [exact Hd|]. split; [exact Hflag|].
    apply Hw. vm_compute. discriminate.
Defined.

(** ** Float downconversion *)

Import Main.

Example float32ToFloat16_one : float32ToFloat16 1065353216 = 15360%Z.
Proof. reflexivity. Qed.

Example float32ToFloat16_minus_two : float32ToFloat16 3221225472 = 49152%Z.
Proof. reflexivity. Qed.

Example float32ToFloat16_overflow : float32ToFloat16 1199570944 = 31744%Z.
Proof. reflexivity. Qed.

Example float32ToFloat16_nan : float32ToFloat16 2143289344 = 31744%Z.
Proof. reflexivity. Qed.

Example float32ToFloat16_subnormal : float32ToFloat16 864026624 = 1%Z.
Proof. reflexivity. Qed.

(** C8, as stated, fails: the float32 pattern 0x3F801FFF (just below
    1 + 2^-10) is sent to 0x3C00, the half 1.0, although the half 0x3C01 is
    strictly nearer. *)
Lemma float32ToFloat16_not_nearest :
  float32ToFloat16 1065361407 = 15360%Z
  /\ f16_finite 15361
  /\ (Z.abs (f16_value 15361 - f32_value 1065361407)
      < Z.abs (f16_value 15360 - f32_value 1065361407))%Z
  /\ ~ nearest_half 1065361407 (float32ToFloat16 1065361407).
Proof.
  assert (f16_finite 15361) as Hfin by (split; [lia | vm_compute; discriminate]).
  assert (Z.abs (f16_value 15361 - f32_value 1065361407)
          < Z.abs (f16_value 15360 - f32_value 1065361407))%Z as Hlt
    by (vm_compute; reflexivity).
  split; [reflexivity|]. split; [exact Hfin|]. split; [exact Hlt|].
  intros [_ Hmin]. specialize (Hmin 15361%Z Hfin).
  change (float32ToFloat16 1065361407) with 15360%Z in Hmin. lia.
Qed.

(** *** The 32-bit operators on small operands *)

Local Open Scope Z_scope.

Lemma ToInt32_small y : - 2 ^ 31 <= y < 2 ^ 31 -> ToInt32 y = y.
Proof.
  intros H. unfold ToInt32. change (2 ^ 32) with 4294967296.
  change (2 ^ 31) with 2147483648 in *.
  destruct (Z.ltb_spec (y mod 4294967296) 2147483648);
    Z.div_mod_to_equations; lia.
Qed.

Lemma ToInt32_u32 x :
  0 <= x < 2 ^ 32 -> ToInt32 x = if x <? 2 ^ 31 then x else x - 2 ^ 32.
Proof.
  intros H. unfold ToInt32. by rewrite Z.mod_small.
Qed.

Lemma shift_count n : 0 <= n < 32 -> ToUint32 n mod 32 = n.
Proof.
  intros H. unfold ToUint32. change (2 ^ 32) with 4294967296.
  Z.div_mod_to_equations; lia.
Qed.

Lemma shr_nonneg a n : 0 <= a < 2 ^ 31 -> 0 <= n < 32 -> shr a n = a / 2 ^ n.
Proof.
  intros Ha Hn. unfold shr.
  rewrite ToInt32_small, shift_count by lia. apply Z.shiftr_div_pow2. lia.
Qed.

Lemma shl_nonneg a n :
  0 <= a -> 0 <= n < 32 -> a * 2 ^ n < 2 ^ 31 -> shl a n = a * 2 ^ n.
Proof.
  intros Ha Hn Hfit. unfold shl.
  assert (0 < 2 ^ n) by (apply Z.pow_pos_nonneg; lia).
  rewrite (ToInt32_small a), shift_count by nia.
  rewrite Z.shiftl_mul_pow2 by lia. apply ToInt32_small. nia.
Qed.

Lemma lor_disjoint hi k lo :
  0 <= k -> 0 <= lo < 2 ^ k -> Z.lor (hi * 2 ^ k) lo = hi * 2 ^ k + lo.
Proof.
  intros Hk Hlo.
  assert (Z.land (hi * 2 ^ k) lo = 0) as Hdis.
  { apply Z.bits_inj'. intros n Hn. rewrite Z.land_spec, Z.bits_0.
    destruct (Z.lt_ge_cases n k).
    - by rewrite Z.mul_pow2_bits_low.
    - rewrite <- (Z.mod_small lo (2 ^ k)) by lia.
      rewrite Z.mod_pow2_bits_high by lia. apply andb_false_r. }
  rewrite <- Z.lxor_lor by done. symmetry. by apply Z.add_nocarry_lxor.
Qed.

Lemma bitor_fields hi k lo :
  0 <= hi -> 0 <= k -> 0 <= lo < 2 ^ k -> hi * 2 ^ k + lo < 2 ^ 31 ->
  bitor (hi * 2 ^ k) lo = hi * 2 ^ k + lo.
Proof.
  intros Hhi Hk Hlo Hfit. unfold bitor.
  assert (0 < 2 ^ k) by (apply Z.pow_pos_nonneg; lia).
  rewrite (ToInt32_small (hi * 2 ^ k)), (ToInt32_small lo) by nia.
  rewrite lor_disjoint by lia. apply ToInt32_small. nia.
Qed.

Lemma bitor_comm a b : bitor a b = bitor b a.
Proof. unfold bitor. by rewrite Z.lor_comm. Qed.

Lemma bitor_0_r a : - 2 ^ 31 <= a < 2 ^ 31 -> bitor a 0 = a.
Proof.
  intros H. unfold bitor. rewrite (ToInt32_small a) by done.
  change (ToInt32 0) with 0. rewrite Z.lor_0_r. by apply ToInt32_small.
Qed.

Lemma ToInt32_range y : - 2 ^ 31 <= ToInt32 y < 2 ^ 31.
Proof.
  unfold ToInt32. change (2 ^ 32) with 4294967296.
  change (2 ^ 31) with 2147483648.
  destruct (Z.ltb_spec (y mod 4294967296) 2147483648);
    Z.div_mod_to_equations; lia.
Qed.

(** [(x >> k) & (2^j - 1)] is the field of [j] bits at position [k]. *)
Lemma field x k j :
  0 <= x < 2 ^ 32 -> 0 <= k -> 1 <= j <= 30 -> k + j <= 32 ->
  bitand (shr x k) (2 ^ j - 1) = (x / 2 ^ k) mod 2 ^ j.
Proof.
  intros Hx Hk Hj Hkj. unfold bitand, shr.
  rewrite shift_count by lia. rewrite Z.shiftr_div_pow2 by lia.
  assert (0 < 2 ^ k) as Hpk by (apply Z.pow_pos_nonneg; lia).
  assert (0 < 2 ^ j) as Hpj by (apply Z.pow_pos_nonneg; lia).
  assert (2 ^ j <= 2 ^ 30) as Hj30 by (apply Z.pow_le_mono_r; lia).
  pose proof (ToInt32_range x) as Hr.
  assert (- 2 ^ 31 <= ToInt32 x / 2 ^ k < 2 ^ 31) as Ha.
  { split.
    - apply Z.div_le_lower_bound; [done|]. nia.
    - apply Z.div_lt_upper_bound; [done|]. nia. }
  rewrite (ToInt32_small (ToInt32 x / 2 ^ k)) by done.
  rewrite (ToInt32_small (2 ^ j - 1)) by (change (2 ^ 31) with (2 * 2 ^ 30); lia).
  replace (2 ^ j - 1) with (Z.ones j) by (rewrite Z.ones_equiv; lia).
  rewrite Z.land_ones by lia.
  pose proof (Z.mod_pos_bound (ToInt32 x / 2 ^ k) (2 ^ j) Hpj) as Hm.
  rewrite ToInt32_small by (change (2 ^ 31) with (2 * 2 ^ 30); lia).
  rewrite ToInt32_u32 by done.
  destruct (Z.ltb_spec x (2 ^ 31)); [done|].
  replace (x - 2 ^ 32) with (x + (- 2 ^ (32 - k - j) * 2 ^ j) * 2 ^ k).
  - rewrite Z.div_add by lia. by rewrite Z.mod_add by lia.
  - replace 32 with ((32 - k - j) + j + k) at 2 by lia.
    rewrite !Z.pow_add_r by lia. ring.
Qed.

(** [float32ToFloat16] in terms of the sign [s], the exponent field [E] and
    the ten leading mantissa bits [m] of the pattern. *)
Lemma float32ToFloat16_fields x :
  0 <= x < 2 ^ 32 ->
  let s := x / 2 ^ 31 in
  let E := (x / 2 ^ 23) mod 2 ^ 8 in
  let m := (x / 2 ^ 13) mod 2 ^ 10 in
  float32ToFloat16 x =
    if E <=? 112 then
      if E <? 102 then s * 2 ^ 15
      else s * 2 ^ 15 + (2 ^ 10 + m) / 2 ^ (113 - E)
    else if 143 <=? E then s * 2 ^ 15 + 31 * 2 ^ 10
    else s * 2 ^ 15 + (E - 112) * 2 ^ 10 + m.
Proof.
  intros Hx s E m.
  assert (0 <= s <= 1) as Hs.
  { unfold s. split.
    - apply Z.div_pos; lia.
    - apply Z.lt_succ_r. apply Z.div_lt_upper_bound; lia. }
  assert (0 <= E < 2 ^ 8) as HE by (apply Z.mod_pos_bound; lia).
  assert (0 <= m < 2 ^ 10) as Hm by (apply Z.mod_pos_bound; lia).
  assert (bitand (shr x 31) 1 = s) as Hf1.
  { change 1 with (2 ^ 1 - 1). rewrite field by lia.
    apply Z.mod_small. change (2 ^ 1) with 2. fold s. lia. }
  assert (bitand (shr x 23) 255 = E) as Hf2
    by (change 255 with (2 ^ 8 - 1); rewrite field by lia; done).
  assert (bitand (shr x 13) 1023 = m) as Hf3
    by (change 1023 with (2 ^ 10 - 1); rewrite field by lia; done).
  unfold float32ToFloat16. cbv zeta. rewrite !Hf1, !Hf2, !Hf3.
  change (2 ^ 8) with 256 in HE. change (2 ^ 10) with 1024 in Hm.
  assert (shl s 15 = s * 2 ^ 15) as Hsign
    by (apply shl_nonneg; [lia | lia | change (2 ^ 15) with 32768; change (2 ^ 31) with 2147483648; lia]).
  rewrite Hsign.
  destruct (Z.leb_spec (E - 112) 0) as [Hlow|Hhigh];
    destruct (Z.leb_spec E 112); try lia.
  - destruct (Z.ltb_spec (E - 112) (-10)); destruct (Z.ltb_spec E 102); try lia.
    rewrite (shl_nonneg 0 10) by (cbn; lia).
      change (0 * 2 ^ 10) with (0 * 2 ^ 15).
      rewrite (bitor_fields s 15 (0 * 2 ^ 15)) by (cbn; lia).
      replace (s * 2 ^ 15 + 0 * 2 ^ 15) with (s * 2 ^ 15) by lia.
      rewrite (bitor_comm m 1024).
      change 1024 with (1 * 2 ^ 10) at 1.
      rewrite (bitor_fields 1 10 m)
        by (change (2 ^ 10) with 1024; change (2 ^ 31) with 2147483648; lia).
      replace (1 - (E - 112)) with (113 - E) by lia.
      assert (0 < 2 ^ (113 - E)) as Hp by (apply Z.pow_pos_nonneg; lia).
      assert (2 <= 2 ^ (113 - E)) as Hp2.
      { change 2 with (2 ^ 1) at 1. apply Z.pow_le_mono_r; lia. }
      rewrite shr_nonneg
        by (change (2 ^ 10) with 1024; change (2 ^ 31) with 2147483648; lia).
      replace (1 * 2 ^ 10 + m) with (2 ^ 10 + m) by lia.
      assert (0 <= (2 ^ 10 + m) / 2 ^ (113 - E) < 2 ^ 15) as Hq.
      { split.
        - apply Z.div_pos; [change (2 ^ 10) with 1024; lia | done].
        - apply Z.div_lt_upper_bound; [done|].
          change (2 ^ 10) with 1024. change (2 ^ 15) with 32768. nia. }
      apply bitor_fields; [lia | lia | done |].
      change (2 ^ 15) with 32768 in *. change (2 ^ 31) with 2147483648. lia.
  - destruct (Z.leb_spec 31 (E - 112)); destruct (Z.leb_spec 143 E); try lia.
    + rewrite (shl_nonneg 31 10) by (cbn; lia).
      rewrite (bitor_fields s 15 (31 * 2 ^ 10)) by (cbn; lia).
      apply bitor_0_r. change (2 ^ 15) with 32768. change (2 ^ 10) with 1024.
      change (2 ^ 31) with 2147483648. lia.
    + rewrite (shl_nonneg (E - 112) 10)
        by (change (2 ^ 10) with 1024; change (2 ^ 31) with 2147483648; lia).
      rewrite (bitor_fields s 15 ((E - 112) * 2 ^ 10))
        by (change (2 ^ 10) with 1024; change (2 ^ 15) with 32768;
            change (2 ^ 31) with 2147483648; lia).
      replace (s * 2 ^ 15 + (E - 112) * 2 ^ 10) with ((s * 32 + (E - 112)) * 2 ^ 10)
        by (change (2 ^ 15) with (32 * 2 ^ 10); ring).
      rewrite bitor_fields
        by (change (2 ^ 10) with 1024; change (2 ^ 31) with 2147483648; lia).
      done.
Qed.

(** *** The half that the conversion produces *)

Lemma f16_fields s e m :
  0 <= s <= 1 -> 0 <= e < 32 -> 0 <= m < 1024 ->
  let h := s * 2 ^ 15 + e * 2 ^ 10 + m in
  0 <= h < 2 ^ 16 /\ f16_sign h = s /\ f16_exp h = e /\ f16_man h = m
  /\ h mod 2 ^ 15 = e * 2 ^ 10 + m.
Proof.
  intros Hs He Hm h. unfold h, f16_sign, f16_exp, f16_man.
  change (2 ^ 15) with 32768. change (2 ^ 10) with 1024.
  change (2 ^ 16) with 65536.
  repeat split; Z.div_mod_to_equations; lia.
Qed.

Lemma f16_mag_fields s e m :
  0 <= s <= 1 -> 0 <= e < 32 -> 0 <= m < 1024 ->
  f16_mag (s * 2 ^ 15 + e * 2 ^ 10 + m)
  = if e =? 0 then m else (2 ^ 10 + m) * 2 ^ (e - 1).
Proof.
  intros Hs He Hm. unfold f16_mag.
  destruct (f16_fields s e m Hs He Hm) as (_ & _ & -> & -> & _). done.
Qed.

(** The magnitude that follows [e * 2^10 + m] on the grid of halves. *)
Lemma f16_mag_succ e m :
  0 <= e <= 30 -> 0 <= m < 1024 ->
  f16_mag (e * 2 ^ 10 + m + 1)
  = if e =? 0 then m + 1 else (2 ^ 10 + m + 1) * 2 ^ (e - 1).
Proof.
  intros He Hm. destruct (Z.eq_dec m 1023) as [->|Hne].
  - replace (e * 2 ^ 10 + 1023 + 1) with (0 * 2 ^ 15 + (e + 1) * 2 ^ 10 + 0)
      by (change (2 ^ 10) with 1024; lia).
    rewrite f16_mag_fields by lia.
    destruct (Z.eqb_spec (e + 1) 0); [lia|].
    destruct (Z.eqb_spec e 0) as [->|He0]; [reflexivity|].
    replace (e + 1 - 1) with (1 + (e - 1)) by lia.
    rewrite Z.pow_add_r by lia. change (2 ^ 10) with 1024. change (2 ^ 1) with 2.
    lia.
  - replace (e * 2 ^ 10 + m + 1) with (0 * 2 ^ 15 + e * 2 ^ 10 + (m + 1)) by lia.
    rewrite f16_mag_fields by lia.
    destruct (Z.eqb_spec e 0); [done|]. f_equal. lia.
Qed.

Lemma f32_fields x :
  0 <= x < 2 ^ 32 ->
  f32_sign x = x / 2 ^ 31
  /\ 0 <= x / 2 ^ 31 <= 1
  /\ f32_exp x = (x / 2 ^ 23) mod 2 ^ 8
  /\ 0 <= f32_exp x < 256
  /\ 0 <= (x / 2 ^ 13) mod 2 ^ 10 < 1024
  /\ (x / 2 ^ 13) mod 2 ^ 10 * 8192 <= f32_man x
     < ((x / 2 ^ 13) mod 2 ^ 10 + 1) * 8192.
Proof.
  intros Hx. unfold f32_sign, f32_exp, f32_man.
  change (2 ^ 32) with 4294967296 in Hx. change (2 ^ 31) with 2147483648.
  change (2 ^ 23) with 8388608. change (2 ^ 13) with 8192.
  change (2 ^ 10) with 1024. change (2 ^ 8) with 256.
  repeat split; Z.div_mod_to_equations; lia.
Qed.

(** C8, amended.  [float32ToFloat16] keeps the sign and truncates: a
    pattern whose exponent field is at least 143 (magnitude 65536 or more,
    infinities and NaNs) gives the half pattern of infinity; every other
    pattern gives the finite half of largest magnitude that does not exceed
    the magnitude of the input, so magnitudes below the normal half range
    go to a subnormal half or to zero.  Magnitudes are compared in units of
    2^-149. *)
Theorem float32ToFloat16_truncates x :
  0 <= x < 2 ^ 32 ->
  let h := float32ToFloat16 x in
  0 <= h < 2 ^ 16
  /\ f16_sign h = f32_sign x
  /\ (143 <= f32_exp x -> h mod 2 ^ 15 = 31744)
  /\ (f32_exp x < 143 ->
      f16_exp h <> 31
      /\ f16_mag h * 2 ^ 125 <= f32_mag x < f16_mag (h mod 2 ^ 15 + 1) * 2 ^ 125).
Proof.
  intros Hx h. unfold h. rewrite float32ToFloat16_fields by done. cbv zeta.
  destruct (f32_fields x Hx) as (Hsign & Hs & HE & HEr & Hm & HM).
  rewrite Hsign. unfold f32_mag. rewrite HE in *.
  set (s := x / 2 ^ 31) in *. set (E := (x / 2 ^ 23) mod 2 ^ 8) in *.
  set (m := (x / 2 ^ 13) mod 2 ^ 10) in *. set (M := f32_man x) in *.
  destruct (Z.leb_spec E 112) as [Hle|Hgt].
  - destruct (Z.ltb_spec E 102) as [Hzero|Hsub].
    + (* below the smallest subnormal half: signed zero *)
      replace (s * 2 ^ 15) with (s * 2 ^ 15 + 0 * 2 ^ 10 + 0) by lia.
      destruct (f16_fields s 0 0) as (Hh & Hsg & He & _ & Habs); [lia..|].
      split; [done|]. split; [done|]. split; [lia|]. intros _.
      split; [rewrite He; lia|].
      rewrite Habs, f16_mag_fields by lia.
      replace (0 * 2 ^ 10 + 0 + 1) with (0 * 2 ^ 10 + 0 + 1) by lia.
      rewrite f16_mag_succ by lia. simpl (0 =? 0).
      destruct (Z.eqb_spec E 0) as [E0|E0].
      * change (2 ^ 125) with 42535295865117307932921825928971026432. lia.
      * assert (0 < 2 ^ (E - 1) <= 2 ^ 100) as HP.
        { split; [apply Z.pow_pos_nonneg; lia | apply Z.pow_le_mono_r; lia]. }
        set (P := 2 ^ (E - 1)) in *.
        change (2 ^ 100) with 1267650600228229401496703205376 in HP.
        change (2 ^ 125) with 42535295865117307932921825928971026432.
        change (2 ^ 23) with 8388608. nia.
    + (* subnormal half *)
      set (t := 113 - E).
      assert (0 < 2 ^ t) as HT by (apply Z.pow_pos_nonneg; lia).
      assert (2 <= 2 ^ t) as HT2
        by (change 2 with (2 ^ 1) at 1; apply Z.pow_le_mono_r; lia).
      set (q := (2 ^ 10 + m) / 2 ^ t).
      assert (q * 2 ^ t <= 2 ^ 10 + m < (q + 1) * 2 ^ t) as Hq.
      { unfold q. pose proof (Z.div_mod (2 ^ 10 + m) (2 ^ t)) as Hd.
        pose proof (Z.mod_pos_bound (2 ^ 10 + m) (2 ^ t) HT). lia. }
      change (2 ^ 10) with 1024 in Hq.
      assert (0 <= q < 1024) as Hqr by nia.
      replace (s * 2 ^ 15 + q) with (s * 2 ^ 15 + 0 * 2 ^ 10 + q) by lia.
      destruct (f16_fields s 0 q) as (Hh & Hsg & He & _ & Habs); [lia..|].
      split; [done|]. split; [done|]. split; [lia|]. intros _.
      split; [rewrite He; lia|].
      rewrite Habs, f16_mag_fields, f16_mag_succ by lia. simpl (0 =? 0).
      destruct (Z.eqb_spec E 0) as [E0|E0]; [lia|].
      assert (0 < 2 ^ (E - 1)) as HP by (apply Z.pow_pos_nonneg; lia).
      replace 125 with ((E - 1) + 13 + t) by (unfold t; lia).
      rewrite !Z.pow_add_r by lia.
      set (P := 2 ^ (E - 1)) in *. set (T := 2 ^ t) in *.
      change (2 ^ 13) with 8192. change (2 ^ 23) with 8388608. nia.
  - destruct (Z.leb_spec 143 E) as [Hinf|Hnorm].
    + (* overflow, infinity, NaN *)
      replace (s * 2 ^ 15 + 31 * 2 ^ 10) with (s * 2 ^ 15 + 31 * 2 ^ 10 + 0) by lia.
      destruct (f16_fields s 31 0) as (Hh & Hsg & He & _ & Habs); [lia..|].
      split; [done|]. split; [done|]. split; [|lia]. intros _.
      rewrite Habs. reflexivity.
    + (* normal half *)
      destruct (f16_fields s (E - 112) m) as (Hh & Hsg & He & _ & Habs); [lia..|].
      split; [done|]. split; [done|]. split; [lia|]. intros _.
      split; [rewrite He; lia|].
      rewrite Habs, f16_mag_fields, f16_mag_succ by lia.
      destruct (Z.eqb_spec (E - 112) 0); [lia|].
      destruct (Z.eqb_spec E 0) as [E0|E0]; [lia|].
      assert (0 < 2 ^ (E - 1)) as HP by (apply Z.pow_pos_nonneg; lia).
      replace (E - 112 - 1) with ((E - 1) - 112) by lia.
      replace 125 with (112 + 13) by lia.
      rewrite <- !Z.mul_assoc, <- !Z.pow_add_r by lia.
      replace (E - 1 - 112 + (112 + 13)) with ((E - 1) + 13) by lia.
      rewrite Z.pow_add_r by lia.
      set (P := 2 ^ (E - 1)) in *.
      change (2 ^ 13) with 8192. change (2 ^ 23) with 8388608.
      change (2 ^ 10) with 1024. nia.
Qed.

Lemma float32ToFloat16_truncates_witness :
  (0 <= 1065361407 < 2 ^ 32)
  /\ float32ToFloat16 1065361407 = 15360
  /\ f16_mag (float32ToFloat16 1065361407) * 2 ^ 125 <= f32_mag 1065361407
     < f16_mag (float32ToFloat16 1065361407 mod 2 ^ 15 + 1) * 2 ^ 125.
Proof.
  split; [lia|]. split; [reflexivity|].
  apply (float32ToFloat16_truncates 1065361407); [lia | vm_compute; reflexivity].
Defined.

(** ** Basis transcoding *)

Import Read.

Example raw_basis_fails_at_2 :
  exists pt,
    run (Sample.basis_env (Sample.ktx2_module Sample.file_fails_at_2)) Sample.raw_basis_4
    = (Ok pt,
       [New_KTX2File; Call_startTranscoding; Call_getLevels;
        Call_getImageTranscodedSizeInBytes 0 13; Call_transcodeImage 0 13;
        Call_getImageTranscodedSizeInBytes 1 13; Call_transcodeImage 1 13;
        Call_getImageTranscodedSizeInBytes 2 13; Call_transcodeImage 2 13;
        Call_close; Call_delete])
    /\ (isDecompressed <$> levels pt) = [true; true; false; false]
    /\ (decompressedData <$> levels pt)
       = [Some (Sample.pixels 4); Some (Sample.pixels 4); None; None].
Proof. eexists. vm_compute. repeat split; reflexivity. Qed.

Example raw_basis_throws_at_1 :
  run (Sample.basis_env (Sample.ktx2_module Sample.file_throws_at_1)) Sample.raw_basis_4
  = (Err Thrown,
     [New_KTX2File; Call_startTranscoding; Call_getLevels;
      Call_getImageTranscodedSizeInBytes 0 13; Call_transcodeImage 0 13;
      Call_getImageTranscodedSizeInBytes 1 13; Call_transcodeImage 1 13]).
Proof. vm_compute. reflexivity. Qed.

Example basis_lz_legacy_model_166 :
  exists pt,
    run (Sample.basis_env (Sample.legacy_module Sample.one_level_file)) (Sample.basis_lz 166)
    = (Ok pt,
       [New_BasisFile; Call_startTranscoding; Call_getNumImages; Call_getLevels;
        Call_getImageTranscodedSizeInBytes 0 13; Call_transcodeImage 0 13;
        Log_ETC1S 0 13 true; Call_close; Call_delete])
    /\ isUASTC (dfd pt) = true.
Proof. eexists. vm_compute. split; reflexivity. Qed.

(** *** One level *)

Ltac m_unfold :=
  unfold bindM, ret, throw, emit, lift, ext, construct, catch, await,
    closeAndDelete, alloc in *.

(** The attempt on level [i] logs the size query first, then at most the
    call of [transcodeImage]; a payload has the size the transcoder
    announced. *)
Lemma transcodeLevel_events h i tr :
  exists r evs,
    transcodeLevel h i 13 tr = (r, tr ++ evs)
    /\ attempted evs = [i]
    /\ Forall (fun ev => ev = Call_getImageTranscodedSizeInBytes i 13
                         \/ ev = Call_transcodeImage i 13) evs.
Proof.
  assert (forall evs,
            evs = [Call_getImageTranscodedSizeInBytes i 13]
            \/ evs = [Call_getImageTranscodedSizeInBytes i 13; Call_transcodeImage i 13] ->
            attempted evs = [i]
            /\ Forall (fun ev => ev = Call_getImageTranscodedSizeInBytes i 13
                                 \/ ev = Call_transcodeImage i 13) evs) as Hshape.
  { intros evs [-> | ->]; (split; [reflexivity|]).
    - constructor; [by left|constructor].
    - constructor; [by left|]. constructor; [by right|constructor]. }
  unfold transcodeLevel. m_unfold.
  destruct (getImageTranscodedSizeInBytes (file h) i 13) as [size|].
  - destruct (size =? 0).
    + eexists _, [_]. split; [reflexivity|]. apply Hshape. by left.
    + destruct (decide (0 <= size)).
      * destruct (transcodeImage (file h) i 13) as [[st bytes]|].
        -- eexists _, [_; _]. rewrite <- app_assoc. split; [reflexivity|].
           apply Hshape. by right.
        -- eexists _, [_; _]. rewrite <- app_assoc. split; [reflexivity|].
           apply Hshape. by right.
      * eexists _, [_]. split; [reflexivity|]. apply Hshape. by left.
  - eexists _, [_]. split; [reflexivity|]. apply Hshape. by left.
Qed.

Lemma attempted_app tr1 tr2 : attempted (tr1 ++ tr2) = attempted tr1 ++ attempted tr2.
Proof. unfold attempted. apply flat_map_app. Qed.

(** The guarded attempt of the BasisLZ loop never throws, and its target
    format is 13 on both branches. *)
Lemma lz_step h i tr :
  exists r evs,
    catch (transcodeLevelLZ h getBasisTargetFormatForGPU i) (fun _ => ret None) tr
    = (Ok r, tr ++ evs)
    /\ attempted evs = [i]
    /\ Forall (loop_event (isKTX2File h)) evs
    /\ forall st dst fmt, r = Some (st, dst, fmt) -> fmt = 13%Z.
Proof.
  unfold catch, transcodeLevelLZ, getBasisTargetFormatForGPU.
  destruct (transcodeLevel_events h i tr) as (r & evs & Hrun & Hatt & Hevs).
  assert (Forall (loop_event (isKTX2File h)) evs) as Hloop.
  { eapply Forall_impl; [exact Hevs|]. by intros ev [-> | ->]. }
  destruct (isKTX2File h) eqn:Hk; unfold bindM; rewrite Hrun.
  - destruct r as [[[st dst]|]|e].
    + unfold emit, ret. eexists _, (evs ++ [_]). rewrite app_assoc.
      split; [reflexivity|]. split; [by rewrite attempted_app, Hatt|].
      split; [apply Forall_app; split; [done|]; constructor; [done|constructor]|].
      intros ??? [= _ _ <-]. done.
    + unfold ret. eexists _, evs. repeat split; try done.
    + unfold ret. eexists _, evs. repeat split; try done.
  - destruct r as [[[st dst]|]|e].
    + unfold emit, ret. eexists _, (evs ++ [_]). rewrite app_assoc.
      split; [reflexivity|]. split; [by rewrite attempted_app, Hatt|].
      split; [apply Forall_app; split; [done|]; constructor; [done|constructor]|].
      intros ??? [= _ _ <-]. done.
    + unfold ret. eexists _, evs. repeat split; try done.
    + unfold ret. eexists _, evs. repeat split; try done.
Qed.

(** *** The level loops *)

Lemma prefix_decoded_0 i ls : prefix_decoded i 0 ls ls.
Proof.
  split; [done|]. split; [done|]. intros j Hj. lia.
Qed.

Lemma prefix_decoded_step i k ls ls' dst :
  (0 < length dst)%nat ->
  prefix_decoded (S i) k (alter (storeTranscoded dst 13) i ls) ls' ->
  prefix_decoded i (S k) ls ls'.
Proof.
  intros Hdst (Hlen & Hout & Hin).
  split; [by rewrite Hlen, length_alter|]. split.
  - intros j Hj. rewrite Hout by lia. apply list_lookup_alter_ne. lia.
  - intros j Hj. destruct (decide (j = i)) as [->|Hne].
    + exists dst. split; [done|]. rewrite Hout by lia. apply list_lookup_alter_eq.
    + destruct (Hin j) as (dst' & Hdst' & Hj'); [lia|].
      exists dst'. split; [done|]. rewrite Hj'.
      by rewrite list_lookup_alter_ne by lia.
Qed.

(** The BasisLZ loop always returns: it decodes a prefix of the levels it
    was given, in ascending order, and stops at the first level without a
    payload, whether the transcoder reported a failure or threw. *)
Lemma lzLoop_spec h n i ls tr :
  exists ls' evs k a,
    lzLoop h getBasisTargetFormatForGPU n i ls tr = (Ok ls', tr ++ evs)
    /\ (k <= n)%nat
    /\ prefix_decoded i k ls ls'
    /\ Forall (loop_event (isKTX2File h)) evs
    /\ attempted evs = seq i a /\ (k <= a <= k + 1)%nat.
Proof.
  revert i ls tr. induction n as [|n IH]; intros i ls tr.
  - exists ls, [], 0%nat, 0%nat. cbn [lzLoop]. unfold ret. rewrite app_nil_r.
    split; [done|]. split; [done|]. split; [apply prefix_decoded_0|].
    split; [constructor|]. split; [done|lia].
  - cbn [lzLoop]. unfold bindM at 1.
    destruct (lz_step h i tr) as (r & evs0 & Hstep & Hatt & Hevs & Hfmt).
    rewrite Hstep.
    assert (exists k a, (ret ls : M (list Level)) (tr ++ evs0) = (Ok ls, tr ++ evs0)
              /\ (k <= S n)%nat /\ prefix_decoded i k ls ls
              /\ attempted evs0 = seq i a /\ (k <= a <= k + 1)%nat) as Hstop.
    { exists 0%nat, 1%nat. split; [done|]. split; [lia|].
      split; [apply prefix_decoded_0|]. split; [done|lia]. }
    destruct r as [[[st dst] fmt]|].
    + rewrite (Hfmt st dst fmt eq_refl).
      destruct (st && bool_decide (0 < length dst)%nat) eqn:Hgo.
      * apply andb_prop in Hgo. destruct Hgo as [_ Hdst].
        apply bool_decide_eq_true in Hdst.
        destruct (IH (S i) (alter (storeTranscoded dst 13) i ls) (tr ++ evs0))
          as (ls' & evs1 & k & a & Hrun & Hk & Hshape & Hevs1 & Hatt1 & Ha).
        exists ls', (evs0 ++ evs1), (S k), (S a).
        rewrite Hrun, app_assoc. split; [done|]. split; [lia|].
        split; [by eapply prefix_decoded_step|].
        split; [by apply Forall_app|].
        split; [rewrite attempted_app, Hatt, Hatt1; done|lia].
      * destruct Hstop as (k & a & Hrun & Hk & Hshape & Hatt' & Ha).
        exists ls, evs0, k, a. auto 10.
    + destruct Hstop as (k & a & Hrun & Hk & Hshape & Hatt' & Ha).
      exists ls, evs0, k, a. auto 10.
Qed.

(** The raw Basis loop: the same on every level that returns, but an
    exception of the transcoder leaves the loop. *)
Lemma rawLoop_spec h n i ls tr :
  exists r evs a,
    rawLoop h n i ls tr = (r, tr ++ evs)
    /\ Forall (loop_event (isKTX2File h)) evs
    /\ attempted evs = seq i a
    /\ forall ls', r = Ok ls' ->
         exists k, (k <= n)%nat /\ prefix_decoded i k ls ls' /\ (k <= a <= k + 1)%nat.
Proof.
  revert i ls tr. induction n as [|n IH]; intros i ls tr.
  - exists (Ok ls), [], 0%nat. cbn [rawLoop]. unfold ret. rewrite app_nil_r.
    split; [done|]. split; [constructor|]. split; [done|].
    intros ls' [= <-]. exists 0%nat. split; [lia|]. split; [apply prefix_decoded_0|lia].
  - cbn [rawLoop]. unfold bindM at 1.
    destruct (transcodeLevel_events h i tr) as (r & evs0 & Hstep & Hatt & Hevs).
    rewrite Hstep.
    assert (Forall (loop_event (isKTX2File h)) evs0) as Hloop.
    { eapply Forall_impl; [exact Hevs|]. by intros ev [-> | ->]. }
    assert (forall ls', Ok ls = Ok ls' ->
              exists k, (k <= S n)%nat /\ prefix_decoded i k ls ls'
                        /\ (k <= 1 <= k + 1)%nat) as Hstop.
    { intros ls' [= <-]. exists 0%nat. split; [lia|].
      split; [apply prefix_decoded_0|lia]. }
    destruct r as [[[st dst]|]|e].
    + destruct (st && bool_decide (0 < length dst)%nat) eqn:Hgo.
      * apply andb_prop in Hgo. destruct Hgo as [_ Hdst].
        apply bool_decide_eq_true in Hdst.
        destruct (IH (S i) (alter (storeTranscoded dst 13) i ls) (tr ++ evs0))
          as (r & evs1 & a & Hrun & Hevs1 & Hatt1 & Hok).
        exists r, (evs0 ++ evs1), (S a).
        rewrite Hrun, app_assoc. split; [done|].
        split; [by apply Forall_app|].
        split; [rewrite attempted_app, Hatt, Hatt1; done|].
        intros ls' Hr. destruct (Hok ls' Hr) as (k & Hk & Hshape & Ha).
        exists (S k). split; [lia|]. split; [by eapply prefix_decoded_step|lia].
      * exists (Ok ls), evs0, 1%nat. unfold ret. auto 10.
    + exists (Ok ls), evs0, 1%nat. unfold ret. auto 10.
    + exists (Err e), evs0, 1%nat. split; [done|]. split; [done|].
      split; [done|]. intros ls' Hr. discriminate Hr.
Qed.

(** *** The handle along a trace *)

Lemma handle_after_app tr evs :
  handle_after (tr ++ evs) = fold_left handle_step evs (handle_after tr).
Proof. unfold handle_after. apply fold_left_app. Qed.

Lemma handle_neutral evs st :
  Forall (fun ev => forall st, handle_step st ev = st) evs ->
  fold_left handle_step evs st = st.
Proof.
  intros H. revert st. induction H as [|ev evs Hev _ IH]; intros st; [done|].
  simpl. rewrite Hev. apply IH.
Qed.

Lemma loop_event_neutral k ev st : loop_event k ev -> handle_step st ev = st.
Proof. by destruct ev. Qed.

Lemma loop_events_neutral k evs st :
  Forall (loop_event k) evs -> fold_left handle_step evs st = st.
Proof.
  intros H. apply handle_neutral. eapply Forall_impl; [exact H|].
  intros ev Hev st'. by eapply loop_event_neutral.
Qed.

(** *** The two Basis branches, case by case *)

(** Either nothing is opened and the branch fails on the spot, or the
    branch is the session of the handle that the module opens. *)
Lemma resolveRawBasis_open env arrayBuffer ls :
  (exists e, resolveRawBasis env arrayBuffer ls [] = (Err e, []))
  \/ exists m k f,
       loadBasisModule env = Returns m /\ opens_raw m arrayBuffer k f
       /\ resolveRawBasis env arrayBuffer ls []
          = rawSession {| isKTX2File := k; file := f |} ls [New k].
Proof.
  unfold resolveRawBasis, opens_raw.
  destruct (loadBasisModule env) as [m|] eqn:Hload; [|left; by eexists].
  unfold bindM at 1. unfold await, ret at 1.
  destruct (KTX2File m) as [ctor|] eqn:Hctor.
  - unfold bindM, construct, ret.
    destruct (ctor arrayBuffer) as [f|] eqn:Hnew; [|left; by eexists].
    right. exists m, true, f. rewrite Hctor, ?Hnew. done.
  - unfold bindM, construct, ret.
    destruct (BasisFile m arrayBuffer) as [f|] eqn:Hnew; [|left; by eexists].
    right. exists m, false, f. rewrite Hctor, ?Hnew. done.
Qed.

Lemma resolveBasisLZ_open env arrayBuffer d ls :
  (exists e, resolveBasisLZ env arrayBuffer d ls [] = (Err e, []))
  \/ exists m k f,
       loadBasisModule env = Returns m /\ opens_lz m arrayBuffer k f
       /\ resolveBasisLZ env arrayBuffer d ls []
          = lzSession {| isKTX2File := k; file := f |} ls [New k].
Proof.
  unfold resolveBasisLZ, opens_lz. cbv zeta.
  destruct (loadBasisModule env) as [m|] eqn:Hload; [|left; by eexists].
  unfold bindM at 1. unfold await, ret at 1.
  destruct (KTX2File m) as [ctor|] eqn:Hctor.
  - unfold bindM, catch, construct, ret.
    destruct (ctor arrayBuffer) as [f|] eqn:Hnew.
    + right. exists m, true, f. rewrite Hctor, ?Hnew. done.
    + destruct (BasisFile m arrayBuffer) as [f|] eqn:Hnew2; [|left; by eexists].
      right. exists m, false, f. rewrite Hctor, ?Hnew, ?Hnew2. done.
  - unfold bindM, construct, ret.
    destruct (BasisFile m arrayBuffer) as [f|] eqn:Hnew; [|left; by eexists].
    right. exists m, false, f. rewrite Hctor, ?Hnew. done.
Qed.

Ltac norm_trace H :=
  repeat first [rewrite <- app_assoc in H | progress simpl in H].

Ltac norm_goal :=
  repeat first [rewrite <- app_assoc | progress simpl].

(** Every run of a raw Basis session: it ends in [startTranscoding], in
    the level count query, inside the level loop, or after it. *)
Lemma rawSession_cases h ls tr :
  (startTranscoding (file h) = Throws
   /\ rawSession h ls tr = (Err Thrown, tr ++ [Call_startTranscoding]))
  \/ (startTranscoding (file h) = Returns false
      /\ rawSession h ls tr
         = (Err (Error "Transcoder failed to initialize"),
            tr ++ [Call_startTranscoding; Call_close; Call_delete]))
  \/ (startTranscoding (file h) = Returns true /\ getLevels (file h) = Throws
      /\ rawSession h ls tr
         = (Err Thrown, tr ++ [Call_startTranscoding; Call_getLevels]))
  \/ (startTranscoding (file h) = Returns true
      /\ exists evs a,
           Forall (loop_event (isKTX2File h)) evs /\ attempted evs = seq 0 a
           /\ ((exists e,
                  rawSession h ls tr
                  = (Err e, tr ++ [Call_startTranscoding; Call_getLevels] ++ evs))
               \/ (exists ls' n,
                     rawSession h ls tr
                     = (Ok ls',
                        tr ++ [Call_startTranscoding; Call_getLevels]
                        ++ evs ++ [Call_close; Call_delete])
                     /\ (n <= length ls)%nat
                     /\ prefix_decoded 0 n ls ls'
                     /\ (n <= a <= n + 1)%nat))).
Proof.
  remember (rawSession h ls tr) as out eqn:Hout.
  unfold rawSession in Hout. unfold bindM at 1 in Hout. unfold ext at 1 in Hout.
  destruct (startTranscoding (file h)) as [[|]|] eqn:Hstart; cbn [negb] in Hout.
  - unfold bindM at 1 in Hout. unfold ext at 1 in Hout.
    destruct (getLevels (file h)) as [tlc|] eqn:Hlevels.
    + right. right. right. split; [done|].
      set (n0 := Z.to_nat (Z.min (Z.of_nat (length ls)) tlc)) in Hout.
      destruct (rawLoop_spec h n0 0 ls
                  ((tr ++ [Call_startTranscoding]) ++ [Call_getLevels]))
        as (r & evs & a & Hrun & Hevs & Hatt & Hok).
      unfold bindM at 1 in Hout. rewrite Hrun in Hout. exists evs, a.
      split; [done|]. split; [done|].
      destruct r as [ls'|e].
      * right. destruct (Hok ls' eq_refl) as (n & Hn & Hshape & Ha).
        exists ls', n. m_unfold. norm_trace Hout. split; [exact Hout|].
        split; [unfold n0 in Hn; lia|]. done.
      * left. exists e. norm_trace Hout. exact Hout.
    + right. right. left. split; [done|]. split; [done|].
      norm_trace Hout. exact Hout.
  - right. left. split; [done|]. m_unfold. norm_trace Hout. exact Hout.
  - left. done.
Qed.

(** Every run of a BasisLZ session.  Once [startTranscoding] and
    [getNumImages] have returned, the session goes through the level
    loop, which always returns, and ends with [close] and [delete]. *)
Lemma lzSession_cases h ls tr :
  (startTranscoding (file h) = Throws
   /\ lzSession h ls tr = (Err Thrown, tr ++ [Call_startTranscoding]))
  \/ (startTranscoding (file h) = Returns false
      /\ lzSession h ls tr
         = (Err (Error "Transcoder failed to initialize. (Your basis_transcoder.wasm might lack KTX2 support)"),
            tr ++ [Call_startTranscoding; Call_close; Call_delete]))
  \/ (startTranscoding (file h) = Returns true /\ isKTX2File h = false
      /\ getNumImages (file h) = Some Throws
      /\ lzSession h ls tr
         = (Err Thrown, tr ++ [Call_startTranscoding; Call_getNumImages]))
  \/ (startTranscoding (file h) = Returns true
      /\ exists ni,
           (ni = [] \/ ni = [Call_getNumImages])
           /\ (lzSession h ls tr
               = (Err (Error "File has no images"),
                  tr ++ [Call_startTranscoding] ++ ni ++ [Call_close; Call_delete])
               \/ exists evs a ls' n,
                    Forall (loop_event (isKTX2File h)) evs
                    /\ attempted evs = seq 0 a
                    /\ lzSession h ls tr
                       = (Ok ls',
                          tr ++ [Call_startTranscoding] ++ ni
                          ++ [Call_getLevels] ++ evs ++ [Call_close; Call_delete])
                    /\ (n <= length ls)%nat
                    /\ prefix_decoded 0 n ls ls'
                    /\ (n <= a <= n + 1)%nat)).
Proof.
  remember (lzSession h ls tr) as out eqn:Hout.
  unfold lzSession in Hout. unfold bindM at 1 in Hout. unfold ext at 1 in Hout.
  destruct (startTranscoding (file h)) as [[|]|] eqn:Hstart; cbn [negb] in Hout.
  2: { right. left. split; [done|]. m_unfold. norm_trace Hout. exact Hout. }
  2: { left. done. }
  match type of Hout with
  | context [bindM _ ?k] => set (tail := k) in Hout
  end.
  assert (forall ni imageCount,
            tail imageCount ((tr ++ [Call_startTranscoding]) ++ ni)
            = (Err (Error "File has no images"),
               tr ++ [Call_startTranscoding] ++ ni ++ [Call_close; Call_delete])
            \/ exists evs a ls' n,
                 Forall (loop_event (isKTX2File h)) evs
                 /\ attempted evs = seq 0 a
                 /\ tail imageCount ((tr ++ [Call_startTranscoding]) ++ ni)
                    = (Ok ls',
                       tr ++ [Call_startTranscoding] ++ ni
                       ++ [Call_getLevels] ++ evs ++ [Call_close; Call_delete])
                 /\ (n <= length ls)%nat
                 /\ prefix_decoded 0 n ls ls'
                 /\ (n <= a <= n + 1)%nat) as Htail.
  { intros ni imageCount. unfold tail.
    destruct (imageCount =? 0).
    - left. m_unfold. norm_goal. reflexivity.
    - right.
      assert (exists tlc,
                catch (ext Call_getLevels (getLevels (file h))) (fun _ => ret 1)
                  ((tr ++ [Call_startTranscoding]) ++ ni)
                = (Ok tlc, tr ++ [Call_startTranscoding] ++ ni ++ [Call_getLevels]))
        as (tlc & Hq).
      { unfold catch, ext, ret.
        destruct (getLevels (file h)); eexists; norm_goal; reflexivity. }
      unfold bindM at 1. rewrite Hq.
      set (n0 := Z.to_nat (Z.min (Z.of_nat (length ls)) tlc)).
      destruct (lzLoop_spec h n0 0 ls
                  (tr ++ [Call_startTranscoding] ++ ni ++ [Call_getLevels]))
        as (ls' & evs & n & a & Hrun & Hn & Hshape & Hevs & Hatt & Ha).
      unfold bindM at 1. rewrite Hrun. m_unfold.
      exists evs, a, ls', n. split; [done|]. split; [done|].
      split; [norm_goal; reflexivity|].
      split; [unfold n0 in Hn; lia|]. done. }
  clearbody tail.
  destruct (isKTX2File h) eqn:Hk.
  - unfold bindM at 1 in Hout. unfold ret at 1 in Hout.
    right. right. right. split; [done|]. exists []. split; [by left|].
    specialize (Htail [] 1). rewrite app_nil_r in Htail. rewrite Hout. exact Htail.
  - destruct (getNumImages (file h)) as [[imageCount|]|] eqn:Hni.
    + unfold bindM at 1 in Hout. unfold ext at 1 in Hout.
      right. right. right. split; [done|]. exists [Call_getNumImages].
      split; [by right|]. rewrite Hout. apply Htail.
    + right. right. left. split; [done|]. split; [done|]. split; [done|].
      unfold bindM, ext in Hout. norm_trace Hout. exact Hout.
    + unfold bindM at 1 in Hout. unfold ret at 1 in Hout.
      right. right. right. split; [done|]. exists []. split; [by left|].
      specialize (Htail [] 1). rewrite app_nil_r in Htail. rewrite Hout. exact Htail.
Qed.

(** *** What a session logs *)

Lemma session_events_app k evs1 evs2 :
  Forall (session_event k) evs1 -> Forall (session_event k) evs2 ->
  Forall (session_event k) (evs1 ++ evs2).
Proof. intros. by apply Forall_app. Qed.

Lemma loop_events_session k evs :
  Forall (loop_event k) evs -> Forall (session_event k) evs.
Proof. intros H. eapply Forall_impl; [exact H|]. intros ev Hev. by left. Qed.

Lemma admin_events_session k evs :
  Forall (fun ev => ev = Call_startTranscoding \/ ev = Call_getNumImages
                    \/ ev = Call_getLevels \/ ev = Call_close
                    \/ ev = Call_delete) evs ->
  Forall (session_event k) evs.
Proof. intros H. eapply Forall_impl; [exact H|]. intros ev Hev. by right. Qed.

Ltac session_events :=
  repeat first
    [ assumption
    | exact I
    | apply Forall_nil
    | (constructor; [right; auto 10|])
    | (apply Forall_app; split)
    | (apply loop_events_session; assumption) ].

Lemma lzSession_events h ls tr r tr' :
  lzSession h ls tr = (r, tr') ->
  exists evs, tr' = tr ++ evs /\ Forall (session_event (isKTX2File h)) evs.
Proof.
  intros Hrun.
  destruct (lzSession_cases h ls tr)
    as [(_ & H) | [(_ & H) | [(_ & _ & _ & H) | (_ & ni & Hni & H)]]].
  - rewrite H in Hrun. injection Hrun as <- <-. eexists. split; [done|].
    session_events.
  - rewrite H in Hrun. injection Hrun as <- <-. eexists. split; [done|].
    session_events.
  - rewrite H in Hrun. injection Hrun as <- <-. eexists. split; [done|].
    session_events.
  - assert (Forall (session_event (isKTX2File h)) ni) as Hnis
      by (destruct Hni as [-> | ->]; session_events).
    destruct H as [H | (evs & a & ls' & n & Hevs & _ & H & _)].
    + rewrite H in Hrun. injection Hrun as <- <-. eexists. split; [done|].
      session_events.
    + rewrite H in Hrun. injection Hrun as <- <-. eexists. split; [done|].
      session_events.
Qed.

(** *** Release of the handle *)

Ltac handle_run Hopen :=
  rewrite handle_after_app, Hopen;
  repeat first
    [ rewrite fold_left_app
    | progress cbn [fold_left handle_step]
    | match goal with
      | Hn : forall st, fold_left handle_step ?ni st = st |- _ => rewrite Hn
      | He : Forall (loop_event _) ?evs |- _ =>
          rewrite (loop_events_neutral _ _ _ He)
      end ];
  try reflexivity.

(** A BasisLZ session whose [startTranscoding] and [getNumImages] return
    releases its handle on every path: a failed start, a file without
    images, a truncated mip chain or a full one. *)
Lemma lzSession_released h ls tr r tr' :
  handle_after tr = Open ->
  startTranscoding (file h) <> Throws ->
  getNumImages (file h) <> Some Throws ->
  lzSession h ls tr = (r, tr') ->
  released tr' = true.
Proof.
  intros Hopen Hstart Himages Hrun. unfold released.
  destruct (lzSession_cases h ls tr)
    as [(H & _) | [(_ & H) | [(_ & _ & H & _) | (_ & ni & Hni & H)]]];
    [done | | done |].
  - rewrite H in Hrun. injection Hrun as <- <-. handle_run Hopen.
  - assert (forall st, fold_left handle_step ni st = st) as Hnis
      by (intros st; destruct Hni as [-> | ->]; reflexivity).
    destruct H as [H | (evs & a & ls' & n & Hevs & _ & H & _)].
    + rewrite H in Hrun. injection Hrun as <- <-. handle_run Hopen.
    + rewrite H in Hrun. injection Hrun as <- <-. handle_run Hopen.
Qed.

(** A raw Basis session that returns has released its handle. *)
Lemma rawSession_released h ls tr ls' tr' :
  handle_after tr = Open ->
  rawSession h ls tr = (Ok ls', tr') ->
  released tr' = true.
Proof.
  intros Hopen Hrun. unfold released.
  destruct (rawSession_cases h ls tr)
    as [(_ & H) | [(_ & H) | [(_ & _ & H) | (_ & evs & a & Hevs & _ & H)]]];
    try (rewrite H in Hrun; discriminate Hrun).
  destruct H as [(e & H) | (ls2 & n & H & _)];
    [rewrite H in Hrun; discriminate Hrun|].
  rewrite H in Hrun. injection Hrun as <- <-. handle_run Hopen.
Qed.

(** A raw Basis session that ends in an exception of the transcoder, or
    in the bounds error of an allocation, leaves its handle open: only the
    failed start closes and deletes it. *)
Lemma rawSession_leaks h ls tr e tr' :
  handle_after tr = Open ->
  rawSession h ls tr = (Err e, tr') ->
  e <> Error "Transcoder failed to initialize" ->
  released tr' = false.
Proof.
  intros Hopen Hrun Hne. unfold released.
  destruct (rawSession_cases h ls tr)
    as [(_ & H) | [(_ & H) | [(_ & _ & H) | (_ & evs & a & Hevs & _ & H)]]].
  - rewrite H in Hrun. injection Hrun as <- <-. handle_run Hopen.
  - rewrite H in Hrun. injection Hrun as <- <-. done.
  - rewrite H in Hrun. injection Hrun as <- <-. handle_run Hopen.
  - destruct H as [(e' & H) | (ls2 & n & H & _)];
      [|rewrite H in Hrun; discriminate Hrun].
    rewrite H in Hrun. injection Hrun as <- <-. handle_run Hopen.
Qed.

(** *** From the branches to [parseKTX2] *)

Lemma run_of_container env arrayBuffer c :
  parseContainer env arrayBuffer = Ok c ->
  run env arrayBuffer
  = (match (resolveSupercompression env arrayBuffer c []).1 with
     | Ok ls => Ok {| header := header c; index := index c; levels := ls;
                      dfd := dfd c; kvd := kvd c |}
     | Err e => Err e
     end,
     (resolveSupercompression env arrayBuffer c []).2).
Proof.
  intros Hc. unfold run, parseKTX2, bindM, lift, ret. rewrite Hc.
  by destruct (resolveSupercompression env arrayBuffer c []) as [[ls|e] tr].
Qed.

Lemma resolve_raw env arrayBuffer c :
  vkFormat (header c) = 0 ->
  supercompressionScheme (header c) = SUPERCOMPRESSION_NONE ->
  resolveSupercompression env arrayBuffer c
  = resolveRawBasis env arrayBuffer (levels c).
Proof. intros Hf Hs. unfold resolveSupercompression. by rewrite Hf, Hs. Qed.

Lemma resolve_lz env arrayBuffer c :
  supercompressionScheme (header c) = SUPERCOMPRESSION_BASIS_LZ ->
  resolveSupercompression env arrayBuffer c
  = resolveBasisLZ env arrayBuffer (dfd c) (levels c).
Proof.
  intros Hs. unfold resolveSupercompression. rewrite Hs. simpl.
  by rewrite andb_false_r.
Qed.

Lemma parseContainer_untouched env arrayBuffer c i lvl :
  parseContainer env arrayBuffer = Ok c ->
  levels c !! i = Some lvl -> untouched lvl.
Proof.
  intros Hc Hi. apply parseContainer_levels in Hc. destruct Hc as (off & Hloop).
  apply readLevel_loop in Hloop. destruct Hloop as (_ & _ & Hnew).
  destruct (Hnew i lvl Hi) as (_ & _ & H1 & H2 & H3). by repeat split.
Qed.

Lemma rawSession_levels h ls tr ls' tr' :
  rawSession h ls tr = (Ok ls', tr') ->
  exists n a evs,
    tr' = tr ++ evs /\ attempted evs = seq 0 a
    /\ (n <= length ls)%nat /\ prefix_decoded 0 n ls ls' /\ (n <= a <= n + 1)%nat.
Proof.
  intros Hrun.
  destruct (rawSession_cases h ls tr)
    as [(_ & H) | [(_ & H) | [(_ & _ & H) | (_ & evs & a & Hevs & Hatt & H)]]];
    try (rewrite H in Hrun; discriminate Hrun).
  destruct H as [(e & H) | (ls2 & n & H & Hn & Hshape & Ha)];
    [rewrite H in Hrun; discriminate Hrun|].
  rewrite H in Hrun. injection Hrun as <- <-.
  exists n, a. eexists. split; [reflexivity|].
  split; [|done].
  change (attempted ([Call_startTranscoding; Call_getLevels] ++ evs
                     ++ [Call_close; Call_delete]) = seq 0 a).
  rewrite !attempted_app, Hatt. simpl. by rewrite app_nil_r.
Qed.

Lemma lzSession_levels h ls tr ls' tr' :
  lzSession h ls tr = (Ok ls', tr') ->
  exists n a evs,
    tr' = tr ++ evs /\ attempted evs = seq 0 a
    /\ (n <= length ls)%nat /\ prefix_decoded 0 n ls ls' /\ (n <= a <= n + 1)%nat.
Proof.
  intros Hrun.
  destruct (lzSession_cases h ls tr)
    as [(_ & H) | [(_ & H) | [(_ & _ & _ & H) | (_ & ni & Hni & H)]]];
    try (rewrite H in Hrun; discriminate Hrun).
  destruct H as [H | (evs & a & ls2 & n & Hevs & Hatt & H & Hn & Hshape & Ha)];
    [rewrite H in Hrun; discriminate Hrun|].
  rewrite H in Hrun. injection Hrun as <- <-.
  exists n, a. eexists. split; [reflexivity|].
  split; [|done].
  change (attempted ([Call_startTranscoding] ++ ni ++ [Call_getLevels] ++ evs
                     ++ [Call_close; Call_delete]) = seq 0 a).
  rewrite !attempted_app, Hatt.
  destruct Hni as [-> | ->]; simpl; by rewrite app_nil_r.
Qed.

(** X15. Whenever a Basis path returns a texture, the levels were tried in
    ascending order from 0, the levels before the first one without a
    payload are decoded, and that level and all later ones are as the
    container parser left them. *)
Lemma basis_levels_truncated env arrayBuffer c pt tr :
  parseContainer env arrayBuffer = Ok c -> basis_path c ->
  run env arrayBuffer = (Ok pt, tr) ->
  exists n a,
    (n <= length (levels pt))%nat
    /\ attempted tr = seq 0 a /\ (n <= a <= n + 1)%nat
    /\ geometry <$> levels pt = geometry <$> levels c
    /\ forall i lvl, levels pt !! i = Some lvl ->
         if decide (i < n)%nat then decoded lvl else untouched lvl.
Proof.
  intros Hc Hpath Hrun.
  rewrite (run_of_container _ _ _ Hc) in Hrun.
  destruct (resolveSupercompression env arrayBuffer c []) as [[ls'|e] tr0] eqn:Hres;
    simpl in Hrun; [|discriminate Hrun].
  injection Hrun as <- <-. simpl.
  pose proof (resolveSupercompression_geometry _ _ _ _ _ _ Hres) as Hgeo.
  assert (exists n a,
            attempted tr0 = seq 0 a /\ (n <= length (levels c))%nat
            /\ prefix_decoded 0 n (levels c) ls' /\ (n <= a <= n + 1)%nat)
    as (n & a & Hatt & Hn & (Hlen & Hout & Hin) & Ha).
  { destruct Hpath as [[Hf Hs] | Hs].
    - rewrite (resolve_raw _ _ _ Hf Hs) in Hres.
      destruct (resolveRawBasis_open env arrayBuffer (levels c))
        as [(e & H) | (m & k & f & _ & _ & H)];
        [rewrite H in Hres; discriminate Hres|].
      rewrite H in Hres. apply rawSession_levels in Hres.
      destruct Hres as (n & a & evs & -> & Hatt & Hrest).
      exists n, a. split; [|done].
      rewrite attempted_app, Hatt. by destruct k.
    - rewrite (resolve_lz _ _ _ Hs) in Hres.
      destruct (resolveBasisLZ_open env arrayBuffer (dfd c) (levels c))
        as [(e & H) | (m & k & f & _ & _ & H)];
        [rewrite H in Hres; discriminate Hres|].
      rewrite H in Hres. apply lzSession_levels in Hres.
      destruct Hres as (n & a & evs & -> & Hatt & Hrest).
      exists n, a. split; [|done].
      rewrite attempted_app, Hatt. by destruct k. }
  exists n, a. split; [lia|]. split; [done|]. split; [done|]. split; [done|].
  intros i lvl Hi. destruct (decide (i < n)%nat) as [Hlt|Hge].
  - destruct (Hin i) as (dst & Hdst & Hi'); [lia|].
    rewrite Hi in Hi'. destruct (levels c !! i) as [lvl0|]; [|discriminate Hi'].
    injection Hi' as ->. split; [done|]. split; [|done]. by exists dst.
  - rewrite Hout in Hi by lia. by eapply parseContainer_untouched.
Qed.

(** ** Decode branch of the BasisLZ scheme *)

Lemma session_trace k evs :
  Forall (session_event k) evs ->
  let tr := New k :: evs in
  (forall i st, Log_UASTC i st ∈ tr -> New_KTX2File ∈ tr /\ New_BasisFile ∉ tr)
  /\ (forall i f st, Log_ETC1S i f st ∈ tr ->
        New_BasisFile ∈ tr /\ (New_KTX2File ∉ tr) /\ f = 13%Z)
  /\ (forall i f, Call_getImageTranscodedSizeInBytes i f ∈ tr -> f = 13%Z)
  /\ (forall i f, Call_transcodeImage i f ∈ tr -> f = 13%Z).
Proof.
  intros Hevs tr. rewrite Forall_forall in Hevs.
  assert (forall ev, ev ∈ tr -> ev = New k \/ session_event k ev) as Hin.
  { intros ev Hev. apply elem_of_cons in Hev. destruct Hev as [->|Hev]; auto. }
  assert (forall ev, session_event k ev -> ev <> New_KTX2File /\ ev <> New_BasisFile)
    as Hnew.
  { intros ev [Hev | Hev]; [by destruct ev|].
    destruct Hev as [-> | [-> | [-> | [-> | ->]]]]; done. }
  assert (forall k', New k' ∈ tr -> k' = k) as Hk.
  { intros k' Hev. destruct (Hin _ Hev) as [H | H].
    - by destruct k, k'.
    - destruct (Hnew _ H). by destruct k'. }
  split; [|split; [|split]].
  - intros i st Hev. destruct (Hin _ Hev) as [H | [H | H]].
    + by destruct k.
    + simpl in H. subst k. split; [apply list_elem_of_here|].
      intros Hb. by specialize (Hk false Hb).
    + destruct H as [H | [H | [H | [H | H]]]]; discriminate H.
  - intros i f st Hev. destruct (Hin _ Hev) as [H | [H | H]].
    + by destruct k.
    + simpl in H. destruct H as [-> ->]. split; [apply list_elem_of_here|].
      split; [|done]. intros Hb. by specialize (Hk true Hb).
    + destruct H as [H | [H | [H | [H | H]]]]; discriminate H.
  - intros i f Hev. destruct (Hin _ Hev) as [H | [H | H]].
    + by destruct k.
    + exact H.
    + destruct H as [H | [H | [H | [H | H]]]]; discriminate H.
  - intros i f Hev. destruct (Hin _ Hev) as [H | [H | H]].
    + by destruct k.
    + exact H.
    + destruct H as [H | [H | [H | [H | H]]]]; discriminate H.
Qed.

(** C5, as stated, fails.  With a DFD of colour model 166 and a transcoder
    module that has no [KTX2File] class, the level goes through the ETC1S
    branch; with colour model 160 and a module that has the class, it goes
    through the UASTC branch. *)
Lemma basisLZ_model_does_not_select_branch :
  isUASTC (dfd Sample.basis_lz_166_container) = true
  /\ parseContainer Sample.legacy_env (Sample.basis_lz 166)
     = Ok Sample.basis_lz_166_container
  /\ (run Sample.legacy_env (Sample.basis_lz 166)).2
     = [New_BasisFile; Call_startTranscoding; Call_getNumImages; Call_getLevels;
        Call_getImageTranscodedSizeInBytes 0 13; Call_transcodeImage 0 13;
        Log_ETC1S 0 13 true; Call_close; Call_delete]
  /\ (run (Sample.basis_env (Sample.ktx2_module Sample.one_level_file))
        (Sample.basis_lz 160)).2
     = [New_KTX2File; Call_startTranscoding; Call_getLevels;
        Call_getImageTranscodedSizeInBytes 0 13; Call_transcodeImage 0 13;
        Log_UASTC 0 true; Call_close; Call_delete].
Proof. repeat split; vm_compute; reflexivity. Qed.

(** C5, amended.  Under the BasisLZ scheme the DFD has no influence on the
    run.  The decode branch follows the class of the transcoder handle:
    the branch logged as UASTC runs only on a [KTX2File], the branch logged
    as ETC1S only on a legacy [BasisFile], and every size query and every
    transcode asks for target format 13 (RGBA32). *)
Theorem basisLZ_branch_by_handle env arrayBuffer c :
  parseContainer env arrayBuffer = Ok c ->
  supercompressionScheme (header c) = SUPERCOMPRESSION_BASIS_LZ ->
  let tr := (run env arrayBuffer).2 in
  (forall d, resolveBasisLZ env arrayBuffer d (levels c) []
             = resolveBasisLZ env arrayBuffer (dfd c) (levels c) [])
  /\ (forall i st, Log_UASTC i st ∈ tr -> New_KTX2File ∈ tr /\ New_BasisFile ∉ tr)
  /\ (forall i f st, Log_ETC1S i f st ∈ tr ->
        New_BasisFile ∈ tr /\ (New_KTX2File ∉ tr) /\ f = 13%Z)
  /\ (forall i f, Call_getImageTranscodedSizeInBytes i f ∈ tr -> f = 13%Z)
  /\ (forall i f, Call_transcodeImage i f ∈ tr -> f = 13%Z).
Proof.
  intros Hc Hs tr. split; [reflexivity|].
  unfold tr. rewrite (run_of_container _ _ _ Hc). cbn [snd].
  rewrite (resolve_lz _ _ _ Hs).
  destruct (resolveBasisLZ_open env arrayBuffer (dfd c) (levels c))
    as [(e & H) | (m & k & f & _ & _ & H)]; rewrite H.
  - cbn [snd]. repeat split; intros; exfalso; by eapply not_elem_of_nil.
  - destruct (lzSession {| isKTX2File := k; file := f |} (levels c) [New k])
      as [r tr'] eqn:Hrun.
    apply lzSession_events in Hrun. destruct Hrun as (evs & -> & Hevs).
    cbn [snd]. apply (session_trace k evs Hevs).
Qed.

Lemma basisLZ_branch_by_handle_witness :
  parseContainer Sample.legacy_env (Sample.basis_lz 166)
  = Ok Sample.basis_lz_166_container
  /\ supercompressionScheme (header Sample.basis_lz_166_container)
     = SUPERCOMPRESSION_BASIS_LZ
  /\ forall i f st,
       Log_ETC1S i f st ∈ (run Sample.legacy_env (Sample.basis_lz 166)).2 ->
       New_BasisFile ∈ (run Sample.legacy_env (Sample.basis_lz 166)).2
       /\ (New_KTX2File ∉ (run Sample.legacy_env (Sample.basis_lz 166)).2)
       /\ f = 13%Z.
Proof.
  split; [vm_compute; reflexivity|]. split; [reflexivity|].
  apply (basisLZ_branch_by_handle Sample.legacy_env (Sample.basis_lz 166)
           Sample.basis_lz_166_container);
    [vm_compute; reflexivity | reflexivity].
Defined.

(** ** Failure of a level on the Basis paths *)

(** Whatever the transcoder does on the levels, a BasisLZ session that got
    past [startTranscoding] and found images returns: a level that reports
    no size, a failed status or an exception only ends the loop. *)
Lemma lzSession_returns h ls tr :
  startTranscoding (file h) = Returns true ->
  (isKTX2File h = true \/ getNumImages (file h) = None
   \/ exists n, getNumImages (file h) = Some (Returns n) /\ n <> 0%Z) ->
  exists ls' tr', lzSession h ls tr = (Ok ls', tr').
Proof.
  intros Hstart Himages.
  unfold lzSession. unfold bindM at 1. unfold ext at 1. rewrite Hstart. cbn [negb].
  assert (exists tr1,
            (if isKTX2File h then ret 1%Z
             else match getNumImages (file h) with
                  | Some c => ext Call_getNumImages c
                  | None => ret 1%Z
                  end) (tr ++ [Call_startTranscoding])
            = (Ok (if isKTX2File h then 1%Z
                   else match getNumImages (file h) with
                        | Some (Returns n) => n
                        | _ => 1%Z
                        end), tr1)
            /\ (if isKTX2File h then 1%Z
                else match getNumImages (file h) with
                     | Some (Returns n) => n
                     | _ => 1%Z
                     end) <> 0%Z) as (tr1 & Hq & Hnz).
  { destruct (isKTX2File h); [by eexists|].
    destruct Himages as [H | [-> | (n & -> & Hn)]]; [done| |]; by eexists. }
  unfold bindM at 1. rewrite Hq.
  destruct (Z.eqb_spec (if isKTX2File h then 1%Z
                        else match getNumImages (file h) with
                             | Some (Returns n) => n
                             | _ => 1%Z
                             end) 0) as [E|_]; [done|].
  unfold bindM at 1.
  destruct (catch (ext Call_getLevels (getLevels (file h))) (fun _ => ret 1%Z) tr1)
    as [[tlc|e] tr2] eqn:Hlv.
  2: { unfold catch, ext, ret in Hlv. destruct (getLevels (file h)); discriminate Hlv. }
  destruct (lzLoop_spec h (Z.to_nat (Z.min (Z.of_nat (length ls)) tlc)) 0 ls tr2)
    as (ls' & evs & k & a & Hrun & _).
  unfold bindM at 1. rewrite Hrun. m_unfold. by eexists _, _.
Qed.

(** C1, the code against the claim.  On raw Basis data, level 0 is decoded
    and [transcodeImage] throws on level 1: [parseKTX2] does not stop the
    mip chain there and return a texture, it ends in the exception.  On a
    BasisLZ container the same transcoder gives a texture with level 0
    decoded and the levels from 1 on without payload. *)
Theorem raw_basis_exception_aborts_parse :
  run Sample.throwing_env Sample.raw_basis_4
  = (Err Thrown,
     [New_KTX2File; Call_startTranscoding; Call_getLevels;
      Call_getImageTranscodedSizeInBytes 0 13; Call_transcodeImage 0 13;
      Call_getImageTranscodedSizeInBytes 1 13; Call_transcodeImage 1 13])
  /\ exists pt tr,
       run Sample.throwing_env Sample.basis_lz_4 = (Ok pt, tr)
       /\ (isDecompressed <$> levels pt) = [true; false; false; false]
       /\ (decompressedData <$> levels pt) = [Some (Sample.pixels 4); None; None; None].
Proof.
  split; [vm_compute; reflexivity|].
  eexists _, _. vm_compute. repeat split; reflexivity.
Qed.

(** ** Release of the transcoder handle *)

(** X16. On the BasisLZ path the handle is released on every path, once
    [startTranscoding] and [getNumImages] of the opened file return. *)
Lemma basisLZ_releases_handle env arrayBuffer c :
  parseContainer env arrayBuffer = Ok c ->
  supercompressionScheme (header c) = SUPERCOMPRESSION_BASIS_LZ ->
  (forall m k f, loadBasisModule env = Returns m -> opens_lz m arrayBuffer k f ->
     startTranscoding f <> Throws /\ getNumImages f <> Some Throws) ->
  released (run env arrayBuffer).2 = true.
Proof.
  intros Hc Hs Hcalls.
  rewrite (run_of_container _ _ _ Hc). cbn [snd]. rewrite (resolve_lz _ _ _ Hs).
  destruct (resolveBasisLZ_open env arrayBuffer (dfd c) (levels c))
    as [(e & H) | (m & k & f & Hload & Hopens & H)]; rewrite H; [done|].
  destruct (Hcalls m k f Hload Hopens) as [Hstart Himages].
  destruct (lzSession {| isKTX2File := k; file := f |} (levels c) [New k])
    as [r tr'] eqn:Hrun.
  cbn [snd]. eapply lzSession_released; [| | |exact Hrun]; [by destruct k|done..].
Qed.


(** C7, the code against the claim.  On raw Basis data, when
    [transcodeImage] throws on level 1 the exception leaves [parseKTX2]
    with the handle still open: neither [close] nor [delete] is called.  On
    a BasisLZ container the same transcoder ends with the handle closed
    and deleted. *)
Theorem raw_basis_exception_leaks_handle :
  (run Sample.throwing_env Sample.raw_basis_4).1 = Err Thrown
  /\ handle_after (run Sample.throwing_env Sample.raw_basis_4).2 = Open
  /\ (Call_close ∉ (run Sample.throwing_env Sample.raw_basis_4).2)
  /\ (Call_delete ∉ (run Sample.throwing_env Sample.raw_basis_4).2)
  /\ released (run Sample.throwing_env Sample.raw_basis_4).2 = false
  /\ released (run Sample.throwing_env Sample.basis_lz_4).2 = true.
Proof.
  assert ((run Sample.throwing_env Sample.raw_basis_4).2
          = [New_KTX2File; Call_startTranscoding; Call_getLevels;
             Call_getImageTranscodedSizeInBytes 0 13; Call_transcodeImage 0 13;
             Call_getImageTranscodedSizeInBytes 1 13; Call_transcodeImage 1 13])
    as Htr by (vm_compute; reflexivity).
  split; [vm_compute; reflexivity|]. rewrite Htr.
  split; [reflexivity|].
  split; [intros H; repeat (apply elem_of_cons in H; destruct H as [H|H]; [discriminate H|]); by apply elem_of_nil in H|].
  split; [intros H; repeat (apply elem_of_cons in H; destruct H as [H|H]; [discriminate H|]); by apply elem_of_nil in H|].
  split; [reflexivity|]. vm_compute. reflexivity.
Qed.

(** ** The fuel of the KVD loop *)

Lemma le_uint_nonneg bs : 0 <= le_uint bs.
Proof.
  induction bs as [|b bs IH]; simpl; [lia|].
  unfold byte_val. lia.
Qed.

Lemma get_le_nonneg n dv off v : get_le n dv off = Ok v -> 0 <= v.
Proof.
  unfold get_le. destruct (decide _); [|discriminate].
  intros [= <-]. apply le_uint_nonneg.
Qed.

(** Every turn of the loop moves [offset] forward by at least 4, so fuel
    of a quarter of the remaining bytes is never used up: more fuel gives
    the same result. *)
Lemma parseKVD_loop_fuel decode buffer stop fuel extra offset kv :
  stop - offset <= 4 * Z.of_nat fuel ->
  parseKVD_loop decode buffer stop (fuel + extra) offset kv
  = parseKVD_loop decode buffer stop fuel offset kv.
Proof.
  revert offset kv. induction fuel as [|fuel IH]; intros offset kv Hrem.
  - destruct extra as [|extra]; [done|]. simpl.
    destruct (Z.ltb_spec offset stop); [lia|done].
  - cbn [Nat.add parseKVD_loop].
    destruct (offset <? stop); [|done].
    destruct (getUint32 buffer offset) as [len|e] eqn:Hlen; [|done]. simpl.
    apply get_le_nonneg in Hlen.
    destruct (len =? 0); [done|].
    destruct (JS.view buffer (offset + 4) len); [|done]. simpl.
    apply IH.
    assert (0 <= (4 - len mod 4) mod 4) by (apply Z.mod_pos_bound; lia).
    lia.
Qed.

Lemma parseKVD_fuel decode buffer baseOffset length extra :
  0 <= length ->
  parseKVD_loop decode buffer (baseOffset + length) (Z.to_nat length + extra)
    baseOffset []
  = parseKVD decode buffer baseOffset length.
Proof.
  intros H. unfold parseKVD. apply parseKVD_loop_fuel. lia.
Qed.

(** ** Further runs *)

(** The shift of the level dimensions is the 32-bit one of the source: its
    count wraps at 32 and a dimension from 2^31 on is read as negative. *)
Example shr_count_wraps : shr 4 32 = 4%Z.
Proof. reflexivity. Qed.

Example shr_large_dimension : Z.max 1 (shr (2 ^ 31) 0) = 1%Z.
Proof. reflexivity. Qed.

(** An uncompressed level is handed out as the raw slice of the file. *)
Example rgba8_level0_raw :
  getLevelData Sample.rgba8_4x4 (Sample.plain_level 152 64 4 4)
  = Ok (replicate 64 zero_byte).
Proof. vm_compute. reflexivity. Qed.

(** Zstandard with the declared length met: no warning. *)
Example zstd_sizes_agree :
  (run Sample.zstd_env
     (Sample.container 37 16 16 1 2 [(104, 4, 1000)] [x28; xb5; x2f; xfd]%byte)).2
  = [].
Proof. vm_compute. reflexivity. Qed.

(** ZLIB and unknown schemes are rejected. *)
Example zlib_rejected :
  (run Sample.no_env (Sample.container 37 4 4 1 3 [(104, 0, 0)] [])).1
  = Err (Error "Zlib supercompression not yet supported. Use Zstd or uncompressed KTX2.").
Proof. vm_compute. reflexivity. Qed.

Example unknown_scheme_rejected :
  (run Sample.no_env (Sample.container 37 4 4 1 7 [(104, 0, 0)] [])).1
  = Err (ErrorAt "Unknown supercompression scheme" 7).
Proof. vm_compute. reflexivity. Qed.

(** ** Downconversion of a whole level *)

Lemma float32ToFloat16_range x :
  0 <= x < 2 ^ 32 -> 0 <= float32ToFloat16 x < 2 ^ 16.
Proof.
  intros Hx. rewrite float32ToFloat16_fields by done. cbv zeta.
  destruct (f32_fields x Hx) as (_ & Hs & _ & _ & Hm & _).
  assert (0 <= (x / 2 ^ 23) mod 2 ^ 8 < 256) as HE by (apply Z.mod_pos_bound; lia).
  set (s := x / 2 ^ 31) in *. set (E := (x / 2 ^ 23) mod 2 ^ 8) in *.
  set (m := (x / 2 ^ 13) mod 2 ^ 10) in *.
  change (2 ^ 15) with 32768. change (2 ^ 16) with 65536. change (2 ^ 10) with 1024.
  destruct (Z.leb_spec E 112).
  - destruct (Z.ltb_spec E 102); [lia|].
    assert (0 < 2 ^ (113 - E)) as HT by (apply Z.pow_pos_nonneg; lia).
    assert (0 <= (1024 + m) / 2 ^ (113 - E) < 2048).
    { split; [apply Z.div_pos; lia|]. apply Z.div_lt_upper_bound; [done|]. nia. }
    lia.
  - destruct (Z.leb_spec 143 E); lia.
Qed.

Lemma byte_val_of_Z z : byte_val (byte_of_Z z) = z mod 256.
Proof.
  unfold byte_val, byte_of_Z.
  assert (0 <= z mod 256 < 256) as Hr by (apply Z.mod_pos_bound; lia).
  destruct (Byte.of_N (Z.to_N (z mod 256))) as [b|] eqn:E.
  - simpl. apply Byte.to_of_N in E. rewrite E. lia.
  - apply Byte.of_N_None_iff in E. lia.
Qed.

Lemma le_uint_u16 h :
  0 <= h < 2 ^ 16 -> le_uint [byte_of_Z h; byte_of_Z (h / 256)] = h.
Proof.
  intros Hh. simpl. rewrite !byte_val_of_Z.
  change (2 ^ 16) with 65536 in Hh. Z.div_mod_to_equations; lia.
Qed.

Lemma byte_val_range b : 0 <= byte_val b < 256.
Proof.
  unfold byte_val. pose proof (Byte.to_N_bounded b). lia.
Qed.

Lemma le_uint_bound bs : 0 <= le_uint bs < 256 ^ Z.of_nat (length bs).
Proof.
  induction bs as [|b bs IH]; [simpl; lia|].
  cbn [le_uint foldr length]. fold (le_uint bs).
  rewrite Nat2Z.inj_succ, Z.pow_succ_r by lia.
  pose proof (byte_val_range b). lia.
Qed.

(** The [i]-th pair of a list made of pairs. *)
Lemma flat_map_pair {A} (g : nat -> list A) s n i :
  (forall j, length (g j) = 2%nat) -> (i < n)%nat ->
  take 2 (drop (2 * i) (flat_map g (seq s n))) = g (s + i)%nat.
Proof.
  intros Hg. revert s i. induction n as [|n IH]; intros s i Hi; [lia|].
  cbn [seq flat_map]. destruct i as [|i].
  - rewrite Nat.add_0_r. simpl (2 * 0)%nat. rewrite drop_0.
    rewrite take_app_le by (rewrite Hg; lia).
    apply take_ge. rewrite Hg. lia.
  - replace (2 * S i)%nat with (length (g s) + 2 * i)%nat by (rewrite Hg; lia).
    rewrite drop_app_add. rewrite IH by lia. f_equal. lia.
Qed.

Lemma flat_map_pair_length {A} (g : nat -> list A) l :
  (forall j, length (g j) = 2%nat) ->
  length (flat_map g l) = (2 * length l)%nat.
Proof.
  intros Hg. induction l as [|a l IH]; [done|].
  cbn [flat_map]. rewrite length_app, Hg, IH. simpl. lia.
Qed.


(** * Further properties *)

(** ** The container parser on arbitrary buffers *)

Lemma get_le_ok n dv off :
  0 <= off -> off + Z.of_nat n <= Z.of_nat (length dv) ->
  get_le n dv off = Ok (le_uint (take n (drop (Z.to_nat off) dv))).
Proof. intros. unfold get_le. by rewrite decide_True. Qed.

Lemma get_le_range_error n dv off :
  Z.of_nat (length dv) < off + Z.of_nat n -> get_le n dv off = Err RangeError.
Proof. intros. unfold get_le. rewrite decide_False; [done|lia]. Qed.

Lemma parseContainer_identifier env arrayBuffer :
  (12 <= length arrayBuffer)%nat ->
  take 12 arrayBuffer <> KTX2_IDENTIFIER ->
  parseContainer env arrayBuffer = Err (Error "Invalid KTX2 identifier").
Proof.
  intros Hlen Hid. unfold parseContainer.
  rewrite view_ok by lia.
  change (Z.to_nat 12) with 12%nat. change (Z.to_nat 0) with 0%nat.
  rewrite drop_0. cbn [JS.bind].
  rewrite checkIdentifier_spec by (rewrite length_take; lia).
  by rewrite decide_False.
Qed.

(** X1. A file of at least 12 bytes whose first 12 bytes differ from the
    KTX2 identifier is rejected by [parseKTX2] with the error
    "Invalid KTX2 identifier", before any library is loaded or any log
    line is written. *)
Theorem parseKTX2_invalid_identifier env arrayBuffer :
  (12 <= length arrayBuffer)%nat ->
  take 12 arrayBuffer <> KTX2_IDENTIFIER ->
  run env arrayBuffer = (Err (Error "Invalid KTX2 identifier"), []).
Proof.
  intros Hlen Hid. apply run_container_error. by apply parseContainer_identifier.
Qed.

Lemma parseKTX2_invalid_identifier_witness :
  run Sample.no_env (replicate 100 zero_byte)
  = (Err (Error "Invalid KTX2 identifier"), []).
Proof.
  apply parseKTX2_invalid_identifier.
  - simpl. lia.
  - vm_compute. discriminate.
Defined.

Lemma get_le_inv n dv off v :
  get_le n dv off = Ok v ->
  0 <= off /\ off + Z.of_nat n <= Z.of_nat (length dv)
  /\ v = le_uint (take n (drop (Z.to_nat off) dv)).
Proof.
  unfold get_le. destruct (decide _) as [[H1 H2]|]; [|discriminate].
  intros [= <-]. done.
Qed.

(** The level index loop reads entry [k] at [off + 24 * k]. *)
Lemma readLevel_loop_entries dv hdr n start off ls off' ls' :
  0 <= off ->
  for_range n start (readLevel dv hdr) (off, ls) = Ok (off', ls') ->
  off' = off + 24 * Z.of_nat n
  /\ ((0 < n)%nat -> off' <= Z.of_nat (length dv))
  /\ forall k lvl, ls' !! (length ls + k)%nat = Some lvl ->
       let entry := drop (Z.to_nat off + 24 * k) dv in
       byteOffset lvl = Number (le_uint (take 8 entry))
       /\ byteLength lvl = Number (le_uint (take 8 (drop 8 entry)))
       /\ uncompressedByteLength lvl = Number (le_uint (take 8 (drop 16 entry))).
Proof.
  revert start off ls. induction n as [|n IH]; intros start off ls Hoff H.
  - simpl in H. injection H as <- <-. split; [lia|]. split; [lia|].
    intros k lvl Hk. apply lookup_lt_Some in Hk. lia.
  - cbn [for_range] in H.
    destruct (readLevel dv hdr start (off, ls)) as [[off1 ls1]|] eqn:E;
      cbn [JS.bind] in H; [|discriminate H].
    unfold readLevel in E. do 3 inv_bind E. injection E as <- <-.
    unfold getBigUint64 in *.
    repeat match goal with
           | G : get_le _ _ _ = Ok _ |- _ =>
               apply get_le_inv in G; destruct G as (? & ? & ->)
           end.
    pose proof (readLevel_loop _ _ _ _ _ _ _ _ H) as (Hlen & Hold & _).
    apply IH in H; [|lia]. destruct H as (Hoff' & Hfit & Hnew).
    rewrite length_app in Hlen, Hold, Hnew. simpl in Hlen, Hold.
    cbn [length] in Hnew.
    split; [lia|]. split.
    + intros _. destruct n; [lia|]. apply Hfit. lia.
    + intros k lvl Hk. destruct k as [|k].
      * rewrite Nat.add_0_r in Hk. rewrite Hold in Hk by lia.
        rewrite lookup_app_r, Nat.sub_diag in Hk by lia.
        injection Hk as <-. cbn [byteOffset byteLength uncompressedByteLength].
        rewrite Nat.mul_0_r, Nat.add_0_r, !drop_drop.
        replace (Z.to_nat (off + 8)) with (Z.to_nat off + 8)%nat by lia.
        replace (Z.to_nat (off + 16)) with (Z.to_nat off + 16)%nat by lia.
        done.
      * specialize (Hnew k lvl).
        replace (length ls + 1 + k)%nat with (length ls + S k)%nat in Hnew by lia.
        specialize (Hnew Hk).
        replace (Z.to_nat (off + 24) + 24 * k)%nat
          with (Z.to_nat off + 24 * S k)%nat in Hnew by lia.
        exact Hnew.
Qed.

(** The level entries of a parsed file, as the bytes of the level
    index. *)
Lemma parseKTX2_level_entries env arrayBuffer pt tr i lvl :
  run env arrayBuffer = (Ok pt, tr) ->
  levels pt !! i = Some lvl ->
  let entry := drop (80 + 24 * i) arrayBuffer in
  (80 + 24 * length (levels pt) <= length arrayBuffer)%nat
  /\ byteOffset lvl = Number (le_uint (take 8 entry))
  /\ byteLength lvl = Number (le_uint (take 8 (drop 8 entry)))
  /\ uncompressedByteLength lvl = Number (le_uint (take 8 (drop 16 entry))).
Proof.
  intros Hrun Hi entry.
  destruct (parseKTX2_inv _ _ _ _ Hrun) as (c & Hc & Hres & _).
  apply resolveSupercompression_geometry in Hres.
  destruct (geometry_lookup _ _ _ _ Hres Hi) as (lvl0 & Hi0 & Hgeo).
  destruct (parseContainer_levels _ _ _ Hc) as (off & Hloop).
  pose proof (readLevel_loop _ _ _ _ _ _ _ _ Hloop) as (Hlen & _).
  apply readLevel_loop_entries in Hloop; [|lia].
  destruct Hloop as (Hoff & Hfit & Hentries).
  assert (length (levels pt) = length (levels c)) as Hsame.
  { rewrite <- (length_fmap geometry (levels pt)), Hres. apply length_fmap. }
  simpl in Hlen. split.
  - apply lookup_lt_Some in Hi0. rewrite Hsame.
    assert (0 < Z.to_nat (iterLevelCount (header c)))%nat as Hpos by lia.
    specialize (Hfit Hpos). lia.
  - specialize (Hentries i lvl0 Hi0). cbv zeta in Hentries.
    change (Z.to_nat 80) with 80%nat in Hentries.
    unfold geometry in Hgeo. injection Hgeo as H1 H2 H3 _ _.
    rewrite <- H1, <- H2, <- H3. exact Hentries.
Qed.

(** The reads of the header and of the index succeed on a buffer of 80
    bytes or more that starts with the identifier; what is left of the
    container parser is the level index loop and the two descriptors. *)
Lemma parseContainer_header env buf :
  take 12 buf = KTX2_IDENTIFIER -> (80 <= length buf)%nat ->
  exists hdr idx,
    parseContainer env buf =
      (st <- for_range (Z.to_nat (iterLevelCount hdr)) 0 (readLevel buf hdr) (80, []) ;;
       dfd <- (if 0 <? dfdByteLength idx
               then d <- parseDFD buf (dfdByteOffset idx) (dfdByteLength idx) ;;
                    Ok (Some d)
               else Ok None) ;;
       kvd <- (if 0 <? kvdByteLength idx
               then k <- parseKVD (TextDecoder_decode env) buf
                           (kvdByteOffset idx) (kvdByteLength idx) ;;
                    Ok (Some k)
               else Ok None) ;;
       Ok {| header := hdr; index := idx; levels := st.2; dfd := dfd; kvd := kvd |})%result
    /\ getUint32 buf 12 = Ok (vkFormat hdr)
    /\ getUint32 buf 16 = Ok (typeSize hdr)
    /\ getUint32 buf 20 = Ok (pixelWidth hdr)
    /\ getUint32 buf 24 = Ok (pixelHeight hdr)
    /\ getUint32 buf 28 = Ok (pixelDepth hdr)
    /\ getUint32 buf 32 = Ok (layerCount hdr)
    /\ getUint32 buf 36 = Ok (faceCount hdr)
    /\ getUint32 buf 40 = Ok (levelCount hdr)
    /\ getUint32 buf 44 = Ok (supercompressionScheme hdr)
    /\ getUint32 buf 48 = Ok (dfdByteOffset idx)
    /\ getUint32 buf 52 = Ok (dfdByteLength idx)
    /\ getUint32 buf 56 = Ok (kvdByteOffset idx)
    /\ getUint32 buf 60 = Ok (kvdByteLength idx)
    /\ exists s l,
         getBigUint64 buf 64 = Ok s /\ getBigUint64 buf 72 = Ok l
         /\ sgdByteOffset idx = Number s /\ sgdByteLength idx = Number l.
Proof.
  intros Hid Hlen.
  pose (rd := fun (n : nat) (k : Z) => le_uint (take n (drop (Z.to_nat k) buf))).
  assert (forall k, 0 <= k -> k + 4 <= 80 -> getUint32 buf k = Ok (rd 4%nat k)) as H32.
  { intros k Hk Hk'. unfold getUint32. by rewrite get_le_ok by lia. }
  assert (forall k, 0 <= k -> k + 8 <= 80 -> getBigUint64 buf k = Ok (rd 8%nat k)) as H64.
  { intros k Hk Hk'. unfold getBigUint64. by rewrite get_le_ok by lia. }
  exists {| vkFormat := rd 4%nat 12; typeSize := rd 4%nat 16; pixelWidth := rd 4%nat 20;
            pixelHeight := rd 4%nat 24; pixelDepth := rd 4%nat 28;
            layerCount := rd 4%nat 32; faceCount := rd 4%nat 36;
            levelCount := rd 4%nat 40; supercompressionScheme := rd 4%nat 44 |},
         {| dfdByteOffset := rd 4%nat 48; dfdByteLength := rd 4%nat 52;
            kvdByteOffset := rd 4%nat 56; kvdByteLength := rd 4%nat 60;
            sgdByteOffset := Number (rd 8%nat 64);
            sgdByteLength := Number (rd 8%nat 72) |}.
  split.
  - unfold parseContainer.
    rewrite view_ok by lia.
    change (Z.to_nat 12) with 12%nat. change (Z.to_nat 0) with 0%nat.
    rewrite drop_0. cbn [JS.bind].
    rewrite checkIdentifier_spec by (rewrite length_take; lia).
    rewrite decide_True by done. cbn [JS.bind].
    rewrite decide_False by lia.
    rewrite (H32 12), (H32 16), (H32 20), (H32 24), (H32 28),
      (H32 32), (H32 36), (H32 40), (H32 44), (H32 48),
      (H32 52), (H32 56), (H32 60), (H64 64), (H64 72) by lia.
    reflexivity.
  - cbn [vkFormat typeSize pixelWidth pixelHeight pixelDepth layerCount faceCount
         levelCount supercompressionScheme dfdByteOffset dfdByteLength
         kvdByteOffset kvdByteLength sgdByteOffset sgdByteLength].
    repeat (split; [apply H32; lia |]).
    exists (rd 8%nat 64), (rd 8%nat 72).
    split; [apply H64; lia|]. split; [apply H64; lia|]. done.
Qed.

(** The level index loop on a buffer that ends before the last entry. *)
Lemma readLevel_loop_overrun dv hdr n start off ls :
  0 <= off <= Z.of_nat (length dv) ->
  Z.of_nat (length dv) < off + 24 * Z.of_nat n ->
  for_range n start (readLevel dv hdr) (off, ls) = Err RangeError.
Proof.
  revert start off ls. induction n as [|n IH]; intros start off ls Hoff Hshort; [lia|].
  cbn [for_range]. unfold readLevel at 1. unfold getBigUint64.
  destruct (decide (off + 8 <= Z.of_nat (length dv))) as [H8|H8];
    [rewrite (get_le_ok 8 dv off) by lia|by rewrite get_le_range_error by lia].
  cbn [JS.bind].
  destruct (decide (off + 16 <= Z.of_nat (length dv))) as [H16|H16];
    [rewrite (get_le_ok 8 dv (off + 8)) by lia|by rewrite get_le_range_error by lia].
  cbn [JS.bind].
  destruct (decide (off + 24 <= Z.of_nat (length dv))) as [H24|H24];
    [rewrite (get_le_ok 8 dv (off + 16)) by lia|by rewrite get_le_range_error by lia].
  cbn [JS.bind]. apply IH; lia.
Qed.

(** The level index loop on a buffer that holds all entries. *)
Lemma readLevel_loop_fits dv hdr n start off ls :
  0 <= off -> off + 24 * Z.of_nat n <= Z.of_nat (length dv) ->
  exists ls', for_range n start (readLevel dv hdr) (off, ls)
              = Ok (off + 24 * Z.of_nat n, ls').
Proof.
  revert start off ls. induction n as [|n IH]; intros start off ls Hoff Hfit.
  - exists ls. simpl. do 2 f_equal. lia.
  - cbn [for_range]. unfold readLevel at 1. unfold getBigUint64.
    rewrite (get_le_ok 8 dv off), (get_le_ok 8 dv (off + 8)),
      (get_le_ok 8 dv (off + 16)) by lia.
    cbn [JS.bind].
    edestruct (IH (S start) (off + 24)) as (ls' & ->); [lia|lia|].
    exists ls'. do 2 f_equal. lia.
Qed.

(** X3. A file that starts with the identifier and holds the 80 bytes of
    header and index, but ends before the last entry of the level index
    (one entry at least, [levelCount] entries otherwise, 24 bytes each),
    makes [parseKTX2] throw a RangeError; nothing is loaded or logged. *)
Theorem parseKTX2_truncated_level_index env arrayBuffer count :
  take 12 arrayBuffer = KTX2_IDENTIFIER ->
  (80 <= length arrayBuffer)%nat ->
  getUint32 arrayBuffer 40 = Ok count ->
  Z.of_nat (length arrayBuffer) < 80 + 24 * Z.max 1 count ->
  run env arrayBuffer = (Err RangeError, []).
Proof.
  intros Hid Hlen Hlc Hshort. apply run_container_error.
  destruct (parseContainer_header env arrayBuffer Hid Hlen)
    as (hdr & idx & -> & Hfields).
  assert (levelCount hdr = count) as Hcount.
  { destruct Hfields as (_ & _ & _ & _ & _ & _ & _ & H & _). congruence. }
  rewrite readLevel_loop_overrun; [done|lia|].
  rewrite iterLevelCount_max, Hcount. lia.
Qed.

Lemma parseKTX2_truncated_level_index_witness :
  run Sample.no_env (take 100 Sample.rgba8_4x4) = (Err RangeError, []).
Proof.
  apply (parseKTX2_truncated_level_index _ _ 3).
  - reflexivity.
  - simpl. lia.
  - reflexivity.
  - simpl. lia.
Defined.

Lemma parseContainer_ok_bounds env buf c :
  parseContainer env buf = Ok c ->
  take 12 buf = KTX2_IDENTIFIER /\ (80 <= length buf)%nat.
Proof.
  intros Hc.
  destruct (decide (length buf < 80)%nat) as [Hshort|Hlong].
  - rewrite parseContainer_short in Hc by done.
    repeat case_decide; discriminate Hc.
  - split; [|lia].
    destruct (decide (take 12 buf = KTX2_IDENTIFIER)) as [|Hid]; [done|].
    rewrite parseContainer_identifier in Hc by (done || lia). discriminate Hc.
Qed.
(** ** The descriptor block *)

Lemma le_uint_1 b : le_uint [b] = byte_val b.
Proof. unfold le_uint. simpl. lia. Qed.

(** [parseDFD] on a block of at least 28 bytes. *)
Lemma parseDFD_block (view : list byte) :
  (28 <= length view)%nat ->
  (totalSize <- getUint32 view 0 ;;
   vendorId <- getUint16 view 4 ;;
   descriptorType <- getUint16 view 6 ;;
   versionNumber <- getUint16 view 8 ;;
   descriptorBlockSize <- getUint16 view 10 ;;
   colorModel <- getUint8 view 12 ;;
   colorPrimaries <- getUint8 view 13 ;;
   transferFunction <- getUint8 view 14 ;;
   flags <- getUint8 view 15 ;;
   t0 <- getUint8 view 16 ;;
   t1 <- getUint8 view 17 ;;
   t2 <- getUint8 view 18 ;;
   t3 <- getUint8 view 19 ;;
   bytesPlane <- for_range 8 0
                   (fun i acc => b <- getUint8 view (20 + Z.of_nat i) ;; Ok (acc ++ [b]))
                   [] ;;
   Ok {| totalSize := totalSize; vendorId := vendorId;
         descriptorType := descriptorType; versionNumber := versionNumber;
         colorModel := colorModel; colorPrimaries := colorPrimaries;
         transferFunction := transferFunction; flags := flags;
         texelBlockDimension := [t0; t1; t2; t3]; bytesPlane := bytesPlane;
         descriptorBlockSize := descriptorBlockSize |})%result
  = Ok {| totalSize := le_uint (take 4 view);
          vendorId := le_uint (take 2 (drop 4 view));
          descriptorType := le_uint (take 2 (drop 6 view));
          versionNumber := le_uint (take 2 (drop 8 view));
          colorModel := le_uint (take 1 (drop 12 view));
          colorPrimaries := le_uint (take 1 (drop 13 view));
          transferFunction := le_uint (take 1 (drop 14 view));
          flags := le_uint (take 1 (drop 15 view));
          texelBlockDimension := byte_val <$> take 4 (drop 16 view);
          bytesPlane := byte_val <$> take 8 (drop 20 view);
          descriptorBlockSize := le_uint (take 2 (drop 10 view)) |}.
Proof.
  intros Hlen.
  unfold getUint32, getUint16, getUint8.
  cbn [for_range]. 
  change (20 + Z.of_nat 0) with 20. change (20 + Z.of_nat 1) with 21.
  change (20 + Z.of_nat 2) with 22. change (20 + Z.of_nat 3) with 23.
  change (20 + Z.of_nat 4) with 24. change (20 + Z.of_nat 5) with 25.
  change (20 + Z.of_nat 6) with 26. change (20 + Z.of_nat 7) with 27.
  repeat (rewrite get_le_ok by lia; cbn [JS.bind]).
  repeat match goal with
         | |- context [Z.to_nat ?k] =>
             let v := eval compute in (Z.to_nat k) in change (Z.to_nat k) with v
         end.
  do 28 (destruct view as [|? view]; [simpl in Hlen; lia|]).
  cbn [take drop fmap list_fmap app].
  by rewrite !le_uint_1.
Qed.

Lemma parseDFD_short_block (view : list byte) :
  (length view < 28)%nat ->
  parseDFD view 0 (Z.of_nat (length view)) = Err RangeError.
Proof.
  intros H.
  do 28 (destruct view as [|? view]; [reflexivity|]).
  simpl in H. lia.
Qed.

(** [parseDFD] returns exactly on a block of 28 bytes or more that lies
    inside the buffer. *)
Lemma parseDFD_returns buffer baseOffset len :
  (exists d, parseDFD buffer baseOffset len = Ok d)
  <-> 0 <= baseOffset /\ 28 <= len
      /\ baseOffset + len <= Z.of_nat (length buffer).
Proof.
  unfold parseDFD.
  destruct (decide (0 <= baseOffset /\ 0 <= len
                    /\ baseOffset + len <= Z.of_nat (length buffer))) as [Hv|Hv].
  - destruct Hv as (H0 & Hl & Hfit).
    rewrite view_ok by lia. cbn [JS.bind].
    set (block := take (Z.to_nat len) (drop (Z.to_nat baseOffset) buffer)).
    assert (length block = Z.to_nat len) as Hblock.
    { unfold block. rewrite length_take, length_drop. lia. }
    destruct (decide (28 <= len)) as [H28|H28].
    + rewrite parseDFD_block by lia. split; [lia|by eexists].
    + pose proof (parseDFD_short_block block ltac:(lia)) as Hshort.
      unfold parseDFD in Hshort. rewrite view_ok in Hshort by lia.
      change (Z.to_nat 0) with 0%nat in Hshort.
      rewrite drop_0, Nat2Z.id, take_ge in Hshort by lia.
      cbn [JS.bind] in Hshort. rewrite Hshort.
      split; [intros [d Hd]; discriminate Hd|lia].
  - unfold JS.view. rewrite (decide_False _ _ Hv). cbn [JS.bind].
    split; [intros [d Hd]; discriminate Hd|lia].
Qed.

(** X4. [parseDFD] reads a descriptor from the [len] bytes at
    [baseOffset]: when that range lies inside the buffer and holds at
    least 28 bytes, every field is the little-endian value at its fixed
    position of the block (the texel block dimensions are the bytes 16 to
    19 as stored, the plane sizes the bytes 20 to 27); in every other case
    the call throws a RangeError. *)
Theorem parseDFD_spec buffer baseOffset len :
  let block := take (Z.to_nat len) (drop (Z.to_nat baseOffset) buffer) in
  parseDFD buffer baseOffset len =
    if decide (0 <= baseOffset /\ 28 <= len
               /\ baseOffset + len <= Z.of_nat (length buffer))
    then Ok {| totalSize := le_uint (take 4 block);
               vendorId := le_uint (take 2 (drop 4 block));
               descriptorType := le_uint (take 2 (drop 6 block));
               versionNumber := le_uint (take 2 (drop 8 block));
               colorModel := le_uint (take 1 (drop 12 block));
               colorPrimaries := le_uint (take 1 (drop 13 block));
               transferFunction := le_uint (take 1 (drop 14 block));
               flags := le_uint (take 1 (drop 15 block));
               texelBlockDimension := byte_val <$> take 4 (drop 16 block);
               bytesPlane := byte_val <$> take 8 (drop 20 block);
               descriptorBlockSize := le_uint (take 2 (drop 10 block)) |}
    else Err RangeError.
Proof.
  intros block. unfold parseDFD.
  destruct (decide (0 <= baseOffset /\ 0 <= len
                    /\ baseOffset + len <= Z.of_nat (length buffer))) as [Hv|Hv].
  - destruct Hv as (H0 & Hl & Hfit).
    rewrite view_ok by lia. cbn [JS.bind]. fold block.
    assert (length block = Z.to_nat len) as Hblock.
    { unfold block. rewrite length_take, length_drop. lia. }
    destruct (decide (28 <= len)) as [H28|H28].
    + rewrite decide_True by lia. apply parseDFD_block. lia.
    + rewrite decide_False by lia.
      pose proof (parseDFD_short_block block ltac:(lia)) as Hshort.
      unfold parseDFD in Hshort. rewrite view_ok in Hshort by lia.
      change (Z.to_nat 0) with 0%nat in Hshort.
      rewrite drop_0, Nat2Z.id, take_ge in Hshort by lia.
      cbn [JS.bind] in Hshort.
      exact Hshort.
  - unfold JS.view. rewrite (decide_False _ _ Hv). rewrite decide_False by lia. done.
Qed.

(** X5. For a file without key/value data, the container parser returns
    exactly when the file starts with the identifier, holds the header,
    the index and the whole level index, and its descriptor is either
    absent (length 0) or at least 28 bytes long and inside the file. *)
Theorem parseContainer_returns_iff env arrayBuffer count dfdOffset dfdLength :
  getUint32 arrayBuffer 40 = Ok count ->
  getUint32 arrayBuffer 48 = Ok dfdOffset ->
  getUint32 arrayBuffer 52 = Ok dfdLength ->
  getUint32 arrayBuffer 60 = Ok 0 ->
  (exists c, parseContainer env arrayBuffer = Ok c)
  <-> take 12 arrayBuffer = KTX2_IDENTIFIER
      /\ 80 + 24 * Z.max 1 count <= Z.of_nat (length arrayBuffer)
      /\ (dfdLength = 0
          \/ 28 <= dfdLength
             /\ dfdOffset + dfdLength <= Z.of_nat (length arrayBuffer)).
Proof.
  intros Hcount Hoff Hlen Hkvd.
  assert (0 <= dfdOffset /\ 0 <= dfdLength) as [Hoff0 Hlen0]
    by (split; eapply get_le_nonneg; eassumption).
  split.
  - intros [c Hc].
    destruct (parseContainer_ok_bounds _ _ _ Hc) as [Hid H80].
    split; [done|].
    destruct (parseContainer_header env arrayBuffer Hid H80)
      as (hdr & idx & Heq & Hf).
    destruct Hf as (_ & _ & _ & _ & _ & _ & _ & Hc' & _ & Ho' & Hl' & _ & Hk' & _).
    rewrite Hcount in Hc'. rewrite Hoff in Ho'. rewrite Hlen in Hl'.
    rewrite Hkvd in Hk'.
    injection Hc' as Hc'. injection Ho' as Ho'. injection Hl' as Hl'.
    injection Hk' as Hk'.
    rewrite Heq in Hc. rewrite <- Ho', <- Hl' in Hc.
    split.
    + destruct (decide (80 + 24 * Z.max 1 count <= Z.of_nat (length arrayBuffer)))
        as [|Hno]; [done|].
      rewrite readLevel_loop_overrun in Hc; [discriminate Hc|lia|].
      rewrite iterLevelCount_max, <- Hc'. lia.
    + inv_bind Hc.
      destruct (Z.ltb_spec 0 dfdLength) as [Hpos|]; [|left; lia].
      right.
      destruct (parseDFD arrayBuffer dfdOffset dfdLength) as [d|] eqn:Hd;
        [|discriminate Hc].
      assert (exists d, parseDFD arrayBuffer dfdOffset dfdLength = Ok d) as Hex
        by (by exists d).
      apply parseDFD_returns in Hex. lia.
  - intros (Hid & Hfit & Hdfd).
    assert (80 <= length arrayBuffer)%nat as H80 by lia.
    destruct (parseContainer_header env arrayBuffer Hid H80)
      as (hdr & idx & Heq & Hf).
    destruct Hf as (_ & _ & _ & _ & _ & _ & _ & Hc' & _ & Ho' & Hl' & _ & Hk' & _).
    rewrite Hcount in Hc'. rewrite Hoff in Ho'. rewrite Hlen in Hl'.
    rewrite Hkvd in Hk'.
    injection Hc' as Hc'. injection Ho' as Ho'. injection Hl' as Hl'.
    injection Hk' as Hk'.
    rewrite Heq. rewrite <- Ho', <- Hl', <- Hk'.
    destruct (readLevel_loop_fits arrayBuffer hdr
                (Z.to_nat (iterLevelCount hdr)) 0 80 [])
      as (ls & ->); [lia| |].
    { rewrite iterLevelCount_max, <- Hc'. lia. }
    cbn [JS.bind].
    destruct (Z.ltb_spec 0 dfdLength) as [Hpos|].
    + destruct (proj2 (parseDFD_returns arrayBuffer dfdOffset dfdLength))
        as [d ->]; [lia|]. cbn [JS.bind].
      change (0 <? 0) with false. cbn [JS.bind]. by eexists.
    + change (0 <? 0) with false. cbn [JS.bind]. by eexists.
Qed.

Lemma parseContainer_returns_iff_witness :
  (exists c, parseContainer Sample.no_env Sample.rgba8_4x4 = Ok c)
  <-> take 12 Sample.rgba8_4x4 = KTX2_IDENTIFIER
      /\ 80 + 24 * Z.max 1 3 <= Z.of_nat (length Sample.rgba8_4x4)
      /\ (0 = 0 \/ 28 <= 0 /\ 0 + 0 <= Z.of_nat (length Sample.rgba8_4x4)).
Proof.
  apply (parseContainer_returns_iff Sample.no_env Sample.rgba8_4x4 3 0 0);
    reflexivity.
Defined.

(** The header and index of a parsed file, as reads of the file. *)
Lemma parseKTX2_header_reads env arrayBuffer pt tr :
  run env arrayBuffer = (Ok pt, tr) ->
  take 12 arrayBuffer = KTX2_IDENTIFIER
  /\ getUint32 arrayBuffer 12 = Ok (vkFormat (header pt))
  /\ getUint32 arrayBuffer 16 = Ok (typeSize (header pt))
  /\ getUint32 arrayBuffer 20 = Ok (pixelWidth (header pt))
  /\ getUint32 arrayBuffer 24 = Ok (pixelHeight (header pt))
  /\ getUint32 arrayBuffer 28 = Ok (pixelDepth (header pt))
  /\ getUint32 arrayBuffer 32 = Ok (layerCount (header pt))
  /\ getUint32 arrayBuffer 36 = Ok (faceCount (header pt))
  /\ getUint32 arrayBuffer 40 = Ok (levelCount (header pt))
  /\ getUint32 arrayBuffer 44 = Ok (supercompressionScheme (header pt))
  /\ getUint32 arrayBuffer 48 = Ok (dfdByteOffset (index pt))
  /\ getUint32 arrayBuffer 52 = Ok (dfdByteLength (index pt))
  /\ getUint32 arrayBuffer 56 = Ok (kvdByteOffset (index pt))
  /\ getUint32 arrayBuffer 60 = Ok (kvdByteLength (index pt))
  /\ exists s l,
       getBigUint64 arrayBuffer 64 = Ok s /\ getBigUint64 arrayBuffer 72 = Ok l
       /\ sgdByteOffset (index pt) = Number s /\ sgdByteLength (index pt) = Number l.
Proof.
  intros Hrun.
  destruct (parseKTX2_inv _ _ _ _ Hrun) as (c & Hc & _ & -> & -> & _).
  destruct (parseContainer_ok_bounds _ _ _ Hc) as [Hid H80].
  split; [done|].
  destruct (parseContainer_header env arrayBuffer Hid H80)
    as (hdr & idx & Heq & Hf).
  rewrite Heq in Hc. do 3 inv_bind Hc. injection Hc as <-. exact Hf.
Qed.

(** X2. Whatever [parseKTX2] returns was read from the file: the file
    starts with the identifier, each field of the header and of the index
    is the little-endian value at its offset (12 to 72), the level index
    lies inside the file, and entry [i] of [levels] carries the three
    64-bit values at offsets 80 + 24 i, 88 + 24 i and 96 + 24 i,
    converted to numbers. *)
Theorem parseKTX2_decodes env arrayBuffer pt tr :
  run env arrayBuffer = (Ok pt, tr) ->
  (take 12 arrayBuffer = KTX2_IDENTIFIER
   /\ getUint32 arrayBuffer 12 = Ok (vkFormat (header pt))
   /\ getUint32 arrayBuffer 16 = Ok (typeSize (header pt))
   /\ getUint32 arrayBuffer 20 = Ok (pixelWidth (header pt))
   /\ getUint32 arrayBuffer 24 = Ok (pixelHeight (header pt))
   /\ getUint32 arrayBuffer 28 = Ok (pixelDepth (header pt))
   /\ getUint32 arrayBuffer 32 = Ok (layerCount (header pt))
   /\ getUint32 arrayBuffer 36 = Ok (faceCount (header pt))
   /\ getUint32 arrayBuffer 40 = Ok (levelCount (header pt))
   /\ getUint32 arrayBuffer 44 = Ok (supercompressionScheme (header pt))
   /\ getUint32 arrayBuffer 48 = Ok (dfdByteOffset (index pt))
   /\ getUint32 arrayBuffer 52 = Ok (dfdByteLength (index pt))
   /\ getUint32 arrayBuffer 56 = Ok (kvdByteOffset (index pt))
   /\ getUint32 arrayBuffer 60 = Ok (kvdByteLength (index pt))
   /\ exists s l,
        getBigUint64 arrayBuffer 64 = Ok s /\ getBigUint64 arrayBuffer 72 = Ok l
        /\ sgdByteOffset (index pt) = Number s
        /\ sgdByteLength (index pt) = Number l)
  /\ 80 + 24 * Z.of_nat (length (levels pt)) <= Z.of_nat (length arrayBuffer)
  /\ forall i lvl, levels pt !! i = Some lvl ->
       exists bo bl ul,
         getBigUint64 arrayBuffer (80 + 24 * Z.of_nat i) = Ok bo
         /\ getBigUint64 arrayBuffer (88 + 24 * Z.of_nat i) = Ok bl
         /\ getBigUint64 arrayBuffer (96 + 24 * Z.of_nat i) = Ok ul
         /\ byteOffset lvl = Number bo
         /\ byteLength lvl = Number bl
         /\ uncompressedByteLength lvl = Number ul.
Proof.
  intros Hrun. split; [by eapply parseKTX2_header_reads|].
  assert (levels pt = [] \/ exists l0, levels pt !! 0%nat = Some l0) as Hcases.
  { destruct (levels pt) as [|l0 ?]; [by left|right; by exists l0]. }
  assert (80 + 24 * Z.of_nat (length (levels pt)) <= Z.of_nat (length arrayBuffer))
    as Hfit.
  { destruct Hcases as [->|[l0 Hl0]].
    - destruct (parseKTX2_inv _ _ _ _ Hrun) as (c & Hc & _).
      apply parseContainer_ok_bounds in Hc. simpl. lia.
    - pose proof (parseKTX2_level_entries _ _ _ _ _ _ Hrun Hl0) as [H _]. lia. }
  split; [exact Hfit|].
  intros i lvl Hi.
  pose proof (parseKTX2_level_entries _ _ _ _ _ _ Hrun Hi) as (_ & Ho & Hl & Hu).
  apply lookup_lt_Some in Hi as Hlt.
  eexists _, _, _. unfold getBigUint64.
  rewrite !get_le_ok by lia.
  split; [reflexivity|]. split; [reflexivity|]. split; [reflexivity|].
  replace (Z.to_nat (80 + 24 * Z.of_nat i)) with (80 + 24 * i)%nat by lia.
  replace (Z.to_nat (88 + 24 * Z.of_nat i)) with ((80 + 24 * i) + 8)%nat by lia.
  replace (Z.to_nat (96 + 24 * Z.of_nat i)) with ((80 + 24 * i) + 16)%nat by lia.
  rewrite <- (drop_drop arrayBuffer 8 (80 + 24 * i)).
  rewrite <- (drop_drop arrayBuffer 16 (80 + 24 * i)).
  split; [exact Ho|]. split; [exact Hl|exact Hu].
Qed.

Lemma parseKTX2_decodes_witness :
  getUint32 Sample.rgba8_4x4 12 = Ok 37
  /\ getUint32 Sample.rgba8_4x4 40 = Ok 3
  /\ exists bo bl ul,
       getBigUint64 Sample.rgba8_4x4 (80 + 24 * Z.of_nat 1) = Ok bo
       /\ getBigUint64 Sample.rgba8_4x4 (88 + 24 * Z.of_nat 1) = Ok bl
       /\ getBigUint64 Sample.rgba8_4x4 (96 + 24 * Z.of_nat 1) = Ok ul
       /\ byteOffset (Sample.plain_level 216 16 2 2) = Number bo
       /\ byteLength (Sample.plain_level 216 16 2 2) = Number bl
       /\ uncompressedByteLength (Sample.plain_level 216 16 2 2) = Number ul.
Proof.
  destruct (parseKTX2_decodes Sample.no_env Sample.rgba8_4x4
              Sample.rgba8_4x4_parsed [])
    as ((_ & Hvk & _ & _ & _ & _ & _ & _ & Hlc & _) & _ & Hlevels).
  - vm_compute. reflexivity.
  - split; [exact Hvk|]. split; [exact Hlc|].
    apply (Hlevels 1%nat). reflexivity.
Defined.

(** ** The key/value block *)

Import Layout.

Lemma le_bytes_length n z : length (Sample.le_bytes n z) = n.
Proof. revert z. induction n as [|n IH]; intros z; simpl; [done|]. by rewrite IH. Qed.

Lemma le_uint_le_bytes n z :
  le_uint (Sample.le_bytes n z) = z mod 256 ^ Z.of_nat n.
Proof.
  revert z. induction n as [|n IH]; intros z.
  - simpl. by rewrite Z.mod_1_r.
  - cbn [Sample.le_bytes le_uint foldr]. fold (le_uint (Sample.le_bytes n (z / 256))).
    rewrite IH, byte_val_of_Z, Nat2Z.inj_succ, Z.pow_succ_r by lia.
    rewrite Z.rem_mul_r by lia. lia.
Qed.

Lemma kvd_entry_length e :
  Z.of_nat (length (kvd_entry e))
  = 4 + Z.of_nat (length e) + (4 - Z.of_nat (length e) mod 4) mod 4.
Proof.
  unfold kvd_entry, Sample.u32.
  rewrite !length_app, le_bytes_length, length_replicate.
  assert (0 <= (4 - Z.of_nat (length e) mod 4) mod 4) by (apply Z.mod_pos_bound; lia).
  lia.
Qed.

(** One turn of the loop over a well-formed entry. *)
Lemma parseKVD_loop_entry decode pre e rest stop fuel kv :
  (0 < length e)%nat -> Z.of_nat (length e) < 2 ^ 32 ->
  Z.of_nat (length pre) < stop ->
  parseKVD_loop decode (pre ++ kvd_entry e ++ rest) stop (S fuel)
    (Z.of_nat (length pre)) kv
  = parseKVD_loop decode (pre ++ kvd_entry e ++ rest) stop fuel
      (Z.of_nat (length (pre ++ kvd_entry e))) (kv_entry decode kv e).
Proof.
  intros Hne Hlt Hstop.
  cbn [parseKVD_loop].
  destruct (Z.ltb_spec (Z.of_nat (length pre)) stop); [|lia].
  pose proof (kvd_entry_length e) as Hel.
  assert (0 <= (4 - Z.of_nat (length e) mod 4) mod 4) by (apply Z.mod_pos_bound; lia).
  unfold getUint32. rewrite get_le_ok
    by (rewrite ?length_app; lia).
  rewrite Nat2Z.id, drop_app_length.
  unfold kvd_entry at 1. unfold Sample.u32.
  rewrite <- app_assoc, take_app_length' by (by rewrite le_bytes_length).
  rewrite le_uint_le_bytes. change (256 ^ Z.of_nat 4) with (2 ^ 32).
  rewrite Z.mod_small by lia. cbn [JS.bind].
  destruct (Z.eqb_spec (Z.of_nat (length e)) 0); [lia|].
  rewrite view_ok by (rewrite ?length_app; lia).
  replace (Z.to_nat (Z.of_nat (length pre) + 4))
    with (length pre + 4)%nat by lia.
  rewrite <- drop_drop, drop_app_length.
  unfold kvd_entry at 1. unfold Sample.u32.
  rewrite <- !app_assoc.
  rewrite drop_app_length' by (by rewrite le_bytes_length).
  rewrite Nat2Z.id, take_app_length. cbn [JS.bind].
  unfold kv_entry. f_equal.
  rewrite length_app. lia.
Qed.

Lemma kvd_block_cons e es : kvd_block (e :: es) = kvd_entry e ++ kvd_block es.
Proof. reflexivity. Qed.

(** The loop over a run of well-formed entries. *)
Lemma parseKVD_loop_entries decode es pre rest stop fuel kv :
  Forall wf_entry es ->
  Z.of_nat (length (pre ++ kvd_block es)) <= stop ->
  parseKVD_loop decode (pre ++ kvd_block es ++ rest) stop (length es + fuel)
    (Z.of_nat (length pre)) kv
  = parseKVD_loop decode (pre ++ kvd_block es ++ rest) stop fuel
      (Z.of_nat (length (pre ++ kvd_block es)))
      (fold_left (kv_entry decode) es kv).
Proof.
  revert pre kv. induction es as [|e es IH]; intros pre kv Hwf Hstop.
  - unfold kvd_block. simpl. by rewrite app_nil_r.
  - apply Forall_cons in Hwf. destruct Hwf as [[Hne Hlt] Hwf].
    rewrite kvd_block_cons in *. rewrite <- (app_assoc (kvd_entry e)).
    cbn [length Nat.add fold_left].
    pose proof (kvd_entry_length e) as Hel.
    assert (0 <= (4 - Z.of_nat (length e) mod 4) mod 4) by (apply Z.mod_pos_bound; lia).
    rewrite parseKVD_loop_entry; [|done|done|rewrite !length_app in Hstop; lia].
    rewrite (app_assoc pre (kvd_entry e)).
    rewrite IH; [|done|by rewrite <- app_assoc].
    by rewrite <- !app_assoc.
Qed.

Lemma kvd_block_length es :
  (4 * length es <= length (kvd_block es))%nat.
Proof.
  induction es as [|e es IH]; [simpl; lia|].
  rewrite kvd_block_cons, length_app. pose proof (kvd_entry_length e).
  assert (0 <= (4 - Z.of_nat (length e) mod 4) mod 4) by (apply Z.mod_pos_bound; lia).
  simpl. lia.
Qed.



(** The loop after a run of well-formed entries, with fuel left. *)
Lemma parseKVD_after_entries decode pre entries rest len :
  Forall wf_entry entries ->
  Z.of_nat (length (kvd_block entries)) < len ->
  exists fuel,
    parseKVD decode (pre ++ kvd_block entries ++ rest) (Z.of_nat (length pre)) len
    = parseKVD_loop decode (pre ++ kvd_block entries ++ rest)
        (Z.of_nat (length pre) + len) (S fuel)
        (Z.of_nat (length (pre ++ kvd_block entries)))
        (fold_left (kv_entry decode) entries []).
Proof.
  intros Hwf Hlen. unfold parseKVD.
  pose proof (kvd_block_length entries) as Hb.
  exists (Z.to_nat len - length entries - 1)%nat.
  replace (Z.to_nat len)
    with (length entries + S (Z.to_nat len - length entries - 1))%nat at 1 by lia.
  rewrite parseKVD_loop_entries; [done|done|rewrite length_app; lia].
Qed.



(** *** Keys of the parsed object *)

Lemma indexOf0_take str p : indexOf0 str = Some p -> 0 ∉ take p str.
Proof.
  revert p. induction str as [|c str IH]; intros p H; [discriminate H|].
  cbn [indexOf0] in H. destruct (decide (c = 0)) as [->|Hc].
  - injection H as <-. simpl. apply not_elem_of_nil.
  - destruct (indexOf0 str) as [q|]; [|discriminate H].
    injection H as <-. simpl. apply not_elem_of_cons. split; [done|]. by apply IH.
Qed.

Lemma kv_set_keys key value kv :
  (kv_set key value kv).*1 = if decide (key ∈ kv.*1) then kv.*1 else kv.*1 ++ [key].
Proof.
  induction kv as [|[k v] kv IH]; cbn [kv_set].
  - rewrite decide_False by apply not_elem_of_nil. done.
  - destruct (decide (k = key)) as [->|Hne].
    + rewrite decide_True by (simpl; apply elem_of_cons; by left). done.
    + cbn [fmap list_fmap fst]. fold (kv_set key value kv).
      change (list_fmap _ _ fst ?l) with (l.*1).
      rewrite IH. destruct (decide (key ∈ kv.*1)) as [Hin|Hin].
      * rewrite decide_True by (apply elem_of_cons; by right). done.
      * rewrite decide_False; [done|].
        intros [?|?]%elem_of_cons; congruence.
Qed.

Lemma kv_entry_keys decode kv bytes :
  NoDup kv.*1 -> Forall (fun k => 0 ∉ k) kv.*1 ->
  NoDup (kv_entry decode kv bytes).*1
  /\ Forall (fun k => 0 ∉ k) (kv_entry decode kv bytes).*1.
Proof.
  intros Hnd Hnul. unfold kv_entry.
  destruct (indexOf0 (decode bytes)) as [p|] eqn:Hp; [|done].
  rewrite kv_set_keys. destruct (decide _) as [|Hnew]; [done|].
  split.
  - apply NoDup_app. split; [done|]. split; [|apply NoDup_singleton].
    intros k Hk ->%list_elem_of_singleton. done.
  - apply Forall_app. split; [done|]. apply Forall_singleton.
    by apply indexOf0_take.
Qed.

Lemma parseKVD_loop_keys decode buffer stop fuel offset kv kv' :
  NoDup kv.*1 -> Forall (fun k => 0 ∉ k) kv.*1 ->
  parseKVD_loop decode buffer stop fuel offset kv = Ok kv' ->
  NoDup kv'.*1 /\ Forall (fun k => 0 ∉ k) kv'.*1.
Proof.
  revert offset kv. induction fuel as [|fuel IH]; intros offset kv Hnd Hnul H.
  - injection H as <-. done.
  - cbn [parseKVD_loop] in H.
    destruct (offset <? stop); [|injection H as <-; done].
    inv_bind H.
    destruct (_ =? 0); [injection H as <-; done|].
    inv_bind H.
    destruct (kv_entry_keys decode kv a0 Hnd Hnul) as [Hnd' Hnul'].
    eapply IH; [exact Hnd'|exact Hnul'|exact H].
Qed.

(** X8. The object that [parseKVD] returns has no key twice, and no key
    contains a NUL character: a key is the text before the first NUL of
    its entry, and a repeated key overwrites the earlier value. *)
Theorem parseKVD_keys decode buffer baseOffset len kv :
  parseKVD decode buffer baseOffset len = Ok kv ->
  NoDup kv.*1 /\ forall key value, (key, value) ∈ kv -> 0 ∉ key.
Proof.
  intros H. apply parseKVD_loop_keys in H.
  - destruct H as [Hnd Hnul]. split; [done|].
    intros key value Hin. rewrite Forall_forall in Hnul. apply Hnul.
    apply list_elem_of_fmap. by exists (key, value).
  - apply NoDup_nil_2.
  - apply Forall_nil_2.
Qed.

Lemma parseKVD_keys_witness :
  let kv := [([107], [118; 0; 119])] in
  NoDup kv.*1 /\ forall key value, (key, value) ∈ kv -> 0 ∉ key.
Proof.
  apply (parseKVD_keys (fmap byte_val)
           (kvd_block [[x6b; x00; x76; x00; x77]%byte]) 0 12).
  vm_compute. reflexivity.
Defined.

(** ** Containers without supercompression, and unsupported schemes *)

(** X9. A container without supercompression and with a Vulkan format
    other than 0 is returned by [parseKTX2] as the container parser built
    it, with no library loaded and nothing logged; [getLevelData] of each
    of its levels is the view of the file at the level's offset and
    length. *)
Theorem parseKTX2_plain env arrayBuffer c :
  parseContainer env arrayBuffer = Ok c ->
  supercompressionScheme (header c) = SUPERCOMPRESSION_NONE ->
  vkFormat (header c) <> 0 ->
  run env arrayBuffer = (Ok c, [])
  /\ forall i lvl, levels c !! i = Some lvl ->
       untouched lvl
       /\ getLevelData arrayBuffer lvl
          = JS.view arrayBuffer (byteOffset lvl) (byteLength lvl).
Proof.
  intros Hc Hs Hf. split.
  - rewrite (run_of_container _ _ _ Hc).
    unfold resolveSupercompression. rewrite Hs.
    destruct (Z.eqb_spec (vkFormat (header c)) 0) as [|_]; [done|].
    cbn. by destruct c.
  - intros i lvl Hi.
    pose proof (parseContainer_untouched _ _ _ _ _ Hc Hi) as Hu.
    split; [done|]. destruct Hu as (Hflag & _).
    unfold getLevelData. by rewrite Hflag.
Qed.

Lemma parseKTX2_plain_witness :
  run Sample.no_env Sample.rgba8_4x4 = (Ok Sample.rgba8_4x4_parsed, [])
  /\ forall i lvl, levels Sample.rgba8_4x4_parsed !! i = Some lvl ->
       untouched lvl
       /\ getLevelData Sample.rgba8_4x4 lvl
          = JS.view Sample.rgba8_4x4 (byteOffset lvl) (byteLength lvl).
Proof.
  apply (parseKTX2_plain Sample.no_env Sample.rgba8_4x4 Sample.rgba8_4x4_parsed).
  - vm_compute. reflexivity.
  - reflexivity.
  - simpl. lia.
Defined.

(** X10. Schemes that the reader does not decode: scheme 3 (Zlib) makes
    [parseKTX2] throw "Zlib supercompression not yet supported. Use Zstd
    or uncompressed KTX2.", and any scheme outside 0..3 makes it throw
    "Unknown supercompression scheme: <scheme>"; neither loads a library
    or logs. *)
Theorem parseKTX2_unsupported_scheme env arrayBuffer c :
  parseContainer env arrayBuffer = Ok c ->
  let scheme := supercompressionScheme (header c) in
  (scheme = SUPERCOMPRESSION_ZLIB ->
   run env arrayBuffer
   = (Err (Error "Zlib supercompression not yet supported. Use Zstd or uncompressed KTX2."),
      []))
  /\ (~ 0 <= scheme <= 3 ->
      run env arrayBuffer
      = (Err (ErrorAt "Unknown supercompression scheme" scheme), [])).
Proof.
  intros Hc scheme.
  rewrite (run_of_container _ _ _ Hc). unfold resolveSupercompression.
  fold scheme.
  unfold SUPERCOMPRESSION_NONE, SUPERCOMPRESSION_BASIS_LZ, SUPERCOMPRESSION_ZSTD,
    SUPERCOMPRESSION_ZLIB.
  split.
  - intros ->. cbn. by rewrite andb_false_r.
  - intros Hother.
    destruct (Z.eqb_spec scheme 2); [lia|].
    destruct (Z.eqb_spec scheme 0); [lia|]. rewrite andb_false_r.
    destruct (Z.eqb_spec scheme 1); [lia|].
    destruct (Z.eqb_spec scheme 3); [lia|]. done.
Qed.

Lemma parseKTX2_unsupported_scheme_witness :
  run Sample.no_env (Sample.container 37 4 4 1 7 [(104, 0, 0)] [])
  = (Err (ErrorAt "Unknown supercompression scheme" 7), []).
Proof.
  pose (c := {| header := {| vkFormat := 37; typeSize := 1; pixelWidth := 4;
                             pixelHeight := 4; pixelDepth := 0; layerCount := 0;
                             faceCount := 1; levelCount := 1;
                             supercompressionScheme := 7 |};
                index := {| dfdByteOffset := 0; dfdByteLength := 0;
                            kvdByteOffset := 0; kvdByteLength := 0;
                            sgdByteOffset := 0; sgdByteLength := 0 |};
                levels := [Sample.plain_level 104 0 4 4];
                dfd := None; kvd := None |}).
  apply (parseKTX2_unsupported_scheme Sample.no_env
           (Sample.container 37 4 4 1 7 [(104, 0, 0)] []) c).
  - vm_compute. reflexivity.
  - simpl. lia.
Defined.

(** ** Failure of a level under Zstandard *)

(** The Zstandard loop up to the first level [j] that fails. *)
Lemma zstdLoop_first_failure f arrayBuffer n i ls tr j lvl :
  (i <= j < i + n)%nat ->
  ls !! j = Some lvl ->
  (forall k lvl', (i <= k < j)%nat -> ls !! k = Some lvl' ->
     exists cd d, JS.view arrayBuffer (byteOffset lvl') (byteLength lvl') = Ok cd
                  /\ f cd = Returns d) ->
  (forall cd, JS.view arrayBuffer (byteOffset lvl) (byteLength lvl) = Ok cd ->
     f cd = Throws) ->
  (zstdLoop f arrayBuffer n i ls tr).1
  = match JS.view arrayBuffer (byteOffset lvl) (byteLength lvl) with
    | Ok _ => Err (ErrorAt "Failed to decompress level" (Z.of_nat j))
    | Err e => Err e
    end.
Proof.
  revert i ls tr. induction n as [|n IH]; intros i ls tr Hj Hl Hbefore Hfail; [lia|].
  cbn [zstdLoop].
  destruct (decide (i = j)) as [->|Hne].
  - rewrite Hl. unfold bindM, lift.
    destruct (JS.view arrayBuffer (byteOffset lvl) (byteLength lvl)) as [cd|e] eqn:Hv;
      [|done].
    by rewrite (Hfail cd eq_refl).
  - assert (is_Some (ls !! i)) as [lvl' Hi].
    { apply lookup_lt_is_Some. apply lookup_lt_Some in Hl. lia. }
    rewrite Hi.
    destruct (Hbefore i lvl' ltac:(lia) Hi) as (cd & d & Hv & Hd).
    unfold bindM at 1. unfold lift. rewrite Hv, Hd.
    unfold bindM at 1.
    destruct (decide _); unfold ret, emit.
    + apply IH; [lia|by rewrite list_lookup_insert_ne by lia| |done].
      intros k lvl2 Hk Hl2. rewrite list_lookup_insert_ne in Hl2 by lia.
      by apply (Hbefore k lvl2); [lia|].
    + apply IH; [lia|by rewrite list_lookup_insert_ne by lia| |done].
      intros k lvl2 Hk Hl2. rewrite list_lookup_insert_ne in Hl2 by lia.
      by apply (Hbefore k lvl2); [lia|].
Qed.

(** X11. Under Zstandard the levels are decompressed in ascending order
    and the first failure ends the parse: when every level before [j] is
    inside the file and decompresses, and the decompressor throws on level
    [j], [parseKTX2] throws "Failed to decompress level <j>: ..." (or the
    RangeError of the view, when level [j] lies outside the file). *)
Theorem zstd_first_failure env arrayBuffer c fzstdDecompress j lvl :
  parseContainer env arrayBuffer = Ok c ->
  supercompressionScheme (header c) = SUPERCOMPRESSION_ZSTD ->
  loadFzstd env = Returns fzstdDecompress ->
  levels c !! j = Some lvl ->
  (forall k lvl', (k < j)%nat -> levels c !! k = Some lvl' ->
     exists cd d, JS.view arrayBuffer (byteOffset lvl') (byteLength lvl') = Ok cd
                  /\ fzstdDecompress cd = Returns d) ->
  (forall cd, JS.view arrayBuffer (byteOffset lvl) (byteLength lvl) = Ok cd ->
     fzstdDecompress cd = Throws) ->
  (run env arrayBuffer).1
  = match JS.view arrayBuffer (byteOffset lvl) (byteLength lvl) with
    | Ok _ => Err (ErrorAt "Failed to decompress level" (Z.of_nat j))
    | Err e => Err e
    end.
Proof.
  intros Hc Hs Hload Hl Hbefore Hfail.
  rewrite (run_of_container _ _ _ Hc). cbn [fst].
  unfold resolveSupercompression. rewrite Hs. cbn.
  unfold bindM at 1. unfold await. rewrite Hload. unfold ret at 1.
  rewrite (zstdLoop_first_failure fzstdDecompress arrayBuffer
             (length (levels c)) 0 (levels c) [] j lvl); try done.
  - by destruct (JS.view arrayBuffer (byteOffset lvl) (byteLength lvl)).
  - apply lookup_lt_Some in Hl. lia.
  - intros k lvl' Hk. apply Hbefore. lia.
Qed.

Lemma zstd_first_failure_witness :
  (run Fixture.zstd_failing_env Sample.zstd_one_level).1
  = Err (ErrorAt "Failed to decompress level" 0).
Proof.
  refine (eq_trans
            (zstd_first_failure Fixture.zstd_failing_env Sample.zstd_one_level
               Sample.zstd_one_level_container (fun _ => Throws) 0%nat
               {| byteOffset := 104; byteLength := 4;
                  uncompressedByteLength := 1024; width := 16; height := 16;
                  isDecompressed := false; decompressedData := None;
                  transcodedFormat := None |} _ _ _ _ _ _) _).
  - vm_compute. reflexivity.
  - reflexivity.
  - reflexivity.
  - reflexivity.
  - intros k lvl' Hk. lia.
  - reflexivity.
  - vm_compute. reflexivity.
Defined.

(** ** The Basis branches around the level loop *)

Lemma resolveRawBasis_opens env arrayBuffer ls m k f :
  loadBasisModule env = Returns m -> opens_raw m arrayBuffer k f ->
  resolveRawBasis env arrayBuffer ls []
  = rawSession {| isKTX2File := k; file := f |} ls [New k].
Proof.
  intros Hload Hopen. unfold resolveRawBasis, opens_raw in *.
  rewrite Hload. unfold bindM at 1. unfold await, ret at 1.
  destruct (KTX2File m) as [ctor|]; destruct Hopen as [-> Hnew];
    unfold bindM, construct, ret; by rewrite Hnew.
Qed.

Lemma resolveBasisLZ_opens env arrayBuffer d ls m k f :
  loadBasisModule env = Returns m -> opens_lz m arrayBuffer k f ->
  resolveBasisLZ env arrayBuffer d ls []
  = lzSession {| isKTX2File := k; file := f |} ls [New k].
Proof.
  intros Hload Hopen. unfold resolveBasisLZ, opens_lz in *. cbv zeta.
  rewrite Hload. unfold bindM at 1. unfold await, ret at 1.
  destruct (KTX2File m) as [ctor|].
  - unfold bindM, catch, construct, ret.
    destruct (ctor arrayBuffer) as [f'|]; destruct Hopen as [-> Hnew].
    + by subst f'.
    + by rewrite Hnew.
  - destruct Hopen as [-> Hnew]. unfold bindM, construct, ret. by rewrite Hnew.
Qed.

(** X12. Failures before the level loop of the Basis paths, once the
    module is loaded and a file object is constructed: when
    [startTranscoding] returns false, the raw path throws "Transcoder
    failed to initialize" and the BasisLZ path throws the longer message
    about missing KTX2 support; when a legacy [BasisFile] reports zero
    images, the BasisLZ path throws "File has no images". In all three
    the file object is closed and deleted before the throw. *)
Theorem basis_init_failure env arrayBuffer c m :
  parseContainer env arrayBuffer = Ok c ->
  loadBasisModule env = Returns m ->
  (forall k f,
     vkFormat (header c) = 0 ->
     supercompressionScheme (header c) = SUPERCOMPRESSION_NONE ->
     opens_raw m arrayBuffer k f ->
     startTranscoding f = Returns false ->
     run env arrayBuffer
     = (Err (Error "Transcoder failed to initialize"),
        [New k; Call_startTranscoding; Call_close; Call_delete]))
  /\ (forall k f,
        supercompressionScheme (header c) = SUPERCOMPRESSION_BASIS_LZ ->
        opens_lz m arrayBuffer k f ->
        startTranscoding f = Returns false ->
        run env arrayBuffer
        = (Err (Error "Transcoder failed to initialize. (Your basis_transcoder.wasm might lack KTX2 support)"),
           [New k; Call_startTranscoding; Call_close; Call_delete]))
  /\ (forall f,
        supercompressionScheme (header c) = SUPERCOMPRESSION_BASIS_LZ ->
        opens_lz m arrayBuffer false f ->
        startTranscoding f = Returns true ->
        getNumImages f = Some (Returns 0) ->
        run env arrayBuffer
        = (Err (Error "File has no images"),
           [New_BasisFile; Call_startTranscoding; Call_getNumImages;
            Call_close; Call_delete])).
Proof.
  intros Hc Hload. rewrite (run_of_container _ _ _ Hc). split; [|split].
  - intros k f Hf Hs Hopen Hstart.
    rewrite (resolve_raw _ _ _ Hf Hs), (resolveRawBasis_opens _ _ _ _ _ _ Hload Hopen).
    unfold rawSession. m_unfold. cbn [file]. by rewrite Hstart.
  - intros k f Hs Hopen Hstart.
    rewrite (resolve_lz _ _ _ Hs), (resolveBasisLZ_opens _ _ _ _ _ _ _ Hload Hopen).
    unfold lzSession. m_unfold. cbn [file]. by rewrite Hstart.
  - intros f Hs Hopen Hstart Himages.
    rewrite (resolve_lz _ _ _ Hs), (resolveBasisLZ_opens _ _ _ _ _ _ _ Hload Hopen).
    unfold lzSession. m_unfold. cbn [file isKTX2File]. rewrite Hstart.
    cbn [negb]. by rewrite Himages.
Qed.

Lemma basis_init_failure_witness :
  run (Sample.basis_env (Sample.ktx2_module Fixture.file_not_started))
    Sample.raw_basis_4
  = (Err (Error "Transcoder failed to initialize"),
     [New_KTX2File; Call_startTranscoding; Call_close; Call_delete])
  /\ run (Sample.basis_env (Sample.legacy_module Fixture.file_without_images))
       Sample.basis_lz_4
     = (Err (Error "File has no images"),
        [New_BasisFile; Call_startTranscoding; Call_getNumImages;
         Call_close; Call_delete]).
Proof.
  split.
  - destruct (basis_init_failure
                (Sample.basis_env (Sample.ktx2_module Fixture.file_not_started))
                Sample.raw_basis_4 Fixture.raw_basis_4_container
                (Sample.ktx2_module Fixture.file_not_started))
      as (Hraw & _ & _).
    + vm_compute. reflexivity.
    + reflexivity.
    + apply (Hraw true Fixture.file_not_started).
      * reflexivity.
      * reflexivity.
      * split; reflexivity.
      * reflexivity.
  - destruct (basis_init_failure
                (Sample.basis_env (Sample.legacy_module Fixture.file_without_images))
                Sample.basis_lz_4 Fixture.basis_lz_4_container
                (Sample.legacy_module Fixture.file_without_images))
      as (_ & _ & Hnone).
    + vm_compute. reflexivity.
    + reflexivity.
    + apply (Hnone Fixture.file_without_images).
      * reflexivity.
      * split; reflexivity.
      * reflexivity.
      * reflexivity.
Defined.

(** *** Which levels the transcoder is asked for *)

Import Attempts.

Lemma lzLoop_attempted h n i ls tr :
  exists r evs a,
    lzLoop h getBasisTargetFormatForGPU n i ls tr = (r, tr ++ evs)
    /\ attempted evs = seq i a /\ (a <= n)%nat.
Proof.
  revert i ls tr. induction n as [|n IH]; intros i ls tr.
  - exists (Ok ls), [], 0%nat. cbn [lzLoop]. unfold ret. by rewrite app_nil_r.
  - cbn [lzLoop]. unfold bindM at 1.
    destruct (lz_step h i tr) as (r & evs0 & Hstep & Hatt & _).
    rewrite Hstep.
    assert (exists r' evs a,
              (ret ls : M (list Level)) (tr ++ evs0) = (r', tr ++ evs)
              /\ attempted evs = seq i a /\ (a <= S n)%nat) as Hstop.
    { exists (Ok ls), evs0, 1%nat. split; [done|]. split; [done|lia]. }
    destruct r as [[[st dst] fmt]|]; [|done].
    destruct (st && bool_decide (0 < length dst)%nat); [|done].
    destruct (IH (S i) (alter (storeTranscoded dst fmt) i ls) (tr ++ evs0))
      as (r & evs1 & a & Hrun & Hatt1 & Ha).
    exists r, (evs0 ++ evs1), (S a). rewrite Hrun, app_assoc.
    split; [done|]. split; [|lia]. by rewrite attempted_app, Hatt, Hatt1.
Qed.

Lemma rawLoop_attempted h n i ls tr :
  exists r evs a,
    rawLoop h n i ls tr = (r, tr ++ evs)
    /\ attempted evs = seq i a /\ (a <= n)%nat.
Proof.
  revert i ls tr. induction n as [|n IH]; intros i ls tr.
  - exists (Ok ls), [], 0%nat. cbn [rawLoop]. unfold ret. by rewrite app_nil_r.
  - cbn [rawLoop]. unfold bindM at 1.
    destruct (transcodeLevel_events h i tr) as (r & evs0 & Hstep & Hatt & _).
    rewrite Hstep.
    assert (forall r' : result (list Level), exists evs a,
              (r', tr ++ evs0) = (r', tr ++ evs)
              /\ attempted evs = seq i a /\ (a <= S n)%nat) as Hstop.
    { intros r'. exists evs0, 1%nat. split; [done|]. split; [done|lia]. }
    destruct r as [[[st dst]|]|e];
      [|by eexists; apply Hstop|by eexists; apply Hstop].
    destruct (st && bool_decide (0 < length dst)%nat);
      [|by eexists; apply Hstop].
    destruct (IH (S i) (alter (storeTranscoded dst 13) i ls) (tr ++ evs0))
      as (r & evs1 & a & Hrun & Hatt1 & Ha).
    exists r, (evs0 ++ evs1), (S a). rewrite Hrun, app_assoc.
    split; [done|]. split; [|lia]. by rewrite attempted_app, Hatt, Hatt1.
Qed.

Lemma seq_within ls count tlc a i :
  (a <= Z.to_nat (Z.min (Z.of_nat (length ls)) tlc))%nat ->
  (forall n, count = Returns n -> tlc = n) ->
  i ∈ seq 0 a -> within ls count i.
Proof.
  intros Ha Hc Hi. apply elem_of_seq in Hi. split; [lia|].
  intros n Hn. rewrite <- (Hc n Hn). lia.
Qed.

Ltac no_attempt :=
  eexists; split;
  [ do 2 m_unfold; cbn; rewrite <- ?app_assoc; reflexivity
  | let i := fresh "i" in let Hi := fresh "Hi" in
    intros i Hi; simpl in Hi; by apply elem_of_nil in Hi ].

Lemma rawSession_attempted h ls tr :
  exists evs,
    (rawSession h ls tr).2 = tr ++ evs
    /\ forall i, i ∈ attempted evs -> within ls (getLevels (file h)) i.
Proof.
  unfold rawSession. unfold bindM at 1. unfold ext at 1.
  destruct (startTranscoding (file h)) as [[|]|]; cbn [negb].
  2: { m_unfold. no_attempt. }
  2: { no_attempt. }
  unfold bindM at 1. unfold ext at 1.
  destruct (getLevels (file h)) as [tlc|] eqn:Hlv.
  2: { no_attempt. }
  destruct (rawLoop_attempted h
              (Z.to_nat (Z.min (Z.of_nat (length ls)) tlc)) 0 ls
              ((tr ++ [Call_startTranscoding]) ++ [Call_getLevels]))
    as (r & evs & a & Hrun & Hatt & Ha).
  unfold bindM at 1. rewrite Hrun.
  assert (forall i, i ∈ attempted ([Call_startTranscoding; Call_getLevels] ++ evs)
                    -> within ls (Returns tlc) i) as Hin.
  { intros i Hi. rewrite attempted_app in Hi. simpl in Hi. rewrite Hatt in Hi.
    eapply seq_within; [exact Ha| |exact Hi]. by intros n [= ->]. }
  destruct r as [ls'|e].
  - do 2 m_unfold. eexists (([Call_startTranscoding; Call_getLevels] ++ evs)
                       ++ [Call_close; Call_delete]).
    split; [cbn; by rewrite <- ?app_assoc|].
    intros i Hi. rewrite attempted_app in Hi. simpl in Hi.
    rewrite app_nil_r in Hi. by apply Hin.
  - exists ([Call_startTranscoding; Call_getLevels] ++ evs).
    split; [cbn; by rewrite <- ?app_assoc|]. exact Hin.
Qed.

Lemma lzSession_attempted h ls tr :
  exists evs,
    (lzSession h ls tr).2 = tr ++ evs
    /\ forall i, i ∈ attempted evs -> within ls (getLevels (file h)) i.
Proof.
  unfold lzSession. unfold bindM at 1. unfold ext at 1.
  destruct (startTranscoding (file h)) as [[|]|]; cbn [negb].
  2: { no_attempt. }
  2: { no_attempt. }
  assert (exists ni r,
            (if isKTX2File h then ret 1
             else match getNumImages (file h) with
                  | Some c => ext Call_getNumImages c
                  | None => ret 1
                  end) (tr ++ [Call_startTranscoding])
            = (r, (tr ++ [Call_startTranscoding]) ++ ni)
            /\ attempted ni = []) as (ni & r & Hq & Hni).
  { destruct (isKTX2File h); [exists [], (Ok 1); by rewrite app_nil_r|].
    destruct (getNumImages (file h)) as [[n|]|].
    - by exists [Call_getNumImages], (Ok n).
    - by exists [Call_getNumImages], (Err Thrown).
    - exists [], (Ok 1). by rewrite app_nil_r. }
  unfold bindM at 1. rewrite Hq.
  destruct r as [imageCount|e].
  2: { exists ([Call_startTranscoding] ++ ni). split; [cbn; by rewrite <- ?app_assoc|].
       intros i Hi. rewrite attempted_app, Hni in Hi. by apply elem_of_nil in Hi. }
  destruct (imageCount =? 0).
  { do 2 m_unfold. exists ([Call_startTranscoding] ++ ni ++ [Call_close; Call_delete]).
    split; [cbn; by rewrite <- ?app_assoc|].
    intros i Hi. rewrite !attempted_app, Hni in Hi. by apply elem_of_nil in Hi. }
  unfold bindM at 1.
  assert (exists tlc,
            catch (ext Call_getLevels (getLevels (file h))) (fun _ => ret 1)
              ((tr ++ [Call_startTranscoding]) ++ ni)
            = (Ok tlc, ((tr ++ [Call_startTranscoding]) ++ ni) ++ [Call_getLevels])
            /\ forall n, getLevels (file h) = Returns n -> tlc = n)
    as (tlc & Hlv & Htlc).
  { unfold catch, ext, ret. destruct (getLevels (file h)) as [n|].
    - exists n. split; [done|]. by intros ? [= ->].
    - exists 1. split; [done|]. intros ? [=]. }
  rewrite Hlv.
  destruct (lzLoop_attempted h
              (Z.to_nat (Z.min (Z.of_nat (length ls)) tlc)) 0 ls
              (((tr ++ [Call_startTranscoding]) ++ ni) ++ [Call_getLevels]))
    as (r & evs & a & Hrun & Hatt & Ha).
  unfold bindM at 1. rewrite Hrun.
  assert (forall i, i ∈ attempted ([Call_startTranscoding] ++ ni
                                   ++ [Call_getLevels] ++ evs)
                    -> within ls (getLevels (file h)) i) as Hin.
  { intros i Hi. rewrite !attempted_app, Hni in Hi. simpl in Hi. rewrite Hatt in Hi.
    eapply seq_within; [exact Ha|exact Htlc|exact Hi]. }
  destruct r as [ls'|e].
  - do 2 m_unfold. eexists (([Call_startTranscoding] ++ ni ++ [Call_getLevels] ++ evs)
                       ++ [Call_close; Call_delete]).
    split; [cbn; by rewrite <- ?app_assoc|].
    intros i Hi. rewrite attempted_app in Hi. simpl in Hi.
    rewrite app_nil_r in Hi. by apply Hin.
  - exists ([Call_startTranscoding] ++ ni ++ [Call_getLevels] ++ evs).
    split; [cbn; by rewrite <- ?app_assoc|]. exact Hin.
Qed.



(** X14. Once the module is loaded, the file object constructed and
    [startTranscoding] returns true, and the file is a [KTX2File] or
    reports a non-zero image count (or has no [getNumImages]), the BasisLZ
    path always returns a texture: a failure of [getLevels] or of any
    level inside the loop is caught and never reaches the caller. *)
Theorem basisLZ_returns env arrayBuffer c m k f :
  parseContainer env arrayBuffer = Ok c ->
  supercompressionScheme (header c) = SUPERCOMPRESSION_BASIS_LZ ->
  loadBasisModule env = Returns m ->
  opens_lz m arrayBuffer k f ->
  startTranscoding f = Returns true ->
  (k = true \/ getNumImages f = None
   \/ exists n, getNumImages f = Some (Returns n) /\ n <> 0) ->
  exists pt tr, run env arrayBuffer = (Ok pt, tr).
Proof.
  intros Hc Hs Hload Hopen Hstart Himages.
  destruct (lzSession_returns {| isKTX2File := k; file := f |} (levels c) [New k]
              Hstart Himages) as (ls' & tr' & Hrun).
  eexists _, tr'. apply (parseKTX2_compose _ _ _ ls' _ Hc).
  by rewrite (resolve_lz _ _ _ Hs), (resolveBasisLZ_opens _ _ _ _ _ _ _ Hload Hopen).
Qed.

Lemma basisLZ_returns_witness :
  exists pt tr, run Sample.throwing_env Sample.basis_lz_4 = (Ok pt, tr).
Proof.
  apply (basisLZ_returns Sample.throwing_env Sample.basis_lz_4
           Fixture.basis_lz_4_container
           (Sample.ktx2_module Sample.file_throws_at_1) true
           Sample.file_throws_at_1).
  - vm_compute. reflexivity.
  - reflexivity.
  - reflexivity.
  - split; reflexivity.
  - reflexivity.
  - by left.
Defined.

(** *** Instances of the lemmas on truncated level lists and on the
    release of the handle *)

Lemma basis_levels_truncated_witness :
  exists n a,
    (n <= length (levels Fixture.fails_at_2_run.1))%nat
    /\ attempted Fixture.fails_at_2_run.2 = seq 0 a /\ (n <= a <= n + 1)%nat
    /\ geometry <$> levels Fixture.fails_at_2_run.1
       = geometry <$> levels Fixture.raw_basis_4_container
    /\ forall i lvl, levels Fixture.fails_at_2_run.1 !! i = Some lvl ->
         if decide (i < n)%nat then decoded lvl else untouched lvl.
Proof.
  apply (basis_levels_truncated Fixture.fails_at_2_env Sample.raw_basis_4).
  - vm_compute. reflexivity.
  - left. split; reflexivity.
  - vm_compute. reflexivity.
Defined.

Lemma basisLZ_releases_handle_witness :
  released (run Sample.throwing_env Sample.basis_lz_4).2 = true.
Proof.
  apply (basisLZ_releases_handle Sample.throwing_env Sample.basis_lz_4
           Fixture.basis_lz_4_container).
  - vm_compute. reflexivity.
  - reflexivity.
  - intros m k f [= <-] Hopen. simpl in Hopen. destruct Hopen as [_ <-].
    split; discriminate.
Defined.


Import Main.

(** ** Further properties of the float downconversion *)

(** X18. [float32ToFloat16] never produces a half NaN: the result has the
    exponent field 31 exactly when the exponent field of the input is 143
    or more, and its mantissa is then 0. In particular a float NaN is
    converted to plus or minus infinity. *)
Theorem float32ToFloat16_never_nan x :
  0 <= x < 2 ^ 32 ->
  let h := float32ToFloat16 x in
  (f16_exp h = 31 <-> 143 <= f32_exp x)
  /\ (f16_exp h = 31 -> f16_man h = 0)
  /\ (is_nan32 x = true -> h mod 2 ^ 15 = 31744).
Proof.
  intros Hx h. unfold h. rewrite float32ToFloat16_fields by done. cbv zeta.
  destruct (f32_fields x Hx) as (_ & Hs & HE & HEr & Hm & _).
  assert (is_nan32 x = true -> 143 <= f32_exp x) as Hnan.
  { unfold is_nan32. intros [H _]%andb_prop. apply Z.eqb_eq in H.
    rewrite HE. change (2 ^ 8) with 256. lia. }
  rewrite HE in *.
  set (s := x / 2 ^ 31) in *. set (E := (x / 2 ^ 23) mod 2 ^ 8) in *.
  set (m := (x / 2 ^ 13) mod 2 ^ 10) in *.
  destruct (Z.leb_spec E 112) as [Hle|Hgt].
  - destruct (Z.ltb_spec E 102) as [Hzero|Hsub].
    + replace (s * 2 ^ 15) with (s * 2 ^ 15 + 0 * 2 ^ 10 + 0) by lia.
      destruct (f16_fields s 0 0) as (_ & _ & He & _ & _); [lia..|].
      rewrite He. repeat split; intros;
        try match goal with H : is_nan32 _ = true |- _ => apply Hnan in H end; lia.
    + assert (0 < 2 ^ (113 - E)) as HT by (apply Z.pow_pos_nonneg; lia).
      assert (2 <= 2 ^ (113 - E)) as HT2
        by (change 2 with (2 ^ 1) at 1; apply Z.pow_le_mono_r; lia).
      assert (0 <= (2 ^ 10 + m) / 2 ^ (113 - E) < 1024) as Hq.
      { split; [apply Z.div_pos; lia|].
        apply Z.div_lt_upper_bound; [done|]. change (2 ^ 10) with 1024. nia. }
      set (q := (2 ^ 10 + m) / 2 ^ (113 - E)) in *.
      replace (s * 2 ^ 15 + q) with (s * 2 ^ 15 + 0 * 2 ^ 10 + q) by lia.
      destruct (f16_fields s 0 q) as (_ & _ & He & _ & _); [lia..|].
      rewrite He. repeat split; intros;
        try match goal with H : is_nan32 _ = true |- _ => apply Hnan in H end; lia.
  - destruct (Z.leb_spec 143 E) as [Hinf|Hnorm].
    + replace (s * 2 ^ 15 + 31 * 2 ^ 10) with (s * 2 ^ 15 + 31 * 2 ^ 10 + 0) by lia.
      destruct (f16_fields s 31 0) as (_ & _ & He & Hman & Habs); [lia..|].
      rewrite He, Hman, Habs. repeat split; intros; (done || lia).
    + destruct (f16_fields s (E - 112) m) as (_ & _ & He & _ & _); [lia..|].
      rewrite He. repeat split; intros;
        try match goal with H : is_nan32 _ = true |- _ => apply Hnan in H end; lia.
Qed.

Lemma float32ToFloat16_never_nan_witness :
  is_nan32 2143289344 = true /\ float32ToFloat16 2143289344 mod 2 ^ 15 = 31744.
Proof.
  split; [reflexivity|].
  apply (float32ToFloat16_never_nan 2143289344); [lia | reflexivity].
Defined.

(** *** Order *)

(** The half pattern of a non-negative float with exponent field [E] and
    leading mantissa bits [m], class by class. *)
Lemma half_class E m :
  0 <= E < 256 -> 0 <= m < 1024 ->
  let g := if E <=? 112 then
             if E <? 102 then 0 else (2 ^ 10 + m) / 2 ^ (113 - E)
           else if 143 <=? E then 31 * 2 ^ 10
           else (E - 112) * 2 ^ 10 + m in
  (E < 102 -> g = 0)
  /\ (102 <= E <= 112 -> 2 ^ (E - 102) <= 2 * g + 1 /\ g < 2 ^ (E - 102))
  /\ (113 <= E <= 142 -> (E - 112) * 1024 <= g <= (E - 112) * 1024 + 1023)
  /\ (143 <= E -> g = 31744).
Proof.
  intros HE Hm g. unfold g. change (2 ^ 10) with 1024.
  destruct (Z.leb_spec E 112) as [Hle|Hgt].
  - destruct (Z.ltb_spec E 102) as [Hzero|Hsub].
    + repeat split; intros; lia.
    + split; [lia|]. split; [|lia]. intros _.
      set (t := 113 - E).
      assert (0 < 2 ^ t) as HT by (apply Z.pow_pos_nonneg; lia).
      assert (2 ^ (E - 102) * 2 ^ t = 2048) as Hpow.
      { rewrite <- Z.pow_add_r by lia. replace (E - 102 + t) with 11 by lia. done. }
      assert (0 < 2 ^ (E - 102)) as HP by (apply Z.pow_pos_nonneg; lia).
      set (q := (1024 + m) / 2 ^ t).
      assert (q * 2 ^ t <= 1024 + m < (q + 1) * 2 ^ t) as Hq.
      { unfold q. pose proof (Z.div_mod (1024 + m) (2 ^ t)) as Hd.
        pose proof (Z.mod_pos_bound (1024 + m) (2 ^ t) HT). lia. }
      set (P := 2 ^ (E - 102)) in *. set (T := 2 ^ t) in *.
      split; nia.
  - destruct (Z.leb_spec 143 E); repeat split; intros; lia.
Qed.

Lemma float32ToFloat16_sign x :
  0 <= x < 2 ^ 31 -> float32ToFloat16 (x + 2 ^ 31) = float32ToFloat16 x + 2 ^ 15.
Proof.
  intros Hx.
  rewrite (float32ToFloat16_fields x), (float32ToFloat16_fields (x + 2 ^ 31))
    by (change (2 ^ 32) with (2 * 2 ^ 31); lia).
  cbv zeta.
  replace ((x + 2 ^ 31) / 2 ^ 31) with 1.
  2: { change (2 ^ 31) with 2147483648 in *. Z.div_mod_to_equations. lia. }
  replace (x / 2 ^ 31) with 0.
  2: { change (2 ^ 31) with 2147483648 in *. Z.div_mod_to_equations. lia. }
  replace (((x + 2 ^ 31) / 2 ^ 23) mod 2 ^ 8) with ((x / 2 ^ 23) mod 2 ^ 8).
  2: { change (2 ^ 31) with 2147483648 in *. change (2 ^ 23) with 8388608.
       change (2 ^ 8) with 256. Z.div_mod_to_equations. lia. }
  replace (((x + 2 ^ 31) / 2 ^ 13) mod 2 ^ 10) with ((x / 2 ^ 13) mod 2 ^ 10).
  2: { change (2 ^ 31) with 2147483648 in *. change (2 ^ 13) with 8192.
       change (2 ^ 10) with 1024. Z.div_mod_to_equations. lia. }
  repeat match goal with |- context [if ?b then _ else _] => destruct b end; lia.
Qed.

Lemma float32ToFloat16_monotone_pos x y :
  0 <= x <= y -> y < 2 ^ 31 -> float32ToFloat16 x <= float32ToFloat16 y.
Proof.
  intros Hxy Hy.
  rewrite (float32ToFloat16_fields x), (float32ToFloat16_fields y)
    by (change (2 ^ 32) with (2 * 2 ^ 31); lia).
  cbv zeta.
  replace (x / 2 ^ 31) with 0.
  2: { change (2 ^ 31) with 2147483648 in *. Z.div_mod_to_equations. lia. }
  replace (y / 2 ^ 31) with 0.
  2: { change (2 ^ 31) with 2147483648 in *. Z.div_mod_to_equations. lia. }
  rewrite !Z.mul_0_l, !Z.add_0_l.
  assert (0 <= (x / 2 ^ 23) mod 2 ^ 8 < 256 /\ 0 <= (x / 2 ^ 13) mod 2 ^ 10 < 1024
          /\ 0 <= (y / 2 ^ 23) mod 2 ^ 8 < 256 /\ 0 <= (y / 2 ^ 13) mod 2 ^ 10 < 1024
          /\ ((x / 2 ^ 23) mod 2 ^ 8 < (y / 2 ^ 23) mod 2 ^ 8
              \/ (x / 2 ^ 23) mod 2 ^ 8 = (y / 2 ^ 23) mod 2 ^ 8
                 /\ (x / 2 ^ 13) mod 2 ^ 10 <= (y / 2 ^ 13) mod 2 ^ 10))
    as (HEx & Hmx & HEy & Hmy & Hord).
  { change (2 ^ 31) with 2147483648 in *. change (2 ^ 23) with 8388608.
    change (2 ^ 13) with 8192. change (2 ^ 10) with 1024. change (2 ^ 8) with 256.
    Z.div_mod_to_equations. lia. }
  set (Ex := (x / 2 ^ 23) mod 2 ^ 8) in *. set (mx := (x / 2 ^ 13) mod 2 ^ 10) in *.
  set (Ey := (y / 2 ^ 23) mod 2 ^ 8) in *. set (my := (y / 2 ^ 13) mod 2 ^ 10) in *.
  pose proof (half_class Ex mx HEx Hmx) as (Hx0 & Hx1 & Hx2 & Hx3).
  pose proof (half_class Ey my HEy Hmy) as (Hy0 & Hy1 & Hy2 & Hy3).
  cbv zeta in *.
  destruct Hord as [Hlt | [Heq Hm]].
  - destruct (Z.lt_ge_cases Ex 102); [rewrite Hx0 by done|].
    { destruct (Z.lt_ge_cases Ey 102); [rewrite Hy0 by done; lia|].
      destruct (Z.le_gt_cases Ey 112).
      - assert (0 < 2 ^ (Ey - 102)) by (apply Z.pow_pos_nonneg; lia). lia.
      - destruct (Z.le_gt_cases Ey 142); lia. }
    destruct (Z.le_gt_cases Ex 112).
    { destruct (Hx1 ltac:(lia)) as [_ Hxu].
      assert (2 ^ (Ex - 102) <= 1024) as Hcap
        by (change 1024 with (2 ^ 10); apply Z.pow_le_mono_r; lia).
      destruct (Z.le_gt_cases Ey 112).
      - destruct (Hy1 ltac:(lia)) as [Hyl _].
        assert (2 * 2 ^ (Ex - 102) <= 2 ^ (Ey - 102)) as Hpow.
        { rewrite <- Z.pow_succ_r by lia. apply Z.pow_le_mono_r; lia. }
        lia.
      - destruct (Z.le_gt_cases Ey 142); lia. }
    destruct (Z.le_gt_cases Ex 142).
    { destruct (Z.le_gt_cases Ey 142); lia. }
    lia.
  - rewrite <- Heq.
    destruct (Z.leb_spec Ex 112).
    + destruct (Z.ltb_spec Ex 102); [lia|].
      apply Z.div_le_mono; [apply Z.pow_pos_nonneg; lia|lia].
    + destruct (Z.leb_spec 143 Ex); lia.
Qed.

(** X19. [float32ToFloat16] keeps the order of bit patterns of equal sign:
    for non-negative floats, where the order of the patterns is the order
    of the values, a larger input never gives a smaller half. *)
Theorem float32ToFloat16_monotone x y :
  0 <= x <= y -> y < 2 ^ 32 -> f32_sign x = f32_sign y ->
  float32ToFloat16 x <= float32ToFloat16 y.
Proof.
  intros Hxy Hy Hsign.
  destruct (f32_fields x ltac:(lia)) as (Hsx & _).
  destruct (f32_fields y ltac:(lia)) as (Hsy & _).
  rewrite Hsx, Hsy in Hsign.
  destruct (Z.lt_ge_cases y (2 ^ 31)) as [Hpos|Hneg].
  - by apply float32ToFloat16_monotone_pos.
  - assert (2 ^ 31 <= x) as Hx.
    { change (2 ^ 31) with 2147483648 in *. change (2 ^ 32) with 4294967296 in *.
      revert Hsign. Z.div_mod_to_equations. lia. }
    replace x with (x - 2 ^ 31 + 2 ^ 31) by lia.
    replace y with (y - 2 ^ 31 + 2 ^ 31) by lia.
    rewrite !float32ToFloat16_sign by (change (2 ^ 32) with (2 * 2 ^ 31) in Hy; lia).
    apply Z.add_le_mono_r. apply float32ToFloat16_monotone_pos; [lia|].
    change (2 ^ 32) with (2 * 2 ^ 31) in Hy. lia.
Qed.

Lemma float32ToFloat16_monotone_witness :
  float32ToFloat16 1065353216 <= float32ToFloat16 1065361407.
Proof.
  apply float32ToFloat16_monotone; [lia | lia | reflexivity].
Defined.

(** *** Exact conversions *)

(** X20. [float32ToFloat16] is exact on the floats a normal half can
    hold: when the exponent field lies in 113..142 and the 13 low bits of
    the mantissa are zero, the half has the same value as the float. *)
Theorem float32ToFloat16_exact x :
  0 <= x < 2 ^ 32 ->
  113 <= f32_exp x <= 142 ->
  f32_man x mod 2 ^ 13 = 0 ->
  f16_value (float32ToFloat16 x) = f32_value x.
Proof.
  intros Hx HE Hlow.
  rewrite float32ToFloat16_fields by done. cbv zeta.
  destruct (f32_fields x Hx) as (Hsign & Hs & HE' & HEr & Hm & HM).
  unfold f32_value, f16_value, f32_mag. rewrite Hsign. rewrite HE' in *.
  assert (f32_man x = (x / 2 ^ 13) mod 2 ^ 10 * 8192) as HMeq.
  { revert Hlow. unfold f32_man.
    change (2 ^ 32) with 4294967296 in Hx. change (2 ^ 23) with 8388608.
    change (2 ^ 13) with 8192. change (2 ^ 10) with 1024.
    Z.div_mod_to_equations. lia. }
  rewrite HMeq. clear HM HMeq Hlow.
  set (s := x / 2 ^ 31) in *. set (E := (x / 2 ^ 23) mod 2 ^ 8) in *.
  set (m := (x / 2 ^ 13) mod 2 ^ 10) in *.
  destruct (Z.leb_spec E 112); [lia|].
  destruct (Z.leb_spec 143 E); [lia|].
  destruct (Z.eqb_spec E 0); [lia|].
  destruct (f16_fields s (E - 112) m) as (_ & Hsg & _ & _ & _); [lia..|].
  rewrite Hsg, f16_mag_fields by lia.
  destruct (Z.eqb_spec (E - 112) 0); [lia|].
  replace (E - 112 - 1) with ((E - 1) - 112) by lia.
  replace 125 with (112 + 13) by lia.
  rewrite <- !Z.mul_assoc, <- !Z.pow_add_r by lia.
  replace (E - 1 - 112 + (112 + 13)) with ((E - 1) + 13) by lia.
  rewrite Z.pow_add_r by lia.
  change (2 ^ 13) with 8192. change (2 ^ 23) with 8388608. change (2 ^ 10) with 1024.
  ring.
Qed.

Lemma float32ToFloat16_exact_witness :
  f16_value (float32ToFloat16 3221225472) = f32_value 3221225472.
Proof.
  apply float32ToFloat16_exact; [lia | vm_compute; split; discriminate | reflexivity].
Defined.

(** *** A converted pixel *)


Import MediaRead.

(** ** The format table and the correction, on every input *)

(** Every entry of the format table is either a block format (block of
    4x4 to 6x6 texels in 8 or 16 bytes) or a pixel format (4 or 8 bytes
    per pixel), never both. *)
Lemma vkFormatToWebGPU_shape vkFormat fi :
  vkFormatToWebGPU vkFormat = Some fi ->
  23 <= vkFormat <= 166
  /\ ((exists bw bh bpb,
         blockWidth fi = Some bw /\ blockHeight fi = Some bh
         /\ bytesPerBlock fi = Some bpb
         /\ 4 <= bw <= 6 /\ 4 <= bh <= bw /\ (bpb = 8 \/ bpb = 16)
         /\ bytesPerPixel fi = None /\ sourceChannels fi = None
         /\ sourceBytesPerPixel fi = None)
      \/ (exists bpp,
            bytesPerPixel fi = Some bpp /\ (bpp = 4 \/ bpp = 8)
            /\ blockWidth fi = None /\ blockHeight fi = None
            /\ bytesPerBlock fi = None
            /\ (sourceChannels fi = None \/ sourceChannels fi = Some 3 /\ bpp = 4)
            /\ (sourceBytesPerPixel fi = None
                \/ sourceBytesPerPixel fi = Some 16 /\ bpp = 8))).
Proof.
  unfold vkFormatToWebGPU. intros H.
  repeat case_match; try discriminate H; injection H as <-;
    (split; [lia|]); cbn;
    first [ solve [left; eexists _, _, _; repeat split; (reflexivity || lia || auto)]
          | solve [right; eexists; repeat split; (reflexivity || lia || auto)] ].
Qed.

Lemma applyDFDCorrections_agree fi d vkFormat b :
  truthy (blockWidth fi) = true ->
  Read.bytesPlane d !! 0%nat = Some b -> b <> 0 ->
  bytesPerBlock fi = Some b ->
  applyDFDCorrections (Some fi) (Some d) vkFormat = Some fi.
Proof.
  intros Hbw Hb0 Hnz Hb. unfold applyDFDCorrections.
  rewrite Hbw, Hb0. simpl.
  destruct (Z.eqb_spec b 0) as [|_]; [done|]. simpl.
  by rewrite bool_decide_true by done.
Qed.

Lemma applyDFDCorrections_skip fi d vkFormat :
  truthy (blockWidth fi) = false \/ truthy (Read.bytesPlane d !! 0%nat) = false ->
  applyDFDCorrections (Some fi) (Some d) vkFormat = Some fi.
Proof.
  intros H. unfold applyDFDCorrections.
  destruct H as [-> | ->]; [done|]. by rewrite andb_false_r.
Qed.


Import Main.

(** ** Rows of blocks *)

Lemma ceil_div_spec a b :
  (0 < b)%nat ->
  (a <= Upload.ceil_div a b * b /\ (0 < a -> (Upload.ceil_div a b - 1) * b < a))%nat.
Proof.
  intros Hb. unfold Upload.ceil_div.
  pose proof (Nat.div_mod_eq (a + b - 1) b) as E.
  pose proof (Nat.mod_upper_bound (a + b - 1) b ltac:(lia)) as Hr.
  split; [nia|]. intros Ha.
  assert (1 <= (a + b - 1) / b)%nat by (apply Nat.div_le_lower_bound; lia).
  nia.
Qed.

(** X22. For positive block dimensions [padBlockRowsBC] returns, and its
    result is that of [padRows] on the grid of blocks: ceil(width /
    blockWidth) by ceil(height / blockHeight) blocks (one at least), each
    block taken as one pixel of [bytesPerBlock] bytes. [rowsPerImage] is
    the number of block rows, [bytesPerRow] a multiple of 256, and the
    grid is the smallest one that covers the image. *)
Theorem padBlockRowsBC_spec src width height bytesPerBlock blockWidth blockHeight :
  (0 < blockWidth)%nat -> (0 < blockHeight)%nat ->
  let wBlocks := Nat.max 1 (Upload.ceil_div width blockWidth) in
  let hBlocks := Nat.max 1 (Upload.ceil_div height blockHeight) in
  exists p q,
    Upload.padBlockRowsBC src width height bytesPerBlock blockWidth blockHeight = Ok p
    /\ padRows src wBlocks hBlocks bytesPerBlock = Ok q
    /\ Upload.data p = Main.data q
    /\ Upload.bytesPerRow p = Main.bytesPerRow q
    /\ Upload.rowsPerImage p = hBlocks
    /\ (Upload.bytesPerRow p mod 256 = 0)%nat
    /\ (width <= wBlocks * blockWidth /\ height <= hBlocks * blockHeight)%nat
    /\ (0 < width -> (wBlocks - 1) * blockWidth < width)%nat
    /\ (0 < height -> (hBlocks - 1) * blockHeight < height)%nat.
Proof.
  intros Hbw Hbh wBlocks hBlocks.
  destruct (padRows_correct src wBlocks hBlocks bytesPerBlock)
    as (q & Hq & Hrow & _).
  pose proof (ceil_div_spec width blockWidth Hbw) as [Hw1 Hw2].
  pose proof (ceil_div_spec height blockHeight Hbh) as [Hh1 Hh2].
  unfold Upload.padBlockRowsBC. fold wBlocks hBlocks.
  unfold padRows in Hq.
  destruct (decide (align256 (wBlocks * bytesPerBlock) = (wBlocks * bytesPerBlock)%nat))
    as [E|E].
  - injection Hq as <-. eexists _, _. split; [reflexivity|].
    unfold padRows. rewrite decide_True by done. split; [reflexivity|].
    cbn. repeat split; try done; try (unfold wBlocks, hBlocks; nia).
    rewrite <- E. apply align256_multiple.
  - destruct (for_range hBlocks 0 _ _) as [dst|e] eqn:Hloop; [|discriminate Hq].
    cbn [JS.bind] in Hq. injection Hq as <-.
    eexists _, _. cbn [JS.bind]. split; [reflexivity|].
    unfold padRows. rewrite decide_False by done. rewrite Hloop. cbn [JS.bind].
    split; [reflexivity|].
    cbn. repeat split; try done; try (unfold wBlocks, hBlocks; nia).
    apply align256_multiple.
Qed.

Lemma padBlockRowsBC_spec_witness :
  exists p q,
    Upload.padBlockRowsBC (replicate 32 xff%byte) 7 5 8 4 4 = Ok p
    /\ padRows (replicate 32 xff%byte) 2 2 8 = Ok q
    /\ Upload.data p = Main.data q
    /\ Upload.bytesPerRow p = Main.bytesPerRow q
    /\ Upload.rowsPerImage p = 2%nat
    /\ (Upload.bytesPerRow p mod 256 = 0)%nat
    /\ (7 <= 2 * 4 /\ 5 <= 2 * 4)%nat
    /\ (0 < 7 -> (2 - 1) * 4 < 7)%nat
    /\ (0 < 5 -> (2 - 1) * 4 < 5)%nat.
Proof.
  apply (padBlockRowsBC_spec (replicate 32 xff%byte) 7 5 8 4 4); lia.
Defined.

(** ** Expansion of three-channel pixels *)

Lemma insert4 {A} (pre post : list A) x0 x1 x2 x3 a b c d k :
  length pre = (k * 4)%nat ->
  <[(k * 4 + 3)%nat := d]>
    (<[(k * 4 + 2)%nat := c]>
       (<[(k * 4 + 1)%nat := b]>
          (<[(k * 4 + 0)%nat := a]> (pre ++ x0 :: x1 :: x2 :: x3 :: post))))
  = pre ++ a :: b :: c :: d :: post.
Proof.
  intros Hlen.
  rewrite !insert_app_r_alt by (rewrite ?length_insert; lia).
  rewrite Hlen.
  replace (k * 4 + 0 - k * 4)%nat with 0%nat by lia.
  replace (k * 4 + 1 - k * 4)%nat with 1%nat by lia.
  replace (k * 4 + 2 - k * 4)%nat with 2%nat by lia.
  replace (k * 4 + 3 - k * 4)%nat with 3%nat by lia.
  reflexivity.
Qed.

(** X23. The expansion of three-channel pixels writes, for each pixel,
    its three source bytes followed by 255; a source byte that is missing
    (a source shorter than three bytes per pixel) is written as 0. *)
Theorem expandRGB_spec raw pixelCount :
  Upload.expandRGB raw pixelCount
  = flat_map (fun p => [Upload.byte_at raw (p * 3); Upload.byte_at raw (p * 3 + 1);
                        Upload.byte_at raw (p * 3 + 2); xff%byte])
      (seq 0 pixelCount).
Proof.
  unfold Upload.expandRGB.
  set (pix := fun p : nat => [Upload.byte_at raw (p * 3); Upload.byte_at raw (p * 3 + 1);
                              Upload.byte_at raw (p * 3 + 2); xff%byte]).
  set (step := fun (rgba : list byte) (p : nat) => _).
  assert (forall k, (k <= pixelCount)%nat ->
            foldl step (new_Uint8Array (pixelCount * 4)) (seq 0 k)
            = flat_map pix (seq 0 k) ++ replicate ((pixelCount - k) * 4) zero_byte)
    as Hinv.
  { induction k as [|k IH]; intros Hk.
    - simpl. by rewrite Nat.sub_0_r.
    - rewrite seq_S, foldl_app, flat_map_app, IH by lia. simpl.
      replace ((pixelCount - k) * 4)%nat with (S (S (S (S ((pixelCount - S k) * 4)))))
        by lia.
      cbn [replicate]. unfold step.
      rewrite insert4.
      + rewrite <- app_assoc. unfold pix. simpl.
        by rewrite Nat.add_0_r.
      + clear. induction k as [|k IH]; [done|].
        rewrite seq_S, flat_map_app, length_app, IH. simpl. lia. }
  rewrite Hinv by lia. rewrite Nat.sub_diag. simpl. by rewrite app_nil_r.
Qed.

(** ** The KTX2 loader *)

Lemma padBlockRowsBC_returns src width height bytesPerBlock blockWidth blockHeight :
  exists p,
    Upload.padBlockRowsBC src width height bytesPerBlock blockWidth blockHeight = Ok p
    /\ (Upload.bytesPerRow p mod 256 = 0)%nat.
Proof.
  set (wBlocks := Nat.max 1 (Upload.ceil_div width blockWidth)).
  set (hBlocks := Nat.max 1 (Upload.ceil_div height blockHeight)).
  destruct (padRows_correct src wBlocks hBlocks bytesPerBlock) as (q & Hq & _).
  unfold Upload.padBlockRowsBC. fold wBlocks hBlocks.
  unfold padRows in Hq.
  destruct (decide _) as [E|E].
  - eexists. split; [reflexivity|]. cbn. rewrite <- E. apply align256_multiple.
  - destruct (for_range hBlocks 0 _ _) as [dst|e]; [|discriminate Hq].
    eexists. split; [reflexivity|]. cbn. apply align256_multiple.
Qed.

Lemma padRows_returns src width height bytesPerPixel :
  exists p,
    padRows src width height bytesPerPixel = Ok p
    /\ (Main.bytesPerRow p mod 256 = 0)%nat.
Proof.
  destruct (padRows_correct src width height bytesPerPixel) as (p & Hp & Hrow & _).
  exists p. split; [done|]. rewrite Hrow. apply align256_multiple.
Qed.

Import Upload.

Lemma uploadLevel_one nan_bits sel buf i lvl cmds :
  uploads sel ->
  Upload.uploadLevel nan_bits sel buf i lvl = Ok cmds ->
  exists c, cmds = [c] /\ aligned_write i c.
Proof.
  intros Hsel. unfold Upload.uploadLevel. intros H.
  inv_bind H.
  destruct (Upload.isPixel sel) eqn:Hpix.
  - inv_bind H.
    match type of H with
    | context [padRows ?s ?w ?h ?b] =>
        destruct (padRows_returns s w h b) as (p & Hp & Hrow); rewrite Hp in H
    end.
    cbn [JS.bind] in H. injection H as <-. eexists. split; [reflexivity|]. done.
  - destruct Hsel as [Hs|Hs]; [congruence|]. rewrite Hs in H.
    match type of H with
    | context [Upload.padBlockRowsBC ?s ?w ?h ?b ?bw ?bh] =>
        destruct (padBlockRowsBC_returns s w h b bw bh) as (p & Hp & Hrow);
        rewrite Hp in H
    end.
    cbn [JS.bind] in H. injection H as <-. eexists. split; [reflexivity|]. done.
Qed.

Lemma uploadLevels_writes nan_bits sel buf i levels cmds :
  uploads sel ->
  Upload.uploadLevels nan_bits sel buf i levels = (Ok tt, cmds) ->
  length cmds = length levels
  /\ forall k c, cmds !! k = Some c -> aligned_write (i + k) c.
Proof.
  intros Hsel. revert i cmds. induction levels as [|lvl rest IH]; intros i cmds H.
  - injection H as <-. split; [done|]. intros k c Hk. discriminate Hk.
  - cbn [Upload.uploadLevels] in H.
    destruct (Upload.uploadLevel nan_bits sel buf i lvl) as [c1|e] eqn:Hone;
      [|discriminate H].
    destruct (Upload.uploadLevels nan_bits sel buf (S i) rest) as [r more] eqn:Hrest.
    injection H as -> <-.
    destruct (uploadLevel_one _ _ _ _ _ _ Hsel Hone) as (c & -> & Hc).
    destruct (IH _ _ Hrest) as (Hlen & Hall).
    split; [simpl; by rewrite Hlen|].
    intros [|k] c' Hk.
    + injection Hk as <-. by rewrite Nat.add_0_r.
    + replace (i + S k)%nat with (S i + k)%nat by lia. by apply Hall.
Qed.

Lemma selectFormat_uploads features table header levels sel :
  (forall vk fi, table vk = Some fi ->
     MediaRead.truthy (MediaRead.bytesPerPixel fi) = true
     \/ MediaRead.truthy (MediaRead.blockWidth fi) = true) ->
  Upload.selectFormat features table header levels = Ok sel ->
  uploads sel.
Proof.
  intros Htable. unfold Upload.selectFormat. intros H.
  inv_bind H.
  assert (uploads a) as Ha.
  { clear H.
    destruct (match levels !! 0%nat with
              | Some l => Read.isDecompressed l
              | None => false
              end).
    - repeat case_match; injection E as <-; (by left) || (by right).
    - destruct (_ && Upload.etc2 features); [injection E as <-; by right|].
      destruct (table (Read.vkFormat header)) as [fi|] eqn:Ht; [|discriminate E].
      injection E as <-. unfold uploads. cbn. by eapply Htable. }
  repeat case_match; try discriminate H; by injection H as <-.
Qed.

(** X25. When the upload part of [loadKTX2_ToTexture] completes (with a
    format table whose entries are pixel or block formats, as the table
    of read.js is), the device received one [createTexture] with the
    width and height of the header and one mip level per level of the
    file, followed by exactly one [writeTexture] per level, in ascending
    order of mip level, each with a [bytesPerRow] that is a multiple of
    256. *)
Theorem upload_one_write_per_level features nan_bits table buf pt cmds :
  (forall vk fi, table vk = Some fi ->
     MediaRead.truthy (MediaRead.bytesPerPixel fi) = true
     \/ MediaRead.truthy (MediaRead.blockWidth fi) = true) ->
  upload features nan_bits table buf pt = (Ok tt, cmds) ->
  exists format writes,
    cmds = createTexture (Read.pixelWidth (Read.header pt))
             (Read.pixelHeight (Read.header pt)) format
             (length (Read.levels pt)) :: writes
    /\ length writes = length (Read.levels pt)
    /\ forall i c, writes !! i = Some c -> aligned_write i c.
Proof.
  intros Htable. unfold upload. intros H.
  destruct (negb _); [discriminate H|].
  destruct (selectFormat features table (Read.header pt) (Read.levels pt))
    as [sel|e] eqn:Hsel; [|discriminate H].
  destruct (uploadLevels nan_bits sel buf 0 (Read.levels pt)) as [r writes] eqn:Hup.
  injection H as -> <-.
  pose proof (selectFormat_uploads _ _ _ _ _ Htable Hsel) as Hone.
  destruct (uploadLevels_writes _ _ _ _ _ _ Hone Hup) as (Hlen & Hall).
  eexists _, writes. split; [reflexivity|]. split; [done|]. exact Hall.
Qed.

(** The table of read.js has pixel and block formats only. *)
Lemma vkFormatToWebGPU_uploads vk fi :
  MediaRead.vkFormatToWebGPU vk = Some fi ->
  MediaRead.truthy (MediaRead.bytesPerPixel fi) = true
  \/ MediaRead.truthy (MediaRead.blockWidth fi) = true.
Proof.
  intros H. apply vkFormatToWebGPU_shape in H.
  destruct H as (_ & [(bw & bh & bpb & Hbw & _ & _ & Hr & _) | (bpp & Hbpp & Hr & _)]).
  - right. rewrite Hbw. unfold MediaRead.truthy. cbn.
    destruct (Z.eqb_spec bw 0); [lia|done].
  - left. rewrite Hbpp. unfold MediaRead.truthy. cbn.
    destruct (Z.eqb_spec bpp 0); [lia|done].
Qed.

Lemma upload_one_write_per_level_witness :
  let cmds := (upload all_features quiet_nan MediaRead.vkFormatToWebGPU
                 Sample.rgba8_4x4 Sample.rgba8_4x4_parsed).2 in
  exists format writes,
    cmds = createTexture (Read.pixelWidth (Read.header Sample.rgba8_4x4_parsed))
             (Read.pixelHeight (Read.header Sample.rgba8_4x4_parsed)) format
             (length (Read.levels Sample.rgba8_4x4_parsed)) :: writes
    /\ length writes = length (Read.levels Sample.rgba8_4x4_parsed)
    /\ forall i c, writes !! i = Some c -> aligned_write i c.
Proof.
  apply (upload_one_write_per_level all_features quiet_nan MediaRead.vkFormatToWebGPU
           Sample.rgba8_4x4 Sample.rgba8_4x4_parsed).
  - exact vkFormatToWebGPU_uploads.
  - vm_compute. reflexivity.
Defined.

Lemma uploadLevels_only_writes nan_bits sel buf i levels :
  Forall is_write (uploadLevels nan_bits sel buf i levels).2.
Proof.
  revert i. induction levels as [|lvl rest IH]; intros i; [constructor|].
  cbn [uploadLevels].
  destruct (uploadLevel nan_bits sel buf i lvl) as [c1|e] eqn:Hone; [|constructor].
  specialize (IH (S i)).
  destruct (uploadLevels nan_bits sel buf (S i) rest) as [r more].
  cbn [snd] in *. apply Forall_app. split; [|done].
  unfold uploadLevel in Hone. inv_bind Hone.
  destruct (isPixel sel).
  - do 2 inv_bind Hone. injection Hone as <-. by repeat constructor.
  - destruct (isBlock sel).
    + inv_bind Hone. injection Hone as <-. by repeat constructor.
    + injection Hone as <-. constructor.
Qed.

(** X26. [loadKTX2_ToTexture] creates a texture only on a device with
    the BC feature, and it never creates a texture of an ETC2 or ASTC
    format on a device without the respective feature, whatever the
    parser and the format table return. *)
Theorem loader_feature_guard parseKTX2 features nan_bits table buf w h f n :
  createTexture w h f n
    ∈ (loadKTX2_ToTexture parseKTX2 features nan_bits table buf).2 ->
  bc features = true
  /\ (String.prefix "etc2" f = true -> etc2 features = true)
  /\ (String.prefix "astc" f = true -> astc features = true).
Proof.
  unfold loadKTX2_ToTexture. intros H.
  destruct (bc features); [|by apply elem_of_nil in H]. split; [done|].
  cbn [negb] in H.
  destruct (parseKTX2 buf) as [pt|e]; [|by apply elem_of_nil in H].
  unfold upload in H.
  destruct (negb (_ && _)); [by apply elem_of_nil in H|].
  destruct (selectFormat features table (Read.header pt) (Read.levels pt))
    as [sel|e] eqn:Hsel; [|by apply elem_of_nil in H].
  pose proof (uploadLevels_only_writes nan_bits sel buf 0 (Read.levels pt)) as Hw.
  destruct (uploadLevels nan_bits sel buf 0 (Read.levels pt)) as [r writes].
  cbn [snd] in *. apply elem_of_cons in H. destruct H as [H|H].
  - injection H as _ _ -> _.
    unfold selectFormat in Hsel. inv_bind Hsel.
    destruct (String.prefix "etc2" (wgpuFormat a)) eqn:He,
             (String.prefix "astc" (wgpuFormat a)) eqn:Ha,
             (etc2 features), (astc features);
      cbn in Hsel; try discriminate Hsel; injection Hsel as <-;
      rewrite ?He, ?Ha; split; intros; done.
  - rewrite Forall_forall in Hw. by apply Hw in H.
Qed.

Lemma loader_feature_guard_witness :
  bc all_features = true
  /\ (String.prefix "etc2" "rgba8unorm" = true -> etc2 all_features = true)
  /\ (String.prefix "astc" "rgba8unorm" = true -> astc all_features = true).
Proof.
  apply (loader_feature_guard (parser_of Sample.no_env) all_features quiet_nan
           MediaRead.vkFormatToWebGPU Sample.rgba8_4x4 4 4 "rgba8unorm" 3).
  vm_compute. apply elem_of_cons. by left.
Defined.

(** *** Zstandard textures in the loader *)

Import Read.

Lemma zstdLoop_decompressed f arrayBuffer n i ls tr ls' tr' :
  zstdLoop f arrayBuffer n i ls tr = (Ok ls', tr') ->
  (i + n = length ls)%nat ->
  length ls' = length ls
  /\ (forall j, (j < i)%nat -> ls' !! j = ls !! j)
  /\ forall j lvl', (i <= j)%nat -> ls' !! j = Some lvl' ->
       isDecompressed lvl' = true
       /\ exists lvl, ls !! j = Some lvl
                      /\ transcodedFormat lvl' = transcodedFormat lvl.
Proof.
  revert i ls tr. induction n as [|n IH]; intros i ls tr H Hn.
  - injection H as <- <-. split; [done|]. split; [done|].
    intros j lvl' Hj Hl. apply lookup_lt_Some in Hl. lia.
  - cbn [zstdLoop] in H.
    destruct (ls !! i) as [level|] eqn:Hi.
    2: { apply lookup_ge_None in Hi. lia. }
    inv_bindM H.
    destruct (f a) as [d|]; [|discriminate H].
    inv_bindM H.
    apply IH in H; [|rewrite length_insert; lia].
    destruct H as (Hlen & Hold & Hnew).
    rewrite length_insert in Hlen.
    split; [done|]. split.
    + intros j Hj. rewrite Hold by lia. apply list_lookup_insert_ne. lia.
    + intros j lvl' Hj Hl. destruct (decide (j = i)) as [->|Hne].
      * rewrite Hold in Hl by lia.
        rewrite list_lookup_insert_eq in Hl by (apply lookup_lt_Some in Hi; lia).
        injection Hl as <-. split; [done|]. by exists level.
      * destruct (Hnew j lvl' ltac:(lia) Hl) as (Hflag & lvl & Hl0 & Hfmt).
        split; [done|]. exists lvl. split; [|done].
        by rewrite list_lookup_insert_ne in Hl0 by lia.
Qed.

Lemma zstd_levels_decompressed env arrayBuffer c pt tr :
  parseContainer env arrayBuffer = Ok c ->
  supercompressionScheme (header c) = SUPERCOMPRESSION_ZSTD ->
  run env arrayBuffer = (Ok pt, tr) ->
  exists l, levels pt !! 0%nat = Some l
            /\ isDecompressed l = true /\ transcodedFormat l = None.
Proof.
  intros Hc Hs Hrun.
  rewrite (run_of_container _ _ _ Hc) in Hrun.
  destruct (resolveSupercompression env arrayBuffer c []) as [[ls'|e] tr0] eqn:Hres;
    cbn in Hrun; [|discriminate Hrun].
  injection Hrun as <- <-. cbn [levels].
  unfold resolveSupercompression in Hres. rewrite Hs in Hres. cbn in Hres.
  inv_bindM Hres.
  apply zstdLoop_decompressed in Hres; [|lia].
  destruct Hres as (Hlen & _ & Hnew).
  destruct (parseContainer_levels _ _ _ Hc) as (off & Hloop).
  apply readLevel_loop in Hloop. destruct Hloop as (Hcount & _ & Hfresh).
  cbn [length Nat.add] in Hcount.
  assert (0 < length ls')%nat as Hpos.
  { rewrite Hlen, Hcount. rewrite iterLevelCount_max. lia. }
  destruct (lookup_lt_is_Some_2 ls' 0 Hpos) as [l Hl].
  exists l. split; [done|].
  destruct (Hnew 0%nat l ltac:(lia) Hl) as (Hflag & lvl & Hl0 & Hfmt).
  split; [done|]. rewrite Hfmt.
  by destruct (Hfresh 0%nat lvl Hl0) as (_ & _ & _ & _ & ?).
Qed.

(** X27. A file with Zstandard supercompression is always uploaded as
    "rgba8unorm", whatever its Vulkan format: the reader marks the levels
    as decompressed without a transcoded format, and the loader takes
    such levels for transcoder output of the default kind. *)
Theorem zstd_uploaded_as_rgba8 env features nan_bits table arrayBuffer c w h f n :
  parseContainer env arrayBuffer = Ok c ->
  supercompressionScheme (header c) = SUPERCOMPRESSION_ZSTD ->
  createTexture w h f n
    ∈ (loadKTX2_ToTexture (parser_of env) features nan_bits table arrayBuffer).2 ->
  f = "rgba8unorm".
Proof.
  intros Hc Hs. unfold loadKTX2_ToTexture, parser_of. intros H.
  destruct (bc features); [|by apply elem_of_nil in H]. cbn [negb] in H.
  destruct (run env arrayBuffer) as [[pt|e] tr] eqn:Hrun; cbn [fst] in H;
    [|by apply elem_of_nil in H].
  destruct (zstd_levels_decompressed _ _ _ _ _ Hc Hs Hrun) as (l & Hl & Hflag & Hfmt).
  unfold upload in H.
  destruct (negb (_ && _)); [by apply elem_of_nil in H|].
  destruct (selectFormat features table (header pt) (levels pt))
    as [sel|e] eqn:Hsel; [|by apply elem_of_nil in H].
  pose proof (uploadLevels_only_writes nan_bits sel arrayBuffer 0 (levels pt)) as Hw.
  destruct (uploadLevels nan_bits sel arrayBuffer 0 (levels pt)) as [r writes].
  cbn [snd] in *. apply elem_of_cons in H. destruct H as [H|H].
  - injection H as _ _ -> _.
    unfold selectFormat in Hsel. rewrite Hl, Hflag in Hsel. cbn in Hsel.
    rewrite Hfmt in Hsel. cbn in Hsel. by injection Hsel as <-.
  - rewrite Forall_forall in Hw. by apply Hw in H.
Qed.

Lemma zstd_uploaded_as_rgba8_witness :
  vkFormat (header zstd_bc7_container) = 145
  /\ createTexture 16 16 "rgba8unorm" 1
       ∈ (loadKTX2_ToTexture (parser_of Sample.zstd_env) all_features quiet_nan
            MediaRead.vkFormatToWebGPU zstd_bc7).2
  /\ "rgba8unorm" = "rgba8unorm".
Proof.
  assert (createTexture 16 16 "rgba8unorm" 1
            ∈ (loadKTX2_ToTexture (parser_of Sample.zstd_env) all_features quiet_nan
                 MediaRead.vkFormatToWebGPU zstd_bc7).2) as Hin.
  { vm_compute. apply elem_of_cons. by left. }
  split; [reflexivity|]. split; [exact Hin|].
  apply (zstd_uploaded_as_rgba8 Sample.zstd_env all_features quiet_nan
           MediaRead.vkFormatToWebGPU zstd_bc7 zstd_bc7_container 16 16 "rgba8unorm" 1).
  - vm_compute. reflexivity.
  - reflexivity.
  - exact Hin.
Defined.

(** ** The libktx texture *)

Import Transcoder.

Lemma collect_spec texture n i mips tr :
  exists r evs,
    collect texture n i mips tr = (r, tr ++ evs)
    /\ Forall image_event evs
    /\ forall mips', r = Ok mips' ->
         length mips' = (length mips + n)%nat
         /\ (forall j, (j < length mips)%nat -> mips' !! j = mips !! j)
         /\ forall k mip, mips' !! (length mips + k)%nat = Some mip ->
              mip_of texture (i + k) mip.
Proof.
  revert i mips tr. induction n as [|n IH]; intros i mips tr.
  - exists (Ok mips), []. rewrite app_nil_r. split; [done|]. split; [constructor|].
    intros mips' [= <-]. split; [lia|]. split; [done|].
    intros k mip Hk. apply lookup_lt_Some in Hk. lia.
  - cbn [collect]. destruct (getImage texture) as [g|] eqn:Hg.
    + unfold bindT, Transcoder.ext. destruct (g i) as [d|] eqn:Hd.
      * destruct (IH (S i) (mips ++ [ {| data := d;
                      width := Z.max 1 (shr (baseWidth texture) (Z.of_nat i));
                      height := Z.max 1 (shr (baseHeight texture) (Z.of_nat i)) |} ])
                    (tr ++ [Call_getImage i])) as (r & evs & Hrun & Hevs & Hok).
        exists r, (Call_getImage i :: evs). rewrite Hrun.
        split; [by rewrite <- app_assoc|]. split; [by constructor|].
        intros mips' Hr. destruct (Hok mips' Hr) as (Hlen & Hold & Hnew).
        rewrite length_app in Hlen, Hold, Hnew. cbn [length] in Hlen, Hold, Hnew.
        split; [lia|]. split.
        -- intros j Hj. rewrite Hold by lia. by rewrite lookup_app_l.
        -- intros k mip Hk. destruct k as [|k].
           ++ rewrite Nat.add_0_r in *. rewrite Hold in Hk by lia.
              rewrite lookup_app_r, Nat.sub_diag in Hk by lia.
              injection Hk as <-. split; [done|]. split; [done|]. by exists g.
           ++ replace (i + S k)%nat with (S i + k)%nat by lia.
              apply Hnew. rewrite <- Hk. f_equal. lia.
      * eexists _, [_]. split; [done|]. split; [by repeat constructor|].
        intros mips' Hr. discriminate Hr.
    + eexists _, []. unfold Transcoder.throw. rewrite app_nil_r.
      split; [done|]. split; [constructor|]. intros mips' Hr. discriminate Hr.
Qed.

(** The body of the [try]: at most one call of [transcodeBasis], made
    exactly when the texture has a [needsTranscoding] method or format
    code 0, then the calls of [getImage]. *)
Lemma process_spec m texture tr :
  exists r pre evs,
    process m texture tr = (r, tr ++ pre ++ evs)
    /\ pre = (if needsTranscoding texture || (Transcoder.vkFormat texture =? 0)
              then [Call_transcodeBasis (targetFormat m)] else [])
    /\ Forall image_event evs
    /\ forall mips, r = Ok mips ->
         length mips
         = Z.to_nat (if numLevels texture =? 0 then 1 else numLevels texture)
         /\ forall i mip, mips !! i = Some mip -> mip_of texture i mip.
Proof.
  unfold process.
  set (n := Z.to_nat _).
  assert ((if needsTranscoding texture then true
           else Transcoder.vkFormat texture =? 0)
          = needsTranscoding texture || (Transcoder.vkFormat texture =? 0)) as ->
    by (by destruct (needsTranscoding texture)).
  destruct (needsTranscoding texture || (Transcoder.vkFormat texture =? 0)).
  - unfold bindT at 1. unfold bindT at 1. unfold Transcoder.ext.
    destruct (transcodeBasis texture (targetFormat m)) as [[|]|].
    + unfold Transcoder.ret at 1.
      destruct (collect_spec texture n 0 [] (tr ++ [Call_transcodeBasis (targetFormat m)]))
        as (r & evs & Hrun & Hevs & Hok).
      exists r, [Call_transcodeBasis (targetFormat m)], evs.
      rewrite Hrun. split; [by rewrite <- app_assoc|]. split; [done|].
      split; [done|]. intros mips Hr. destruct (Hok mips Hr) as (Hlen & _ & Hnew).
      split; [exact Hlen|]. intros i mip Hi. by apply (Hnew i mip).
    + eexists _, [_], []. unfold Transcoder.throw. split; [done|]. split; [done|].
      split; [constructor|]. intros mips Hr. discriminate Hr.
    + eexists _, [_], []. split; [done|]. split; [done|].
      split; [constructor|]. intros mips Hr. discriminate Hr.
  - unfold bindT at 1. unfold Transcoder.ret at 1.
    destruct (collect_spec texture n 0 [] tr) as (r & evs & Hrun & Hevs & Hok).
    exists r, [], evs. split; [done|]. split; [done|]. split; [done|].
    intros mips Hr. destruct (Hok mips Hr) as (Hlen & _ & Hnew).
    split; [exact Hlen|]. intros i mip Hi. by apply (Hnew i mip).
Qed.

Lemma image_events_clean evs :
  Forall image_event evs ->
  (New_ktxTexture ∉ evs) /\ (Call_delete ∉ evs) /\ (Log_error ∉ evs)
  /\ forall f, Call_transcodeBasis f ∉ evs.
Proof.
  intros H. rewrite Forall_forall in H.
  repeat split; [intros Hin|intros Hin|intros Hin|intros f Hin];
    by apply H in Hin.
Qed.

(** The trace of a run on a texture that was created. *)
Lemma transcodeFullKTX2_trace m fileBuffer texture :
  ktxTexture m fileBuffer = Returns texture ->
  exists r pre evs log,
    transcodeFullKTX2 (Returns m) fileBuffer []
    = (r, New_ktxTexture :: pre ++ evs ++ log
          ++ match delete texture with Some _ => [Call_delete] | None => [] end)
    /\ pre = (if needsTranscoding texture || (Transcoder.vkFormat texture =? 0)
              then [Call_transcodeBasis (targetFormat m)] else [])
    /\ Forall image_event evs
    /\ (log = [] \/ log = [Log_error])
    /\ forall mips, r = Ok mips ->
         length mips
         = Z.to_nat (if numLevels texture =? 0 then 1 else numLevels texture)
         /\ forall i mip, mips !! i = Some mip -> mip_of texture i mip.
Proof.
  intros Hnew. unfold transcodeFullKTX2. rewrite Hnew.
  unfold finally_delete, logged.
  destruct (process_spec m texture ([] ++ [New_ktxTexture]))
    as (r & pre & evs & Hrun & Hpre & Hevs & Hok).
  rewrite Hrun. cbn [app] in *.
  assert (forall (r' : result (list Mip)) (log : list Transcoder.event),
            (log = [] \/ log = [Log_error]) ->
            (forall mips, r' = Ok mips -> r = Ok mips) ->
            pre = (if needsTranscoding texture || (Transcoder.vkFormat texture =? 0)
                   then [Call_transcodeBasis (targetFormat m)] else [])
            /\ Forall image_event evs
            /\ (log = [] \/ log = [Log_error])
            /\ forall mips, r' = Ok mips ->
                 length mips
                 = Z.to_nat (if numLevels texture =? 0 then 1 else numLevels texture)
                 /\ forall i mip, mips !! i = Some mip -> mip_of texture i mip)
    as Hrest.
  { intros r' log Hlog Hr. split; [done|]. split; [done|]. split; [done|].
    intros mips Hm. apply Hok. by apply Hr. }
  destruct r as [mips|e].
  - destruct (delete texture) as [[[]|]|].
    + exists (Ok mips), pre, evs, [].
      split; [cbn; by rewrite <- ?app_assoc|]. apply Hrest; [by left|done].
    + exists (Err Thrown), pre, evs, [].
      split; [cbn; by rewrite <- ?app_assoc|]. apply Hrest; [by left|done].
    + exists (Ok mips), pre, evs, [].
      split; [cbn; by rewrite ?app_nil_r|]. apply Hrest; [by left|done].
  - destruct (delete texture) as [[[]|]|].
    + exists (Err e), pre, evs, [Log_error].
      split; [cbn; by rewrite <- ?app_assoc|]. apply Hrest; [by right|done].
    + exists (Err Thrown), pre, evs, [Log_error].
      split; [cbn; by rewrite <- ?app_assoc|]. apply Hrest; [by right|done].
    + exists (Err e), pre, evs, [Log_error].
      split; [cbn; by rewrite <- ?app_assoc|]. apply Hrest; [by right|done].
Qed.

(** X28. [transcodeFullKTX2] releases what it creates: once the texture
    object is constructed, [delete] is called exactly once and as the
    last action, on success and on every failure, provided the texture
    has a [delete] method; when the constructor throws, the error is
    logged and nothing is deleted; when libktx cannot be initialised,
    nothing happens at all. *)
Theorem transcodeFullKTX2_releases initLibKTX fileBuffer :
  let tr := (transcodeFullKTX2 initLibKTX fileBuffer []).2 in
  match initLibKTX with
  | Returns m =>
      match ktxTexture m fileBuffer with
      | Returns texture =>
          exists evs,
            (New_ktxTexture ∉ evs) /\ (Call_delete ∉ evs)
            /\ tr = New_ktxTexture :: evs
                    ++ match delete texture with
                       | Some _ => [Call_delete]
                       | None => []
                       end
      | Throws => tr = [Log_error]
      end
  | Throws => tr = []
  end.
Proof.
  intros tr. unfold tr. clear tr.
  destruct initLibKTX as [m|]; [|done].
  destruct (ktxTexture m fileBuffer) as [texture|] eqn:Hnew.
  2: { unfold transcodeFullKTX2. by rewrite Hnew. }
  destruct (transcodeFullKTX2_trace m fileBuffer texture Hnew)
    as (r & pre & evs & log & Hrun & Hpre & Hevs & Hlog & _).
  rewrite Hrun. cbn [snd].
  destruct (image_events_clean evs Hevs) as (H1 & H2 & _).
  exists (pre ++ evs ++ log). rewrite <- !app_assoc. split; [|split; [|done]].
  - intros [H|[H|H]%elem_of_app]%elem_of_app; [|done|].
    + rewrite Hpre in H. destruct (_ || _) in H.
      * by apply list_elem_of_singleton in H.
      * by apply elem_of_nil in H.
    + destruct Hlog as [-> | ->]; [by apply elem_of_nil in H|].
      by apply list_elem_of_singleton in H.
  - intros [H|[H|H]%elem_of_app]%elem_of_app; [|done|].
    + rewrite Hpre in H. destruct (_ || _) in H.
      * by apply list_elem_of_singleton in H.
      * by apply elem_of_nil in H.
    + destruct Hlog as [-> | ->]; [by apply elem_of_nil in H|].
      by apply list_elem_of_singleton in H.
Qed.

(** X29. What [transcodeFullKTX2] returns: one mip per level of the
    texture ([numLevels], or 1 when that is missing or 0), mip [i]
    holding the bytes that [getImage(i, 0, 0)] returned and the base
    width and height shifted right by [i], at least 1. *)
Theorem transcodeFullKTX2_mips initLibKTX fileBuffer mips tr :
  transcodeFullKTX2 initLibKTX fileBuffer [] = (Ok mips, tr) ->
  exists m texture,
    initLibKTX = Returns m /\ ktxTexture m fileBuffer = Returns texture
    /\ length mips
       = Z.to_nat (if numLevels texture =? 0 then 1 else numLevels texture)
    /\ forall i mip, mips !! i = Some mip -> mip_of texture i mip.
Proof.
  intros Hrun.
  destruct initLibKTX as [m|]; [|discriminate Hrun].
  destruct (ktxTexture m fileBuffer) as [texture|] eqn:Hnew.
  2: { unfold transcodeFullKTX2 in Hrun. rewrite Hnew in Hrun. discriminate Hrun. }
  destruct (transcodeFullKTX2_trace m fileBuffer texture Hnew)
    as (r & pre & evs & log & Hrun' & _ & _ & _ & Hok).
  rewrite Hrun in Hrun'. injection Hrun' as <- _.
  exists m, texture. split; [done|]. split; [done|]. by apply Hok.
Qed.

Lemma transcodeFullKTX2_mips_witness :
  exists m texture,
    Returns sample_lib = Returns m /\ ktxTexture m [] = Returns texture
    /\ length sample_mips
       = Z.to_nat (if numLevels texture =? 0 then 1 else numLevels texture)
    /\ forall i mip, sample_mips !! i = Some mip -> mip_of texture i mip.
Proof.
  apply (transcodeFullKTX2_mips (Returns sample_lib) [] sample_mips
           (transcodeFullKTX2 (Returns sample_lib) [] []).2).
  vm_compute. reflexivity.
Defined.

(** X30. On a texture that was constructed, [transcodeBasis] is called
    exactly when the texture has a [needsTranscoding] method or its
    format code is 0, and only with the target that the module names
    (BC7_M5_RGBA, else BC7_RGBA, else 0x93). *)
Theorem transcodeFullKTX2_transcodes m fileBuffer texture f :
  ktxTexture m fileBuffer = Returns texture ->
  Call_transcodeBasis f ∈ (transcodeFullKTX2 (Returns m) fileBuffer []).2
  <-> f = targetFormat m
      /\ (needsTranscoding texture = true \/ Transcoder.vkFormat texture = 0).
Proof.
  intros Hnew.
  destruct (transcodeFullKTX2_trace m fileBuffer texture Hnew)
    as (r & pre & evs & log & Hrun & Hpre & Hevs & Hlog & _).
  rewrite Hrun. cbn [snd].
  destruct (image_events_clean evs Hevs) as (_ & _ & _ & Hnone).
  assert (needsTranscoding texture || (Transcoder.vkFormat texture =? 0) = true
          <-> needsTranscoding texture = true \/ Transcoder.vkFormat texture = 0)
    as Hshould.
  { rewrite orb_true_iff. by rewrite Z.eqb_eq. }
  split.
  - intros [H|H]%elem_of_cons; [discriminate H|].
    apply elem_of_app in H. destruct H as [H|H].
    + rewrite Hpre in H. destruct (_ || _) eqn:Hs in H.
      * apply list_elem_of_singleton in H. injection H as ->.
        split; [done|]. by apply Hshould.
      * by apply elem_of_nil in H.
    + apply elem_of_app in H. destruct H as [H|H]; [by apply Hnone in H|].
      apply elem_of_app in H. destruct H as [H|H].
      * destruct Hlog as [-> | ->]; [by apply elem_of_nil in H|].
        by apply list_elem_of_singleton in H.
      * destruct (delete texture); [by apply list_elem_of_singleton in H|].
        by apply elem_of_nil in H.
  - intros [-> Hs]. apply Hshould in Hs.
    apply elem_of_cons. right. apply elem_of_app. left.
    rewrite Hpre, Hs. by apply list_elem_of_singleton.
Qed.


Lemma transcodeFullKTX2_transcodes_witness :
  Call_transcodeBasis (EnumNumber 147)
    ∈ (transcodeFullKTX2 (Returns sample_lib) [] []).2
  <-> EnumNumber 147 = targetFormat sample_lib
      /\ (needsTranscoding sample_texture = true
          \/ Transcoder.vkFormat sample_texture = 0).
Proof.
  apply (transcodeFullKTX2_transcodes sample_lib [] sample_texture).
  reflexivity.
Defined.
